(** * full_dashboard.py: the social media analysis dashboard

    A shallow embedding of the one script of the repository.  The script
    reads four CSV files with pandas, builds three plotly figures and a
    summary card, places them in a Dash layout and starts the server.

    The embedding follows the script statement by statement.  The three
    libraries are modelled as far as the script uses them:
    - a pandas [DataFrame] is a list of named, typed columns; data frames
      are objects on a heap, the module-level names of the script hold
      references to them;
    - statements run in a monad that threads the heap and the standard
      output and may raise a Python exception;
    - a plotly figure and a Dash component tree are plain values. *)

From Stdlib Require Import ZArith Lia Ascii.
From Stdlib Require PrimFloat Uint63 FloatOps SpecFloat.
From stdpp Require Import gmap strings list sorting pretty.

(** ** Python values *)

(** The exceptions that the modelled operations can raise. *)
Inductive exn :=
| FileNotFoundError (filename : string)
| EmptyDataError
| ParserError
| NameError (name : string)
| KeyError (key : string)
| ValueError (msg : string)
| TypeError (msg : string)
| IndexError
| ReferenceError
| ZeroDivisionError
| SystemExit.

(** A value, or the exception raised on the way to it. *)
#[global] Instance result_ret : MRet (sum exn) := λ A, inr.
#[global] Instance result_bind : MBind (sum exn) := λ A B k r,
  match r with
  | inr a => k a
  | inl e => inl e
  end.

(** Binary64 arithmetic as numpy and Python provide it, and the date parser
    of pandas.  The operations are total: numpy's division of doubles
    follows IEEE 754 and yields an infinity or a NaN where Python's own
    division raises. *)
Class Platform := {
  float64 : Type;
  (** conversion of an integer to the nearest double *)
  f64_of_int : Z → float64;
  (** IEEE 754 division *)
  f64_div : float64 → float64 → float64;
  (** [float.__round__(x, ndigits)] of Python *)
  py_round : float64 → Z → float64;
  (** [numpy.float64.__round__(x, ndigits)] *)
  np_round : float64 → Z → float64;
  (** the sum of a float64 column *)
  f64_sum : list float64 → float64;
  (** [x <= y] on doubles *)
  f64_leb : float64 → float64 → bool;
  f64_isnan : float64 → bool;
  (** [pandas.to_datetime] on a column of text and on a column of doubles:
      nanoseconds since the epoch, one per cell, unless a cell is refused *)
  parse_dates : list string → option (list Z);
  float_dates : list float64 → option (list Z);
  parse_dates_length : ∀ l r, parse_dates l = Some r → length r = length l;
  float_dates_length : ∀ l r, float_dates l = Some r → length r = length l;
}.

(** The dtypes the script meets: [read_csv] infers [int64] for a column of
    integers, [float64] for a column of decimal numbers and [object] for
    text and for a column without rows; [to_datetime] yields
    [datetime64]. *)
Inductive Series `{Platform} :=
| Int64 (values : list Z)
| Float64 (values : list float64)
| Object (values : list string)
| Datetime64 (values : list Z).

(** One cell of a column, whatever its dtype. *)
Inductive cell `{Platform} :=
| CInt (z : Z)
| CFloat (x : float64)
| CStr (s : string)
| CDate (ns : Z).

(** What [Series.sum()] and the arithmetic on its result return. *)
Inductive pyobj `{Platform} :=
| PyInt (z : Z)
| PyFloat (x : float64)
| PyStr (s : string)
| NpInt64 (z : Z)
| NpFloat64 (x : float64).

(** Two's complement wrap-around of numpy's [int64] arithmetic. *)
Definition wrap64 (z : Z) : Z := ((z + 2 ^ 63) mod 2 ^ 64 - 2 ^ 63)%Z.

Section Pandas.
Context `{Platform}.

Definition Series_values (s : Series) : list cell :=
  match s with
  | Int64 l => CInt <$> l
  | Float64 l => CFloat <$> l
  | Object l => CStr <$> l
  | Datetime64 l => CDate <$> l
  end.

Definition Series_len (s : Series) : nat := length (Series_values s).

(** The cells of [l] at the positions [idx], in the order of [idx]. *)
Definition reindex {A} (idx : list nat) (l : list A) : list A :=
  omap (λ i, l !! i) idx.

Definition Series_head (n : nat) (s : Series) : Series :=
  match s with
  | Int64 l => Int64 (take n l)
  | Float64 l => Float64 (take n l)
  | Object l => Object (take n l)
  | Datetime64 l => Datetime64 (take n l)
  end.

Definition Series_reindex (idx : list nat) (s : Series) : Series :=
  match s with
  | Int64 l => Int64 (reindex idx l)
  | Float64 l => Float64 (reindex idx l)
  | Object l => Object (reindex idx l)
  | Datetime64 l => Datetime64 (reindex idx l)
  end.

(** [s.take(idx)]: a position past the last cell raises [IndexError]. *)
Definition Series_take (idx : list nat) (s : Series) : exn + Series :=
  if decide (Forall (λ i, i < Series_len s) idx) then inr (Series_reindex idx s)
  else inl IndexError.

(** [numpy.argsort]: the positions of the cells in ascending order of the
    cells.  pandas sorts with numpy's default kind, which is not stable;
    the order among equal keys is a choice of this model and no theorem
    below depends on it. *)
Definition argsort {A} (leb : A → A → bool) (l : list A) : list nat :=
  (merge_sort (λ p q : A * nat, leb p.1 q.1) (zip l (seq 0 (length l)))).*2.

(** Missing values sort last ([na_position='last']). *)
Definition nan_last (leb : float64 → float64 → bool) (x y : float64) : bool :=
  f64_isnan y || (negb (f64_isnan x) && leb x y).

Definition Series_argsort (ascending : bool) (s : Series) : list nat :=
  let dir {A} (leb : A → A → bool) : A → A → bool :=
    if ascending then leb else flip leb in
  match s with
  | Int64 l | Datetime64 l => argsort (dir Z.leb) l
  | Float64 l => argsort (nan_last (dir f64_leb)) l
  | Object l => argsort (dir String.leb) l
  end.

(** [Series.sum()].  An [int64] column sums to a numpy [int64] scalar, with
    wrap-around; an [object] column is folded with Python's [+] from [0],
    so the empty one sums to the Python integer [0] and a column of text
    to the concatenation; [datetime64] does not support the reduction. *)
Definition Series_sum (s : Series) : exn + pyobj :=
  match s with
  | Int64 l => inr (NpInt64 (wrap64 (foldr Z.add 0%Z l)))
  | Float64 l => inr (NpFloat64 (f64_sum l))
  | Object [] => inr (PyInt 0)
  | Object l => inr (PyStr (foldr String.append EmptyString l))
  | Datetime64 _ => inl (TypeError "datetime64 type does not support sum operations")
  end.

(** [pd.to_datetime(s)]: integers count nanoseconds since the epoch; a
    cell that is no date raises a [ValueError]. *)
Definition to_datetime (s : Series) : exn + Series :=
  let converted (r : option (list Z)) : exn + Series :=
    match r with
    | Some l => inr (Datetime64 l)
    | None => inl (ValueError "Unknown datetime string format")
    end in
  match s with
  | Int64 l | Datetime64 l => inr (Datetime64 l)
  | Float64 l => converted (float_dates l)
  | Object l => converted (parse_dates l)
  end.

(** [x / n] for [n] a Python integer.  Between Python's own numbers a zero
    divisor raises [ZeroDivisionError].  A numpy scalar on the left makes
    the division numpy's [true_divide]: both operands become doubles and
    are divided as IEEE 754 prescribes, so that a zero divisor gives an
    infinity or a NaN (and a [RuntimeWarning]), not an exception. *)
Definition truediv (x : pyobj) (n : Z) : exn + pyobj :=
  match x with
  | PyInt a =>
      if decide (n = 0%Z) then inl ZeroDivisionError
      else inr (PyFloat (f64_div (f64_of_int a) (f64_of_int n)))
  | PyFloat a =>
      if decide (n = 0%Z) then inl ZeroDivisionError
      else inr (PyFloat (f64_div a (f64_of_int n)))
  | NpInt64 a => inr (NpFloat64 (f64_div (f64_of_int a) (f64_of_int n)))
  | NpFloat64 a => inr (NpFloat64 (f64_div a (f64_of_int n)))
  | PyStr _ => inl (TypeError "unsupported operand type(s) for /: 'str' and 'int'")
  end.

(** The builtin [round(x, ndigits)]. *)
Definition round (x : pyobj) (ndigits : Z) : exn + pyobj :=
  match x with
  | PyInt a => inr (PyInt a)
  | NpInt64 a => inr (NpInt64 a)
  | PyFloat a => inr (PyFloat (py_round a ndigits))
  | NpFloat64 a => inr (NpFloat64 (np_round a ndigits))
  | PyStr _ => inl (TypeError "type str doesn't define __round__ method")
  end.

(** *** Data frames *)

(** The columns of a frame, in their order. *)
Definition DataFrame : Type := list (string * Series).

Fixpoint DataFrame_column (df : DataFrame) (c : string) : option Series :=
  match df with
  | [] => None
  | (c', s) :: df => if decide (c' = c) then Some s else DataFrame_column df c
  end.

(** [len(df)] and [df.shape[0]] *)
Definition DataFrame_len (df : DataFrame) : nat :=
  match df with
  | [] => 0
  | (_, s) :: _ => Series_len s
  end.

(** The columns of a pandas data frame have one length, the number of
    rows; [read_csv] returns no other frame. *)
Definition DataFrame_wf (df : DataFrame) : Prop :=
  Forall (λ cs, Series_len cs.2 = DataFrame_len df) df.

(** [df[c]] *)
Definition DataFrame_getitem (df : DataFrame) (c : string) : exn + Series :=
  match DataFrame_column df c with
  | Some s => inr s
  | None => inl (KeyError c)
  end.

(** [df[c] = s], on the frame itself: an existing column is replaced in
    its place, a new one is appended. *)
Fixpoint DataFrame_setitem (df : DataFrame) (c : string) (s : Series) : DataFrame :=
  match df with
  | [] => [(c, s)]
  | (c', s') :: df =>
      if decide (c' = c) then (c, s) :: df
      else (c', s') :: DataFrame_setitem df c s
  end.

(** [df.head(n)]: a new frame with the first [n] rows, all of them when
    the frame has fewer. *)
Definition DataFrame_head (df : DataFrame) (n : nat) : DataFrame :=
  prod_map id (Series_head n) <$> df.

(** [df.take(idx)]: a new frame, the rows at the positions [idx]. *)
Fixpoint DataFrame_take (idx : list nat) (df : DataFrame) : exn + DataFrame :=
  match df with
  | [] => inr []
  | (c, s) :: df =>
      s ← Series_take idx s;
      df ← DataFrame_take idx df;
      mret ((c, s) :: df)
  end.

(** [df.sort_values(by=c, ascending=a)]: a new frame, the rows permuted by
    the [argsort] of the column [c]. *)
Definition DataFrame_sort_values (df : DataFrame) (by_ : string) (ascending : bool)
  : exn + DataFrame :=
  match DataFrame_column df by_ with
  | None => inl (KeyError by_)
  | Some key => DataFrame_take (Series_argsort ascending key) df
  end.

End Pandas.

(** ** The interpreter state *)

(** Data frames are objects: a reference is the position of the object in
    the heap, which only grows. *)
Definition loc := nat.

(** The names bound at module level, the heap of data frames and what has
    been printed so far. *)
Record world `{Platform} := World {
  globals : gmap string loc;
  heap : list DataFrame;
  stdout : list string;
}.
Arguments World {_} _ _ _.

(** A statement: from a world to a value or a raised exception, and the
    world it leaves. *)
Definition M `{Platform} (A : Type) : Type := world → (exn + A) * world.

Section Monad.
Context `{Platform}.

Definition ret {A} (a : A) : M A := λ w, (inr a, w).

Definition bind {A B} (m : M A) (k : A → M B) : M B :=
  λ w, match m w with
       | (inr a, w') => k a w'
       | (inl e, w') => (inl e, w')
       end.

Definition raise {A} (e : exn) : M A := λ w, (inl e, w).

Definition lift {A} (r : exn + A) : M A := λ w, (r, w).

(** [try: body except ...: handler] *)
Definition try_except {A} (body : M A) (handler : exn → M A) : M A :=
  λ w, match body w with
       | (inl e, w') => handler e w'
       | (inr a, w') => (inr a, w')
       end.

Definition print (line : string) : M unit :=
  λ w, (inr (), World (globals w) (heap w) (stdout w ++ [line])).

(** [name = value] at module level *)
Definition assign (name : string) (value : loc) : M unit :=
  λ w, (inr (), World (<[name := value]> (globals w)) (heap w) (stdout w)).

(** The value of a module-level name. *)
Definition var (name : string) : M loc :=
  λ w, match globals w !! name with
       | Some l => (inr l, w)
       | None => (inl (NameError name), w)
       end.

(** A new object on the heap. *)
Definition new (df : DataFrame) : M loc :=
  λ w, (inr (length (heap w)), World (globals w) (heap w ++ [df]) (stdout w)).

(** The object a reference points to.  Python has no dangling references;
    [ReferenceError] marks one in the model. *)
Definition deref (l : loc) : M DataFrame :=
  λ w, match heap w !! l with
       | Some df => (inr df, w)
       | None => (inl ReferenceError, w)
       end.

(** In-place update of the object at [l]. *)
Definition update (l : loc) (f : DataFrame → DataFrame) : M unit :=
  λ w, match heap w !! l with
       | Some df => (inr (), World (globals w) (<[l := f df]> (heap w)) (stdout w))
       | None => (inl ReferenceError, w)
       end.

End Monad.

#[global] Instance M_ret `{Platform} : MRet M := @ret _.
#[global] Instance M_bind `{Platform} : MBind M := λ A B k m, bind m k.

(** ** pandas, plotly and Dash on references *)

Inductive file `{Platform} :=
| Csv (table : DataFrame)
| EmptyFile
| Garbled.

(** The working directory: what each path holds, if anything. *)
Definition filesystem `{Platform} : Type := string → option file.

Inductive color_sequence := Teal_r | Plasma_r.

Inductive color :=
| Hex (code : string)
| FirstOf (cs : color_sequence).

Inductive trace_type := Bar | Scatter.

Record trace `{Platform} := Trace {
  tr_type : trace_type;
  tr_x : Series;
  tr_y : Series;
  tr_orientation : string;
  tr_line_shape : option string;
  tr_line_color : option color;
  tr_marker_size : option Z;
  tr_marker_color : option color;
}.
Arguments Trace {_} _ _ _ _ _ _ _ _.

Record figure `{Platform} := Figure {
  fig_data : list trace;
  fig_title : string;
  fig_xaxis_title : string;
  fig_yaxis_title : string;
}.
Arguments Figure {_} _ _ _ _.

(** The text of an HTML element: a string, or the [str] of a double. *)
Inductive text `{Platform} :=
| Lit (s : string)
| FloatStr (x : float64).

Definition style : Type := list (string * string).

#[warnings="-register-all"] Inductive component `{Platform} :=
| Div (className : option string) (st : style) (children : list component)
| H1 (children : text) (st : style)
| H2 (children : text) (st : style)
| H3 (children : text) (st : style)
| P (children : text)
| Hr
| Graph (fig : figure).

Section Libraries.
Context `{Platform}.

(** What [pd.read_csv(path)] parses: a file that is not there, has no
    header line or cannot be tokenized raises. *)
Definition read (fs : filesystem) (path : string) : exn + DataFrame :=
  match fs path with
  | None => inl (FileNotFoundError path)
  | Some EmptyFile => inl EmptyDataError
  | Some Garbled => inl ParserError
  | Some (Csv df) => inr df
  end.

(** [pd.read_csv(path)]: a new data frame. *)
Definition read_csv (fs : filesystem) (path : string) : M loc :=
  df ← lift (read fs path); new df.

Definition head (df : loc) (n : nat) : M loc :=
  d ← deref df; new (DataFrame_head d n).

Definition sort_values (df : loc) (by_ : string) (ascending : bool) : M loc :=
  d ← deref df; s ← lift (DataFrame_sort_values d by_ ascending); new s.

Definition getitem (df : loc) (c : string) : M Series :=
  d ← deref df; lift (DataFrame_getitem d c).

Definition setitem (df : loc) (c : string) (s : Series) : M unit :=
  update df (λ d, DataFrame_setitem d c s).

(** plotly express reads the columns named by [x] and [y] and refuses a
    name that is not a column. *)
Definition px_column (d : DataFrame) (c : string) : exn + Series :=
  match DataFrame_column d c with
  | Some s => inr s
  | None => inl (ValueError ("Value of '" +:+ c +:+ "' is not the name of a column in 'data_frame'"))
  end.

(** [labels.get(c, c)] *)
Fixpoint label (labels : list (string * string)) (c : string) : string :=
  match labels with
  | [] => c
  | (k, v) :: labels => if decide (k = c) then v else label labels c
  end.

(** [px.bar]: one trace, one bar for each row of the frame. *)
Definition bar (d : DataFrame) (x y orientation title : string)
    (labels : list (string * string)) (color_discrete_sequence : color_sequence)
  : exn + figure :=
  xs ← px_column d x;
  ys ← px_column d y;
  mret {| fig_data := [ {| tr_type := Bar; tr_x := xs; tr_y := ys;
                           tr_orientation := orientation;
                           tr_line_shape := None; tr_line_color := None;
                           tr_marker_size := None;
                           tr_marker_color := Some (FirstOf color_discrete_sequence) |} ];
          fig_title := title;
          fig_xaxis_title := label labels x;
          fig_yaxis_title := label labels y |}.

Definition px_bar (df : loc) (x y orientation title : string)
    (labels : list (string * string)) (color_discrete_sequence : color_sequence)
  : M figure :=
  d ← deref df;
  lift (bar d x y orientation title labels color_discrete_sequence).

(** [px.line]: one trace, the rows joined in the order of the frame. *)
Definition line (d : DataFrame) (x y title : string)
    (labels : list (string * string)) (line_shape : string) : exn + figure :=
  xs ← px_column d x;
  ys ← px_column d y;
  mret {| fig_data := [ {| tr_type := Scatter; tr_x := xs; tr_y := ys;
                           tr_orientation := "v";
                           tr_line_shape := Some line_shape; tr_line_color := None;
                           tr_marker_size := None; tr_marker_color := None |} ];
          fig_title := title;
          fig_xaxis_title := label labels x;
          fig_yaxis_title := label labels y |}.

Definition px_line (df : loc) (x y title : string)
    (labels : list (string * string)) (line_shape : string) : M figure :=
  d ← deref df;
  lift (line d x y title labels line_shape).

(** [fig.update_traces(line_color=c, marker=dict(size=n, color=c'))] *)
Definition update_traces (fig : figure) (line_color : string)
    (marker_size : Z) (marker_color : string) : figure :=
  {| fig_data :=
       (λ t, {| tr_type := tr_type t; tr_x := tr_x t; tr_y := tr_y t;
                tr_orientation := tr_orientation t;
                tr_line_shape := tr_line_shape t;
                tr_line_color := Some (Hex line_color);
                tr_marker_size := Some marker_size;
                tr_marker_color := Some (Hex marker_color) |}) <$> fig_data fig;
     fig_title := fig_title fig;
     fig_xaxis_title := fig_xaxis_title fig;
     fig_yaxis_title := fig_yaxis_title fig |}.

(** The format [f"{n:,}"]: decimal digits in groups of three. *)
Fixpoint group_thousands (rev_digits : list ascii) : list ascii :=
  match rev_digits with
  | a :: b :: c :: rest =>
      match rest with
      | [] => [a; b; c]
      | _ => a :: b :: c :: ","%char :: group_thousands rest
      end
  | _ => rev_digits
  end.

Definition format_thousands (n : nat) : string :=
  String.string_of_list_ascii
    (rev (group_thousands (rev (String.list_ascii_of_string (pretty n))))).

(** The format [f"{x}"] *)
Definition format (x : pyobj) : text :=
  match x with
  | PyInt z | NpInt64 z => Lit (pretty z)
  | PyFloat a | NpFloat64 a => FloatStr a
  | PyStr s => Lit s
  end.

End Libraries.

(** ** The script *)

Definition newline : string := String "010"%char EmptyString.

Section Dashboard.
Context `{Platform}.
Variable fs : filesystem.

(** *** 1. Configuration and data loading *)

(** The body of the [try] block. *)
Definition load_data : M () :=
  df ← read_csv fs "mapreduce_word_count.csv";
  assign "word_count_df" df;;
  df ← read_csv fs "mapreduce_daily_sentiment.csv";
  assign "daily_sentiment_df" df;;
  df ← read_csv fs "mapreduce_user_stats.csv";
  assign "user_stats_df" df;;
  df ← read_csv fs "tweets_cleaned.csv";
  assign "cleaned_tweets_df" df;;
  df ← read_csv fs "tweets_cleaned.csv";
  df ← head df 1000;
  assign "emotions_sample_df" df;;
  daily_sentiment_df ← var "daily_sentiment_df";
  date ← getitem daily_sentiment_df "date";
  date ← lift (to_datetime date);
  daily_sentiment_df ← var "daily_sentiment_df";
  setitem daily_sentiment_df "date" date.

(** [str(e)] of the exception raised for a missing file. *)
Definition str_FileNotFoundError (filename : string) : string :=
  "[Errno 2] No such file or directory: '" +:+ filename +:+ "'".

(** The [except FileNotFoundError as e] clause; any other exception
    passes through. *)
Definition except_FileNotFoundError (e : exn) : M () :=
  match e with
  | FileNotFoundError filename =>
      print ("ERROR: A required CSV file was not found: "
             +:+ str_FileNotFoundError filename);;
      print "Please ensure you have run 01, 03, 04, and 05 R scripts and the output files are in this directory.";;
      raise SystemExit
  | _ => raise e
  end.

(** *** 3. Visualization functions *)

Definition create_word_count_chart (df : loc) : M figure :=
  top_words ← head df 20;
  top_words ← sort_values top_words "total_count" true;
  px_bar top_words "total_count" "word" "h"
    "Top 20 Most Frequent Words (MapReduce 1)"
    [("word", "Word"); ("total_count", "Total Count")]
    Teal_r.

Definition create_sentiment_line_chart (df : loc) : M figure :=
  fig ← px_line df "date" "avg_sentiment"
    "Daily Average Sentiment Trend (MapReduce 2)"
    [("date", "Date"); ("avg_sentiment", "Average Sentiment Score")]
    "spline";
  mret (update_traces fig "#006699" 5 "#006699").

Definition create_user_engagement_chart (df : loc) : M figure :=
  top_users ← head df 10;
  top_users ← sort_values top_users "total_engagement" true;
  px_bar top_users "total_engagement" "user" "h"
    "Top 10 Most Engaged Users (MapReduce 3)"
    [("user", "User ID");
     ("total_engagement", "Total Engagement (Likes + Retweets)")]
    Plasma_r.

Definition card_style : style :=
  [("border", "1px solid #ddd"); ("borderRadius", "5px"); ("padding", "10px");
   ("margin", "10px"); ("textAlign", "center"); ("backgroundColor", "#fff")].

Definition create_summary_card : M component :=
  cleaned_tweets_df ← var "cleaned_tweets_df";
  cleaned_tweets_df ← deref cleaned_tweets_df;
  let total_tweets := DataFrame_len cleaned_tweets_df in
  user_stats_df ← var "user_stats_df";
  user_stats_df ← deref user_stats_df;
  let unique_users := DataFrame_len user_stats_df in
  user_stats_df ← var "user_stats_df";
  total_likes ← getitem user_stats_df "total_likes";
  sum ← lift (Series_sum total_likes);
  quotient ← lift (truediv sum (Z.of_nat total_tweets));
  avg_likes ← lift (round quotient 2);
  mret (Div (Some "row") [] [
    Div (Some "four columns") card_style [
      H3 (Lit (format_thousands total_tweets)) [("color", "#003366")];
      P (Lit "Total Tweets Processed") ];
    Div (Some "four columns") card_style [
      H3 (Lit (format_thousands unique_users)) [("color", "#003366")];
      P (Lit "Unique Users Analyzed") ];
    Div (Some "four columns") card_style [
      H3 (format avg_likes) [("color", "#003366")];
      P (Lit "Avg. Likes per Tweet") ] ]).

(** *** 4. Dashboard layout *)

(** The expression assigned to [app.layout]; the arguments are evaluated
    from left to right. *)
Definition layout : M component :=
  summary ← create_summary_card;
  word_count_df ← var "word_count_df";
  words ← create_word_count_chart word_count_df;
  user_stats_df ← var "user_stats_df";
  users ← create_user_engagement_chart user_stats_df;
  daily_sentiment_df ← var "daily_sentiment_df";
  sentiment ← create_sentiment_line_chart daily_sentiment_df;
  mret (Div None [("backgroundColor", "#f8f9fa"); ("padding", "20px")] [
    H1 (Lit "Social Media Analysis Dashboard")
       [("textAlign", "center"); ("color", "#003366"); ("margin-bottom", "30px")];
    H2 (Lit "Key Metrics Summary") [("color", "#333333"); ("textAlign", "center")];
    summary;
    Hr;
    Div (Some "row") [] [
      Div (Some "six columns") [] [
        H3 (Lit "Text Analysis") [("color", "#333333")];
        Graph words ];
      Div (Some "six columns") [] [
        H3 (Lit "User Performance") [("color", "#333333")];
        Graph users ] ];
    Hr;
    Div (Some "row") [] [
      Div (Some "twelve columns") [] [
        H3 (Lit "Time-Series Analysis") [("color", "#333333")];
        Graph sentiment ] ] ]).

(** *** 5. The whole script *)

(** The module-level statements around a loading block, from the first
    [print] to [app.run(debug=True)]: the result is the layout the server
    is started with.  ([dash.Dash(...)] builds the application object,
    which has no part in what follows.) *)
Definition program (load_data : M ()) : M component :=
  print "Loading data from R analysis outputs...";;
  try_except load_data except_FileNotFoundError;;
  page ← layout;
  print (newline +:+ "ðŸš€ Starting Dash app. Open http://127.0.0.1:8050/ in your browser."
         +:+ newline);;
  mret page.

Definition script : M component := program load_data.

(** The script as the spec would have it without the dead code: the
    loading block with the re-read of the cleaned tweets and its 1000-row
    prefix removed, everything else as it is. *)
Definition load_data_without_prefix : M () :=
  df ← read_csv fs "mapreduce_word_count.csv";
  assign "word_count_df" df;;
  df ← read_csv fs "mapreduce_daily_sentiment.csv";
  assign "daily_sentiment_df" df;;
  df ← read_csv fs "mapreduce_user_stats.csv";
  assign "user_stats_df" df;;
  df ← read_csv fs "tweets_cleaned.csv";
  assign "cleaned_tweets_df" df;;
  daily_sentiment_df ← var "daily_sentiment_df";
  date ← getitem daily_sentiment_df "date";
  date ← lift (to_datetime date);
  daily_sentiment_df ← var "daily_sentiment_df";
  setitem daily_sentiment_df "date" date.

Definition script_without_prefix : M component := program load_data_without_prefix.

End Dashboard.

(** How a run of the script ends: [exit()] in the handler ends the
    process, an exception nobody catches ends it with a traceback,
    otherwise the server runs with the layout. *)
Inductive outcome `{Platform} :=
| Exited (out : list string)
| Crashed (out : list string) (e : exn)
| Serving (out : list string) (page : component).

Definition initial `{Platform} : world := World ∅ [] [].

Definition outcome_of `{Platform} (r : (exn + component) * world) : outcome :=
  match r with
  | (inr page, w) => Serving (stdout w) page
  | (inl SystemExit, w) => Exited (stdout w)
  | (inl e, w) => Crashed (stdout w) e
  end.

Definition run `{Platform} (fs : filesystem) : outcome :=
  outcome_of (script fs initial).

Definition run_without_prefix `{Platform} (fs : filesystem) : outcome :=
  outcome_of (script_without_prefix fs initial).

(** The files the loading block reads, in the order it reads them. *)
Definition required_files : list string :=
  ["mapreduce_word_count.csv"; "mapreduce_daily_sentiment.csv";
   "mapreduce_user_stats.csv"; "tweets_cleaned.csv"].

(** The files read before the first read of [path]. *)
Fixpoint read_before (path : string) (files : list string) : list string :=
  match files with
  | [] => []
  | f :: files => if decide (f = path) then [] else f :: read_before path files
  end.

(** What the script has printed when it exits for a missing file. *)
Definition missing_file_report (filename : string) : list string :=
  ["Loading data from R analysis outputs...";
   "ERROR: A required CSV file was not found: [Errno 2] No such file or directory: '"
     +:+ filename +:+ "'";
   "Please ensure you have run 01, 03, 04, and 05 R scripts and the output files are in this directory."].

(** What the script has printed when the server starts. *)
Definition startup_report : list string :=
  ["Loading data from R analysis outputs...";
   newline +:+ "ðŸš€ Starting Dash app. Open http://127.0.0.1:8050/ in your browser."
     +:+ newline].

(** The exit status of the process.  [exit()] is called without a code,
    which ends the process with status 0; an exception nobody catches ends
    it with status 1; a server that runs has none yet. *)
Definition exit_status `{Platform} (o : outcome) : option Z :=
  match o with
  | Exited _ => Some 0%Z
  | Crashed _ _ => Some 1%Z
  | Serving _ _ => None
  end.

(** The names the loading block binds. *)
Definition loaded_names : list string :=
  ["word_count_df"; "daily_sentiment_df"; "user_stats_df"; "cleaned_tweets_df";
   "emotions_sample_df"].

(** ** What is on the page *)

Section Observations.
Context `{Platform}.

(** The marks of a figure: the pair of coordinates of each bar or point,
    in the order of the traces. *)
Definition marks (fig : figure) : list (cell * cell) :=
  t ← fig_data fig; zip (Series_values (tr_x t)) (Series_values (tr_y t)).

(** The texts of the [H3] headings of a component, in document order. *)
Fixpoint headings (c : component) : list text :=
  match c with
  | Div _ _ children =>
      (fix go (cs : list component) : list text :=
         match cs with
         | [] => []
         | c :: cs => headings c ++ go cs
         end) children
  | H3 t _ => [t]
  | _ => []
  end.

(** The data frame a module-level name refers to. *)
Definition frame_of (w : world) (name : string) : option DataFrame :=
  l ← globals w !! name; heap w !! l.

(** The integers of a column as [read_csv] types it: [int64], or [object]
    when the column has no cell. *)
Definition integers (s : Series) : option (list Z) :=
  match s with
  | Int64 l => Some l
  | Object [] => Some []
  | _ => None
  end.

(** A table that has the given columns. *)
Definition has_columns (table : DataFrame) (columns : list string) : Prop :=
  Forall (λ c, is_Some (DataFrame_column table c)) columns.

(** The value of an integer object. *)
Definition int_value (x : pyobj) : option Z :=
  match x with
  | PyInt z | NpInt64 z => Some z
  | _ => None
  end.

(** [w'] is [w] with more objects on the heap: the names, the objects
    there were and the output are the same. *)
Definition extends (w w' : world) : Prop :=
  globals w' = globals w ∧ stdout w' = stdout w ∧ heap w `prefix_of` heap w'.

(** The four tables that the loading block leaves behind its names, as
    read from the files, the dates parsed; or the exception that ends the
    block. *)
Definition loaded (fs : filesystem)
  : exn + (DataFrame * DataFrame * DataFrame * DataFrame) :=
  word_count ← read fs "mapreduce_word_count.csv";
  daily_sentiment ← read fs "mapreduce_daily_sentiment.csv";
  user_stats ← read fs "mapreduce_user_stats.csv";
  cleaned_tweets ← read fs "tweets_cleaned.csv";
  date ← DataFrame_getitem daily_sentiment "date";
  date ← to_datetime date;
  mret (word_count, DataFrame_setitem daily_sentiment "date" date,
        user_stats, cleaned_tweets).

(** The figures of the [dcc.Graph] components of a page, in document
    order. *)
Fixpoint graphs (c : component) : list figure :=
  match c with
  | Div _ _ children =>
      (fix go (cs : list component) : list figure :=
         match cs with
         | [] => []
         | c :: cs => graphs c ++ go cs
         end) children
  | Graph fig => [fig]
  | _ => []
  end.

(** A column of numbers. *)
Definition numeric (s : Series) : Prop :=
  match s with
  | Int64 _ | Float64 _ => True
  | Object _ | Datetime64 _ => False
  end.

End Observations.

(** *** Reading a formatted count *)

Definition digit_char (d : nat) : ascii := pretty_N_char (N.of_nat d).

(** The three decimal digits of a number below 1000, zeros included. *)
Definition three_digits (n : nat) : string :=
  String (digit_char ((n / 100) `mod` 10))
    (String (digit_char ((n / 10) `mod` 10))
       (String (digit_char (n `mod` 10)) EmptyString)).

(** A text without its thousands separators. *)
Definition strip_commas (s : string) : string :=
  String.string_of_list_ascii
    (filter (λ c, c ≠ ","%char) (String.list_ascii_of_string s)).

(** ** A reference platform

    IEEE 754 binary64 through the primitive floats of Rocq, and a parser
    for the ISO dates ([YYYY-MM-DD]) that the upstream R scripts write.
    The theorems below hold for every platform; this one runs the script
    on concrete files. *)
Module Binary64.

(** Integers of the [int64] range. *)
Definition of_int (z : Z) : PrimFloat.float :=
  if decide (z = - 2 ^ 63)%Z then
    PrimFloat.opp (PrimFloat.mul (PrimFloat.of_uint63 (Uint63.of_Z (2 ^ 62)))
                                 (PrimFloat.of_uint63 (Uint63.of_Z 2)))
  else if decide (z < 0)%Z then
    PrimFloat.opp (PrimFloat.of_uint63 (Uint63.of_Z (- z)))
  else PrimFloat.of_uint63 (Uint63.of_Z z).

Definition isnan (x : PrimFloat.float) : bool := negb (PrimFloat.eqb x x).

(** Rounding to the nearest integer, ties to even: exact below [2^52] by
    adding and subtracting [2^52]; larger doubles are integers already. *)
Definition rint (x : PrimFloat.float) : PrimFloat.float :=
  let two52 := of_int (2 ^ 52) in
  let a := PrimFloat.abs x in
  if PrimFloat.ltb a two52 then
    let r := PrimFloat.sub (PrimFloat.add a two52) two52 in
    if PrimFloat.ltb x PrimFloat.zero then PrimFloat.opp r else r
  else x.

(** numpy rounds to [d] decimals by scaling, [rint] and scaling back. *)
Definition around (x : PrimFloat.float) (ndigits : Z) : PrimFloat.float :=
  if decide (0 ≤ ndigits)%Z then
    let p := of_int (10 ^ ndigits) in
    PrimFloat.div (rint (PrimFloat.mul x p)) p
  else
    let p := of_int (10 ^ (- ndigits)) in
    PrimFloat.mul (rint (PrimFloat.div x p)) p.

(** The sum skips missing values ([skipna=True]). *)
Definition nansum (l : list PrimFloat.float) : PrimFloat.float :=
  foldl (λ acc x, if isnan x then acc else PrimFloat.add acc x) PrimFloat.zero l.

Definition digit (c : ascii) : option Z :=
  let n := Z.of_nat (nat_of_ascii c) in
  if decide (48 ≤ n ≤ 57)%Z then Some (n - 48)%Z else None.

Definition days_in_month (y m : Z) : Z :=
  if decide (m = 2)%Z then
    if decide ((y mod 4 = 0 ∧ y mod 100 ≠ 0) ∨ y mod 400 = 0)%Z then 29 else 28
  else if decide (m = 4 ∨ m = 6 ∨ m = 9 ∨ m = 11)%Z then 30
  else 31.

(** Days from 1970-01-01 to the day [d] of the month [m] of the year [y]
    of the proleptic Gregorian calendar. *)
Definition days_from_civil (y m d : Z) : Z :=
  let y' := (if decide (m ≤ 2) then y - 1 else y)%Z in
  let era := (y' / 400)%Z in
  let yoe := (y' - era * 400)%Z in
  let mp := (if decide (m ≤ 2) then m + 9 else m - 3)%Z in
  let doy := ((153 * mp + 2) / 5 + d - 1)%Z in
  let doe := (yoe * 365 + yoe / 4 - yoe / 100 + doy)%Z in
  (era * 146097 + doe - 719468)%Z.

Definition parse_date (s : string) : option Z :=
  match String.list_ascii_of_string s with
  | [y1; y2; y3; y4; "-"%char; m1; m2; "-"%char; d1; d2] =>
      y1 ← digit y1; y2 ← digit y2; y3 ← digit y3; y4 ← digit y4;
      m1 ← digit m1; m2 ← digit m2; d1 ← digit d1; d2 ← digit d2;
      let y := (((y1 * 10 + y2) * 10 + y3) * 10 + y4)%Z in
      let m := (m1 * 10 + m2)%Z in
      let d := (d1 * 10 + d2)%Z in
      if decide (1 ≤ m ≤ 12 ∧ 1 ≤ d ≤ days_in_month y m)%Z
      then Some (days_from_civil y m d * 86400 * 10 ^ 9)%Z
      else None
  | _ => None
  end.

Definition iso_dates (l : list string) : option (list Z) := mapM parse_date l.

(** A double as a count of nanoseconds, truncated; missing values and
    infinities are refused. *)
Definition to_ns (x : PrimFloat.float) : option Z :=
  match FloatOps.Prim2SF x with
  | SpecFloat.S754_zero _ => Some 0%Z
  | SpecFloat.S754_finite s m e =>
      let a := (if decide (0 ≤ e)%Z then Z.pos m * 2 ^ e
                else Z.pos m / 2 ^ (- e))%Z in
      Some (if s then - a else a)%Z
  | _ => None
  end.

Definition ns_dates (l : list PrimFloat.float) : option (list Z) := mapM to_ns l.

#[export] Instance platform : Platform := {|
  float64 := PrimFloat.float;
  f64_of_int := of_int;
  f64_div := PrimFloat.div;
  py_round := around;
  np_round := around;
  f64_sum := nansum;
  f64_leb := PrimFloat.leb;
  f64_isnan := isnan;
  parse_dates := iso_dates;
  float_dates := ns_dates;
  parse_dates_length := λ l r E, eq_sym (length_mapM parse_date l r E);
  float_dates_length := λ l r E, eq_sym (length_mapM to_ns l r E);
|}.

End Binary64.


(** ** Example files *)

Module Examples.
Import Binary64.

(** Twenty-one words; the last one counts more than three of the first
    twenty. *)
Definition words : list string :=
  ["the"; "a"; "to"; "of"; "and"; "in"; "is"; "for"; "on"; "that";
   "with"; "this"; "was"; "as"; "are"; "be"; "at"; "by"; "or"; "an";
   "it"].

Definition counts : list Z :=
  [500; 450; 400; 350; 300; 250; 200; 150; 100; 90;
   80; 70; 60; 50; 40; 30; 20; 9; 5; 3;
   10]%Z.

Definition word_counts : DataFrame :=
  [("word", Object words); ("total_count", Int64 counts)].

(** Eleven users. *)
Definition users : list string :=
  ["ann"; "bob"; "cat"; "dan"; "eve"; "fay"; "gus"; "hal"; "ida"; "jon"; "kim"].

Definition engagement : list Z := [12; 70; 31; 5; 44; 9; 63; 27; 18; 50; 99]%Z.

Definition likes : list Z := [10; 40; 20; 5; 30; 4; 33; 20; 10; 25; 60]%Z.

Definition user_stats : DataFrame :=
  [("user", Object users); ("total_engagement", Int64 engagement);
   ("total_likes", Int64 likes)].

Definition sentiments : list (@float64 platform) := [of_int 1; of_int 0; of_int 2].

(** Three days, not in the order of the calendar. *)
Definition daily_sentiment : DataFrame :=
  [("date", Object ["2024-01-02"; "2024-01-01"; "2024-01-03"]);
   ("avg_sentiment", Float64 sentiments)].

Definition cleaned_tweets : DataFrame :=
  [("user", Object ["ann"; "bob"; "ann"; "kim"]);
   ("text", Object ["good day"; "bad day"; "so so"; "great"])].

(** A file with the header line only: every column is of dtype [object]
    and has no cell. *)
Definition header_only (columns : list string) : DataFrame :=
  (λ c, (c, Object [])) <$> columns.

Definition short_word_counts : DataFrame :=
  [("word", Object ["the"; "a"; "to"]); ("total_count", Int64 [7; 9; 8]%Z)].

Definition short_user_stats : DataFrame :=
  [("user", Object ["ann"; "bob"]);
   ("total_engagement", Int64 [12; 3]%Z);
   ("total_likes", Int64 [10; 2]%Z)].

Definition files : filesystem := λ path,
  if decide (path = "mapreduce_word_count.csv") then Some (Csv word_counts)
  else if decide (path = "mapreduce_daily_sentiment.csv") then Some (Csv daily_sentiment)
  else if decide (path = "mapreduce_user_stats.csv") then Some (Csv user_stats)
  else if decide (path = "tweets_cleaned.csv") then Some (Csv cleaned_tweets)
  else None.

(** The files with one of them changed. *)
Definition with_file (path : string) (f : option file) (fs : filesystem) : filesystem :=
  λ p, if decide (p = path) then f else fs p.

(** The daily sentiment as the loading block leaves it: the dates are
    2024-01-02, 2024-01-01 and 2024-01-03, in this order. *)
Definition dates : list Z :=
  [1704153600000000000; 1704067200000000000; 1704240000000000000]%Z.

Definition parsed_sentiment : DataFrame :=
  [("date", Datetime64 dates); ("avg_sentiment", Float64 sentiments)].

(** A world with the given objects on the heap and no name bound. *)
Definition objects (h : list DataFrame) : world := World ∅ h [].

(** A world with the given names bound to the given tables. *)
Definition module (bindings : list (string * DataFrame)) : world :=
  World (list_to_map (imap (λ i b, (b.1, i)) bindings)) (bindings.*2) [].

(** No tweet, two users. *)
Definition no_tweets : world :=
  module [("cleaned_tweets_df", header_only ["user"; "text"]);
          ("user_stats_df", short_user_stats)].

(** The four tables of the example files, loaded. *)
Definition tables : world :=
  module [("word_count_df", word_counts);
          ("daily_sentiment_df", parsed_sentiment);
          ("user_stats_df", user_stats);
          ("cleaned_tweets_df", cleaned_tweets)].

(** A table of six columns and no row. *)
Definition no_rows : DataFrame :=
  header_only ["word"; "total_count"; "user"; "total_engagement"; "date";
               "avg_sentiment"].

(** The value a statement returns, a default standing for an exception. *)
Definition returned {A} (default : A) (r : (exn + A) * world) : A :=
  match r.1 with
  | inr a => a
  | inl _ => default
  end.

Definition no_figure : figure := Figure [] EmptyString EmptyString EmptyString.

(** The card, the charts and the page of the example files. *)
Definition example_card : component := returned Hr (create_summary_card tables).

Definition words_chart : figure :=
  returned no_figure (create_word_count_chart 0 tables).

Definition users_chart : figure :=
  returned no_figure (create_user_engagement_chart 2 tables).

Definition sentiment_chart : figure :=
  returned no_figure (create_sentiment_line_chart 1 tables).

Definition example_page : component := returned Hr (layout tables).

(** The world the loading block leaves on the example files. *)
Definition loaded_world : world := (load_data files initial).2.

(** A daily-sentiment table without the dates. *)
Definition sentiment_without_dates : DataFrame :=
  [("avg_sentiment", Float64 sentiments)].

(** User statistics without the likes, and the four tables with them. *)
Definition user_stats_without_likes : DataFrame :=
  [("user", Object users); ("total_engagement", Int64 engagement)].

Definition tables_without_likes : world :=
  module [("word_count_df", word_counts);
          ("daily_sentiment_df", parsed_sentiment);
          ("user_stats_df", user_stats_without_likes);
          ("cleaned_tweets_df", cleaned_tweets)].

End Examples.

(** ** Notions for the proofs *)

Section Notions.
Context `{Platform}.

(** *** Statements that only build *)

(** The errors of a lookup and of arithmetic; the others end the process
    or come from reading a file. *)
Definition builder_error (e : exn) : Prop :=
  match e with
  | NameError _ | KeyError _ | ValueError _ | TypeError _ | IndexError
  | ReferenceError | ZeroDivisionError => True
  | FileNotFoundError _ | EmptyDataError | ParserError | SystemExit => False
  end.

Definition benign {A} (r : exn + A) : Prop :=
  match r with
  | inl e => builder_error e
  | inr _ => True
  end.

(** A statement is harmless when it leaves the names, the objects on the
    heap and the output as they are, at most adds objects, and raises
    nothing but a [builder_error]. *)
Definition harmless {A} (m : M A) : Prop :=
  ∀ w, extends w (m w).2 ∧ benign (m w).1.

(** *** The names after loading *)

(** The references behind the names when the loading block has run from
    the empty world, without and with the 1000-row prefix. *)
Definition names4 : gmap string loc :=
  <["cleaned_tweets_df":=3]> (<["user_stats_df":=2]>
    (<["daily_sentiment_df":=1]> (<["word_count_df":=0]> ∅))).

Definition names5 : gmap string loc := <["emotions_sample_df":=5]> names4.

(** *** Tables behind names *)

(** The names the layout uses. *)
Definition used_names : list string :=
  ["word_count_df"; "daily_sentiment_df"; "user_stats_df"; "cleaned_tweets_df"].

(** Two worlds agree when each of the four names the layout uses refers
    to the same table in both. *)
Definition agree (w w' : world) : Prop :=
  ∀ name, name ∈ used_names →
    ∃ table, frame_of w name = Some table ∧ frame_of w' name = Some table.

(** A statement whose result depends on these four tables only. *)
Definition frames_only {A} (m : M A) : Prop :=
  ∀ w w', agree w w' → (m w).1 = (m w').1 ∧ agree (m w).2 (m w').2.

(** *** Statements that only read, statements that only allocate *)

(** A statement that leaves the world as it is, whatever it returns. *)
Definition reads_only {A} (m : M A) : Prop := ∀ w, (m w).2 = w.


End Notions.

(** * Properties *)

(** ** Re-indexing and sorting of columns *)

Section reindex.
Context {A : Type}.
Implicit Types (l : list A) (idx : list nat).

Lemma reindex_cons i idx l :
  reindex (i :: idx) l =
  match l !! i with Some x => x :: reindex idx l | None => reindex idx l end.
Proof. reflexivity. Qed.

Lemma reindex_cons_Some i idx l x :
  l !! i = Some x → reindex (i :: idx) l = x :: reindex idx l.
Proof. intros E. by rewrite reindex_cons, E. Qed.

Lemma reindex_seq_app l1 l2 :
  reindex (seq (length l1) (length l2)) (l1 ++ l2) = l2.
Proof.
  revert l1. induction l2 as [|x l2 IH]; intros l1; [done|].
  change (seq (length l1) (length (x :: l2)))
    with (length l1 :: seq (S (length l1)) (length l2)).
  rewrite (reindex_cons_Some _ _ _ x).
  - f_equal. specialize (IH (l1 ++ [x])).
    rewrite length_app, <- (assoc_L (++)) in IH. simpl in IH.
    by rewrite Nat.add_1_r in IH.
  - by rewrite list_lookup_middle.
Qed.

Lemma reindex_seq l : reindex (seq 0 (length l)) l = l.
Proof. apply (reindex_seq_app []). Qed.

Lemma reindex_Permutation idx l :
  idx ≡ₚ seq 0 (length l) → reindex idx l ≡ₚ l.
Proof.
  intros E. rewrite <- (reindex_seq l) at 2. unfold reindex. by rewrite E.
Qed.

Lemma length_reindex idx l :
  idx ≡ₚ seq 0 (length l) → length (reindex idx l) = length l.
Proof. intros E. by rewrite (reindex_Permutation idx l E). Qed.

Lemma reindex_pairs l (s : list (A * nat)) :
  Forall (λ p, l !! p.2 = Some p.1) s → reindex (s.*2) l = s.*1.
Proof.
  induction 1 as [|[x i] s Hx _ IH]; [done|].
  rewrite !fmap_cons. cbn [fst snd] in *.
  by rewrite (reindex_cons_Some _ _ _ x), IH.
Qed.

Context (leb : A → A → bool).

Lemma argsort_Permutation l : argsort leb l ≡ₚ seq 0 (length l).
Proof.
  unfold argsort. rewrite merge_sort_Permutation.
  rewrite snd_zip; [done|]. by rewrite length_seq.
Qed.

(** Taking the cells at the positions [argsort] returns yields them in the
    order of the sort. *)
Lemma reindex_argsort l :
  reindex (argsort leb l) l =
  (merge_sort (λ p q : A * nat, leb p.1 q.1) (zip l (seq 0 (length l)))).*1.
Proof.
  unfold argsort. apply reindex_pairs.
  rewrite merge_sort_Permutation. apply Forall_forall. intros [x i] Hin.
  apply list_elem_of_lookup in Hin as [j Hj].
  apply lookup_zip_with_Some in Hj as (x' & i' & [= <- <-] & Hx & Hi).
  apply lookup_seq in Hi as [-> _]. done.
Qed.

Lemma Sorted_reindex_argsort (R : relation A) l :
  (∀ x y, leb x y ∨ leb y x) →
  (∀ x y, leb x y → R x y) →
  Sorted R (reindex (argsort leb l) l).
Proof.
  intros Htotal HR. rewrite reindex_argsort.
  eapply (Sorted_fmap fst (λ p q : A * nat, Is_true (leb p.1 q.1)));
    [by intros [] []; apply HR|].
  assert (Total (λ p q : A * nat, Is_true (leb p.1 q.1))) as Ht
    by (intros [x i] [y j]; apply Htotal).
  apply (Sorted_merge_sort _).
Qed.

End reindex.

Lemma reindex_fmap {A B} (f : A → B) (idx : list nat) (l : list A) :
  reindex idx (f <$> l) = f <$> reindex idx l.
Proof.
  induction idx as [|i idx IH]; [done|].
  rewrite !reindex_cons, list_lookup_fmap, IH.
  by destruct (l !! i).
Qed.

Lemma reindex_zip {A B} (idx : list nat) (l : list A) (k : list B) :
  length l = length k →
  reindex idx (zip l k) = zip (reindex idx l) (reindex idx k).
Proof.
  intros E. induction idx as [|i idx IH]; [done|].
  rewrite !reindex_cons, IH, lookup_zip_with.
  destruct (l !! i) as [x|] eqn:El, (k !! i) as [y|] eqn:Ek; simpl; try done.
  - apply lookup_lt_Some in El. apply lookup_ge_None in Ek. lia.
  - apply lookup_lt_Some in Ek. apply lookup_ge_None in El. lia.
Qed.


Lemma Sorted_reindex_argsort_Z (l : list Z) :
  Sorted Z.le (reindex (argsort Z.leb l) l).
Proof.
  apply (Sorted_reindex_argsort Z.leb).
  - intros x y. destruct (Z.leb_spec x y), (Z.leb_spec y x); simpl; auto; lia.
  - intros x y Hxy. apply Is_true_true in Hxy. lia.
Qed.

(** ** Data frames *)

Section frames.
Context `{Platform}.
Implicit Types (s : Series) (df table : DataFrame).

Lemma Series_values_head n s :
  Series_values (Series_head n s) = take n (Series_values s).
Proof. destruct s; simpl; by rewrite fmap_take. Qed.

Lemma Series_values_reindex idx s :
  Series_values (Series_reindex idx s) = reindex idx (Series_values s).
Proof. destruct s; simpl; by rewrite reindex_fmap. Qed.

Lemma DataFrame_column_fmap (f : Series → Series) df c :
  DataFrame_column (prod_map id f <$> df) c = f <$> DataFrame_column df c.
Proof.
  induction df as [|[c' s] df IH]; [done|].
  simpl. by destruct (decide (c' = c)).
Qed.

Lemma DataFrame_column_head df n c :
  DataFrame_column (DataFrame_head df n) c = Series_head n <$> DataFrame_column df c.
Proof. apply DataFrame_column_fmap. Qed.

Lemma DataFrame_column_elem_of df c s :
  DataFrame_column df c = Some s → (c, s) ∈ df.
Proof.
  induction df as [|[c' s'] df IH]; [done|]. simpl.
  destruct (decide (c' = c)) as [->|].
  - intros [= ->]. apply list_elem_of_here.
  - intros Hc. by apply list_elem_of_further, IH.
Qed.

Lemma Series_len_Int64 (l : list Z) : Series_len (Int64 l) = length l.
Proof. unfold Series_len. simpl. by rewrite length_fmap. Qed.

Lemma Series_len_head n s : Series_len (Series_head n s) = n `min` Series_len s.
Proof. unfold Series_len. by rewrite Series_values_head, length_take. Qed.

Lemma DataFrame_len_head df n :
  DataFrame_len (DataFrame_head df n) = n `min` DataFrame_len df.
Proof. destruct df as [|[c s] df]; simpl; [lia|]. apply Series_len_head. Qed.

(** Every column of a frame has as many cells as the frame has rows. *)
Lemma DataFrame_wf_column df c s :
  DataFrame_wf df → DataFrame_column df c = Some s → Series_len s = DataFrame_len df.
Proof.
  intros Hwf Hc. apply DataFrame_column_elem_of in Hc.
  unfold DataFrame_wf in Hwf. rewrite Forall_forall in Hwf. by apply (Hwf (c, s)).
Qed.

Lemma DataFrame_wf_head df n : DataFrame_wf df → DataFrame_wf (DataFrame_head df n).
Proof.
  unfold DataFrame_wf. rewrite !Forall_forall. intros Hwf [c s] Hin.
  unfold DataFrame_head in Hin. apply list_elem_of_fmap in Hin as ([c' s'] & [= -> ->] & Hin).
  specialize (Hwf _ Hin). simpl in *. by rewrite Series_len_head, DataFrame_len_head, Hwf.
Qed.

Lemma Series_argsort_Permutation ascending s :
  Series_argsort ascending s ≡ₚ seq 0 (Series_len s).
Proof.
  unfold Series_len.
  destruct s; simpl; rewrite length_fmap; apply argsort_Permutation.
Qed.

(** Positions below the length of every column: [take] raises nothing. *)
Lemma DataFrame_take_in_range idx df :
  Forall (λ cs, Forall (λ i, i < Series_len cs.2) idx) df →
  DataFrame_take idx df = inr (prod_map id (Series_reindex idx) <$> df).
Proof.
  induction 1 as [|[c s] df Hs _ IH]; [done|].
  simpl in *. unfold Series_take. rewrite decide_True by done. simpl.
  by rewrite IH.
Qed.

(** [take] raises nothing else. *)
Lemma DataFrame_take_error idx df e : DataFrame_take idx df = inl e → e = IndexError.
Proof.
  induction df as [|[c s] df IH]; [done|]. simpl. unfold Series_take.
  destruct (decide _); simpl; [|by intros [= <-]].
  destruct (DataFrame_take idx df); simpl; [|done]. intros [= <-]. by apply IH.
Qed.

(** Sorting a frame by one of its columns does not index past the rows:
    the positions are those of the rows. *)
Lemma DataFrame_sort_values_wf df key keys ascending :
  DataFrame_wf df →
  DataFrame_column df key = Some keys →
  DataFrame_sort_values df key ascending
  = inr (prod_map id (Series_reindex (Series_argsort ascending keys)) <$> df).
Proof.
  intros Hwf Hkey. unfold DataFrame_sort_values. rewrite Hkey.
  apply DataFrame_take_in_range.
  pose proof (DataFrame_wf_column df key keys Hwf Hkey) as Hlen.
  unfold DataFrame_wf in Hwf. eapply Forall_impl; [exact Hwf|].
  intros [c s] Hs. simpl in *. rewrite Hs, <- Hlen.
  rewrite (Series_argsort_Permutation ascending keys).
  apply Forall_forall. intros i Hi. by apply elem_of_seq in Hi as [_ Hi].
Qed.

(** The first [n] rows, sorted by a column: the sort succeeds and permutes
    the rows; a key column of dtype [int64] comes out ascending. *)
Lemma sort_head_columns table n key lab keys ys :
  DataFrame_wf table →
  DataFrame_column table key = Some keys →
  DataFrame_column table lab = Some ys →
  ∃ top xs ys',
    DataFrame_sort_values (DataFrame_head table n) key true = inr top ∧
    DataFrame_column top key = Some xs ∧
    DataFrame_column top lab = Some ys' ∧
    Series_len ys' = Series_len xs ∧
    zip (Series_values xs) (Series_values ys')
      ≡ₚ take n (zip (Series_values keys) (Series_values ys)) ∧
    (∀ ks, keys = Int64 ks → ∃ zs, xs = Int64 zs ∧ Sorted Z.le zs).
Proof.
  intros Hwf Hkey Hlab.
  set (idx := Series_argsort true (Series_head n keys)).
  exists (prod_map id (Series_reindex idx) <$> DataFrame_head table n),
    (Series_reindex idx (Series_head n keys)), (Series_reindex idx (Series_head n ys)).
  assert (Series_len ys = Series_len keys) as Hlen.
  { by rewrite (DataFrame_wf_column table key keys), (DataFrame_wf_column table lab ys). }
  assert (idx ≡ₚ seq 0 (n `min` Series_len keys)) as Hidx.
  { subst idx. by rewrite Series_argsort_Permutation, Series_len_head. }
  split_and!.
  - apply DataFrame_sort_values_wf; [by apply DataFrame_wf_head|].
    by rewrite DataFrame_column_head, Hkey.
  - by rewrite DataFrame_column_fmap, DataFrame_column_head, Hkey.
  - by rewrite DataFrame_column_fmap, DataFrame_column_head, Hlab.
  - unfold Series_len in *. rewrite !Series_values_reindex, !Series_values_head.
    rewrite !length_reindex; rewrite !length_take, ?Hlen; done.
  - unfold Series_len in *. rewrite !Series_values_reindex, !Series_values_head.
    rewrite <- reindex_zip by (by rewrite !length_take, Hlen).
    rewrite reindex_Permutation; [by rewrite zip_with_take|].
    by rewrite length_zip_with, !length_take, Hlen, Nat.min_id.
  - intros ks ->. eexists. split; [reflexivity|]. apply Sorted_reindex_argsort_Z.
Qed.

(** The marks of a bar chart are the rows of the frame it is built from. *)
Lemma marks_bar top x y o t ls cs xs ys :
  DataFrame_column top x = Some xs →
  DataFrame_column top y = Some ys →
  ∃ fig, bar top x y o t ls cs = inr fig ∧
         marks fig = zip (Series_values xs) (Series_values ys) ∧
         tr_type <$> fig_data fig = [Bar] ∧
         tr_orientation <$> fig_data fig = [o].
Proof.
  intros Hx Hy. eexists. split_and!.
  - unfold bar, px_column. rewrite Hx, Hy. reflexivity.
  - unfold marks. simpl. by rewrite app_nil_r.
  - done.
  - done.
Qed.

Lemma marks_line d x y t ls shape lc ms mc xs ys :
  DataFrame_column d x = Some xs →
  DataFrame_column d y = Some ys →
  ∃ fig, line d x y t ls shape = inr fig ∧
         marks (update_traces fig lc ms mc) = zip (Series_values xs) (Series_values ys).
Proof.
  intros Hx Hy. eexists. split.
  - unfold line, px_column. rewrite Hx, Hy. reflexivity.
  - unfold marks. simpl. by rewrite app_nil_r.
Qed.

End frames.

(** ** Running statements *)

Section running.
Context `{Platform}.
Implicit Types (w : world) (l : loc) (table : DataFrame).

#[local] Instance extends_preorder : PreOrder extends.
Proof.
  split.
  - by intros w.
  - intros w1 w2 w3 (Hg & Ho & Hh) (Hg' & Ho' & Hh'). split_and!.
    + by rewrite Hg'.
    + by rewrite Ho'.
    + by etrans.
Qed.

Lemma extends_alloc w table :
  extends w (World (globals w) (heap w ++ [table]) (stdout w)).
Proof. split_and!; [done..|]. by apply prefix_app_r. Qed.

Lemma frame_of_extends w w' name table :
  extends w w' → frame_of w name = Some table → frame_of w' name = Some table.
Proof.
  intros (Hg & _ & Hh). unfold frame_of. rewrite Hg.
  destruct (globals w !! name) as [l|]; simpl; [|done].
  intros Hl. by eapply prefix_lookup_Some.
Qed.

Lemma lookup_new (h : list DataFrame) table : (h ++ [table]) !! length h = Some table.
Proof. by rewrite list_lookup_middle. Qed.

(** The pipeline of the two bar charts, from the first statement to the
    last: the result is a function of the table alone; two objects are
    added to the heap. *)
Lemma head_sort_bar_run n key lab o t ls cs l w table :
  heap w !! l = Some table →
  (top ← head l n; top ← sort_values top key true; px_bar top key lab o t ls cs) w =
  let h := DataFrame_head table n in
  match DataFrame_sort_values h key true with
  | inl e => (inl e, World (globals w) (heap w ++ [h]) (stdout w))
  | inr top => (bar top key lab o t ls cs,
                World (globals w) ((heap w ++ [h]) ++ [top]) (stdout w))
  end.
Proof.
  intros Hl.
  unfold head, sort_values, px_bar, deref, new, lift, mbind, M_bind, bind.
  simpl. rewrite Hl. simpl. rewrite lookup_new.
  destruct (DataFrame_sort_values _ _ _) as [e|top]; simpl; [done|].
  by rewrite lookup_new.
Qed.

Lemma create_sentiment_line_chart_run l w table :
  heap w !! l = Some table →
  create_sentiment_line_chart l w =
  (fig ← line table "date" "avg_sentiment"
           "Daily Average Sentiment Trend (MapReduce 2)"
           [("date", "Date"); ("avg_sentiment", "Average Sentiment Score")]
           "spline";
   mret (update_traces fig "#006699" 5 "#006699"), w).
Proof.
  intros Hl.
  unfold create_sentiment_line_chart, px_line, deref, lift, mbind, M_bind, bind.
  rewrite Hl. by destruct (line _ _ _ _ _ _).
Qed.

Lemma frame_of_Some w name table :
  frame_of w name = Some table ↔
  ∃ l, globals w !! name = Some l ∧ heap w !! l = Some table.
Proof.
  unfold frame_of. destruct (globals w !! name) as [l|]; simpl.
  - split; [by exists l|]. by intros (? & [= <-] & ?).
  - split; [done|]. by intros (? & ? & ?).
Qed.

(** The summary card reads the two tables behind its names and leaves the
    world as it is; it fails where the first of column lookup, sum,
    division and rounding fails. *)
Lemma create_summary_card_run w tweets users :
  frame_of w "cleaned_tweets_df" = Some tweets →
  frame_of w "user_stats_df" = Some users →
  match DataFrame_getitem users "total_likes" with
  | inl e => create_summary_card w = (inl e, w)
  | inr total_likes =>
    match Series_sum total_likes with
    | inl e => create_summary_card w = (inl e, w)
    | inr sum =>
      match truediv sum (Z.of_nat (DataFrame_len tweets)) with
      | inl e => create_summary_card w = (inl e, w)
      | inr quotient =>
        match round quotient 2 with
        | inl e => create_summary_card w = (inl e, w)
        | inr avg_likes =>
            ∃ card,
              create_summary_card w = (inr card, w) ∧
              headings card =
                [Lit (format_thousands (DataFrame_len tweets));
                 Lit (format_thousands (DataFrame_len users));
                 format avg_likes]
        end
      end
    end
  end.
Proof.
  intros (l1 & Hg1 & Hh1)%frame_of_Some (l2 & Hg2 & Hh2)%frame_of_Some.
  unfold create_summary_card, getitem, var, deref, lift, mbind, M_bind, bind.
  repeat (first [rewrite Hg1 | rewrite Hh1 | rewrite Hg2 | rewrite Hh2]; cbn).
  destruct (DataFrame_getitem users "total_likes") as [e|total_likes]; [done|].
  destruct (Series_sum total_likes) as [e|sum]; [done|].
  destruct (truediv sum _) as [e|quotient]; [done|].
  destruct (round quotient 2) as [e|avg_likes]; [done|].
  eexists. split; reflexivity.
Qed.

Lemma harmless_ret {A} (a : A) : harmless (mret a).
Proof. by intros w. Qed.

Lemma harmless_bind {A B} (m : M A) (k : A → M B) :
  harmless m → (∀ a, harmless (k a)) → harmless (m ≫= k).
Proof.
  intros Hm Hk w. unfold mbind, M_bind, bind.
  destruct (Hm w) as [Hext Hexit]. destruct (m w) as [[e|a] w1]; simpl in *.
  - done.
  - destruct (Hk a w1) as [Hext' Hexit']. split; [by etrans|done].
Qed.

Lemma harmless_lift {A} (r : exn + A) : benign r → harmless (lift r).
Proof. by intros Hr w. Qed.

Lemma harmless_var name : harmless (var name).
Proof. intros w. unfold var. by destruct (globals w !! name). Qed.

Lemma wrap64_small z : (- 2 ^ 63 ≤ z < 2 ^ 63)%Z → wrap64 z = z.
Proof. intros Hz. unfold wrap64. rewrite Z.mod_small; lia. Qed.

Lemma harmless_deref l : harmless (deref l).
Proof. intros w. unfold deref. by destruct (heap w !! l). Qed.

Lemma harmless_new table : harmless (new table).
Proof. intros w. split; [apply extends_alloc|done]. Qed.

Lemma benign_DataFrame_getitem table c : benign (DataFrame_getitem table c).
Proof. unfold DataFrame_getitem. by destruct (DataFrame_column table c). Qed.

Lemma benign_DataFrame_sort_values table c a :
  benign (DataFrame_sort_values table c a).
Proof.
  unfold DataFrame_sort_values. destruct (DataFrame_column table c) as [key|]; [|done].
  destruct (DataFrame_take _ table) as [e|] eqn:E; [|done].
  by apply DataFrame_take_error in E as ->.
Qed.

Lemma benign_Series_sum s : benign (Series_sum s).
Proof. by destruct s as [| |[|]|]. Qed.

Lemma benign_truediv x n : benign (truediv x n).
Proof. destruct x; simpl; try done; by destruct (decide (n = 0%Z)). Qed.

Lemma benign_round x n : benign (round x n).
Proof. by destruct x. Qed.

Lemma benign_bar table x y o t ls cs : benign (bar table x y o t ls cs).
Proof.
  unfold bar, px_column.
  by destruct (DataFrame_column table x), (DataFrame_column table y).
Qed.

Lemma benign_line table x y t ls shape : benign (line table x y t ls shape).
Proof.
  unfold line, px_column.
  by destruct (DataFrame_column table x), (DataFrame_column table y).
Qed.

Create HintDb harmless.
#[local] Hint Resolve harmless_ret harmless_lift harmless_var harmless_deref
  harmless_new benign_DataFrame_getitem benign_DataFrame_sort_values
  benign_Series_sum benign_truediv benign_round benign_bar benign_line
  : harmless.

Ltac harmless :=
  repeat first
    [ progress (intros; cbv zeta)
    | apply harmless_bind
    | solve [eauto with harmless] ].

Lemma harmless_head l n : harmless (head l n).
Proof. unfold head. harmless. Qed.

Lemma harmless_sort_values l c a : harmless (sort_values l c a).
Proof. unfold sort_values. harmless. Qed.

Lemma harmless_getitem l c : harmless (getitem l c).
Proof. unfold getitem. harmless. Qed.

Lemma harmless_px_bar l x y o t ls cs : harmless (px_bar l x y o t ls cs).
Proof. unfold px_bar. harmless. Qed.

Lemma harmless_px_line l x y t ls shape : harmless (px_line l x y t ls shape).
Proof. unfold px_line. harmless. Qed.

#[local] Hint Resolve harmless_head harmless_sort_values harmless_getitem
  harmless_px_bar harmless_px_line : harmless.

Lemma harmless_create_word_count_chart l : harmless (create_word_count_chart l).
Proof. unfold create_word_count_chart. harmless. Qed.

Lemma harmless_create_user_engagement_chart l :
  harmless (create_user_engagement_chart l).
Proof. unfold create_user_engagement_chart. harmless. Qed.

Lemma harmless_create_sentiment_line_chart l :
  harmless (create_sentiment_line_chart l).
Proof. unfold create_sentiment_line_chart. harmless. Qed.

Lemma harmless_create_summary_card : harmless create_summary_card.
Proof. unfold create_summary_card. harmless. Qed.

#[local] Hint Resolve harmless_create_word_count_chart
  harmless_create_user_engagement_chart harmless_create_sentiment_line_chart
  harmless_create_summary_card : harmless.

Lemma harmless_layout : harmless layout.
Proof. unfold layout. harmless. Qed.

End running.

(** ** The chart builders *)

Section charts.
Context `{Platform}.
Implicit Types (w : world) (df : loc) (table : DataFrame).

(** What the two bar chart builders have in common: the bars are the
    first [n] rows of the table, in some order; they are in ascending order
    of the key when the key column holds integers. *)
Lemma head_sort_bar_marks n key lab o t ls cs df w table keys ys :
  heap w !! df = Some table →
  DataFrame_wf table →
  DataFrame_column table key = Some keys →
  DataFrame_column table lab = Some ys →
  ∃ fig w',
    (top ← head df n; top ← sort_values top key true; px_bar top key lab o t ls cs) w
      = (inr fig, w') ∧
    tr_type <$> fig_data fig = [Bar] ∧
    tr_orientation <$> fig_data fig = [o] ∧
    marks fig ≡ₚ take n (zip (Series_values keys) (Series_values ys)) ∧
    (∀ ks, keys = Int64 ks → ∃ zs, (marks fig).*1 = CInt <$> zs ∧ Sorted Z.le zs).
Proof.
  intros Hdf Hwf Hkey Hlab.
  destruct (sort_head_columns table n key lab keys ys Hwf Hkey Hlab)
    as (top & xs & ys' & Hsort & Hx & Hy & Hlen' & Hperm' & Hsorted).
  destruct (marks_bar top key lab o t ls cs xs ys' Hx Hy)
    as (fig & Hfig & Hmarks & Htype & Ho).
  rewrite (head_sort_bar_run _ _ _ _ _ _ _ _ _ table Hdf). simpl.
  rewrite Hsort, Hfig. eexists _, _. split_and!; [done..|by rewrite Hmarks|].
  intros ks ->. destruct (Hsorted ks eq_refl) as (zs & -> & Hzs).
  exists zs. split; [|done]. rewrite Hmarks. apply fst_zip.
  unfold Series_len in Hlen'. by rewrite Hlen'.
Qed.

(** The line chart has one point for each row, in the order of the rows. *)
Lemma line_chart_marks df w table dates values :
  heap w !! df = Some table →
  DataFrame_column table "date" = Some dates →
  DataFrame_column table "avg_sentiment" = Some values →
  ∃ fig,
    create_sentiment_line_chart df w = (inr fig, w) ∧
    tr_type <$> fig_data fig = [Scatter] ∧
    marks fig = zip (Series_values dates) (Series_values values).
Proof.
  intros Hdf Hdates Hvalues.
  destruct (marks_line table "date" "avg_sentiment"
              "Daily Average Sentiment Trend (MapReduce 2)"
              [("date", "Date"); ("avg_sentiment", "Average Sentiment Score")]
              "spline" "#006699" 5 "#006699" dates values Hdates Hvalues)
    as (fig & Hfig & Hmarks).
  rewrite (create_sentiment_line_chart_run _ _ table Hdf), Hfig.
  eexists. split_and!; [reflexivity| |done].
  unfold line, px_column in Hfig. rewrite Hdates, Hvalues in Hfig.
  by injection Hfig as <-.
Qed.

End charts.

Section bar_charts.
Context `{Platform}.
Implicit Types (w : world) (df : loc) (table : DataFrame).

(** C1.  On a word-count table of at least 20 rows the word-count chart
    has exactly 20 bars; they are the first 20 rows of the table as it
    stands (no row after the 20th is among them, whatever its count), and
    they are drawn in ascending order of [total_count]. *)
Theorem word_count_chart_first_20 w df table words counts :
  heap w !! df = Some table →
  DataFrame_wf table →
  DataFrame_column table "word" = Some words →
  DataFrame_column table "total_count" = Some (Int64 counts) →
  20 ≤ DataFrame_len table →
  ∃ fig w' xs,
    create_word_count_chart df w = (inr fig, w') ∧
    length (marks fig) = 20 ∧
    (marks fig).*1 = CInt <$> xs ∧
    Sorted Z.le xs ∧
    marks fig ≡ₚ take 20 (zip (CInt <$> counts) (Series_values words)).
Proof.
  intros Hdf Hwf Hwords Hcounts Hrows.
  destruct (head_sort_bar_marks 20 "total_count" "word" "h"
              "Top 20 Most Frequent Words (MapReduce 1)"
              [("word", "Word"); ("total_count", "Total Count")] Teal_r
              df w table (Int64 counts) words Hdf Hwf Hcounts Hwords)
    as (fig & w' & Hrun & _ & _ & Hperm & Hsorted).
  destruct (Hsorted counts eq_refl) as (xs & Hxs & Hasc).
  exists fig, w', xs. split_and!; try done.
  rewrite Hperm, length_take, length_zip_with.
  fold (Series_len (Int64 counts)) (Series_len words).
  rewrite (DataFrame_wf_column table "total_count" _ Hwf Hcounts),
    (DataFrame_wf_column table "word" _ Hwf Hwords). lia.
Qed.

(** C5.  On a user-stats table of at least 10 rows the engagement chart is
    a horizontal bar chart of exactly 10 bars, one for each of the first
    10 rows of the table as it stands, drawn in ascending order of
    [total_engagement]. *)
Theorem user_engagement_chart_first_10 w df table users engagement :
  heap w !! df = Some table →
  DataFrame_wf table →
  DataFrame_column table "user" = Some users →
  DataFrame_column table "total_engagement" = Some (Int64 engagement) →
  10 ≤ DataFrame_len table →
  ∃ fig w' xs,
    create_user_engagement_chart df w = (inr fig, w') ∧
    tr_type <$> fig_data fig = [Bar] ∧
    tr_orientation <$> fig_data fig = ["h"] ∧
    length (marks fig) = 10 ∧
    (marks fig).*1 = CInt <$> xs ∧
    Sorted Z.le xs ∧
    marks fig ≡ₚ take 10 (zip (CInt <$> engagement) (Series_values users)).
Proof.
  intros Hdf Hwf Husers Heng Hrows.
  destruct (head_sort_bar_marks 10 "total_engagement" "user" "h"
              "Top 10 Most Engaged Users (MapReduce 3)"
              [("user", "User ID");
               ("total_engagement", "Total Engagement (Likes + Retweets)")] Plasma_r
              df w table (Int64 engagement) users Hdf Hwf Heng Husers)
    as (fig & w' & Hrun & Htype & Ho & Hperm & Hsorted).
  destruct (Hsorted engagement eq_refl) as (xs & Hxs & Hasc).
  exists fig, w', xs. split_and!; try done.
  rewrite Hperm, length_take, length_zip_with.
  fold (Series_len (Int64 engagement)) (Series_len users).
  rewrite (DataFrame_wf_column table "total_engagement" _ Hwf Heng),
    (DataFrame_wf_column table "user" _ Hwf Husers). lia.
Qed.

(** All the rows of a table that is shorter than the chart is long. *)
Lemma take_all_rows table n x y xs ys :
  DataFrame_wf table →
  DataFrame_column table x = Some xs →
  DataFrame_column table y = Some ys →
  DataFrame_len table < n →
  take n (zip (Series_values xs) (Series_values ys))
    = zip (Series_values xs) (Series_values ys) ∧
  length (zip (Series_values xs) (Series_values ys)) = DataFrame_len table.
Proof.
  intros Hwf Hx Hy Hn.
  pose proof (DataFrame_wf_column table x xs Hwf Hx) as Hxs.
  pose proof (DataFrame_wf_column table y ys Hwf Hy) as Hys.
  unfold Series_len in *.
  assert (length (zip (Series_values xs) (Series_values ys)) = DataFrame_len table)
    as Hlen by (rewrite length_zip_with; lia).
  split; [|done]. apply take_ge. lia.
Qed.

(** C10.  On a word-count table of fewer than 20 rows and on a user-stats
    table of fewer than 10 rows, the empty ones included, the builders
    return a chart: it has one bar for each row of the table and no
    other. *)
Theorem short_tables_one_bar_per_row w df table words counts df' table' users engagement :
  heap w !! df = Some table →
  DataFrame_wf table →
  DataFrame_column table "word" = Some words →
  DataFrame_column table "total_count" = Some counts →
  DataFrame_len table < 20 →
  heap w !! df' = Some table' →
  DataFrame_wf table' →
  DataFrame_column table' "user" = Some users →
  DataFrame_column table' "total_engagement" = Some engagement →
  DataFrame_len table' < 10 →
  (∃ fig w',
     create_word_count_chart df w = (inr fig, w') ∧
     length (marks fig) = DataFrame_len table ∧
     marks fig ≡ₚ zip (Series_values counts) (Series_values words)) ∧
  (∃ fig w',
     create_user_engagement_chart df' w = (inr fig, w') ∧
     length (marks fig) = DataFrame_len table' ∧
     marks fig ≡ₚ zip (Series_values engagement) (Series_values users)).
Proof.
  intros Hdf Hwf Hwords Hcounts Hrows Hdf' Hwf' Husers Heng Hrows'.
  split.
  - destruct (head_sort_bar_marks 20 "total_count" "word" "h"
                "Top 20 Most Frequent Words (MapReduce 1)"
                [("word", "Word"); ("total_count", "Total Count")] Teal_r
                df w table counts words Hdf Hwf Hcounts Hwords)
      as (fig & w' & Hrun & _ & _ & Hperm & _).
    destruct (take_all_rows table 20 "total_count" "word" counts words)
      as [Hall Hlen]; [done..|].
    rewrite Hall in Hperm.
    exists fig, w'. split_and!; [done| |done]. by rewrite Hperm.
  - destruct (head_sort_bar_marks 10 "total_engagement" "user" "h"
                "Top 10 Most Engaged Users (MapReduce 3)"
                [("user", "User ID");
                 ("total_engagement", "Total Engagement (Likes + Retweets)")] Plasma_r
                df' w table' engagement users Hdf' Hwf' Heng Husers)
      as (fig & w' & Hrun & _ & _ & Hperm & _).
    destruct (take_all_rows table' 10 "total_engagement" "user" engagement users)
      as [Hall Hlen]; [done..|].
    rewrite Hall in Hperm.
    exists fig, w'. split_and!; [done| |done]. by rewrite Hperm.
Qed.

End bar_charts.

Section line_chart.
Context `{Platform}.
Implicit Types (w : world) (df : loc) (table : DataFrame).

(** C2, as the code has it.  On a daily-sentiment table of N rows the line
    chart has exactly N points, and their x values are the dates in the
    order of the rows of the table: the builder does not sort, so the
    points are in ascending order of date exactly when the rows are. *)
Theorem sentiment_line_chart_row_order w df table dates values :
  heap w !! df = Some table →
  DataFrame_wf table →
  DataFrame_column table "date" = Some dates →
  DataFrame_column table "avg_sentiment" = Some values →
  ∃ fig,
    create_sentiment_line_chart df w = (inr fig, w) ∧
    tr_type <$> fig_data fig = [Scatter] ∧
    length (marks fig) = DataFrame_len table ∧
    (marks fig).*1 = Series_values dates ∧
    (marks fig).*2 = Series_values values.
Proof.
  intros Hdf Hwf Hdates Hvalues.
  destruct (line_chart_marks df w table dates values Hdf Hdates Hvalues)
    as (fig & Hrun & Htype & Hmarks).
  pose proof (DataFrame_wf_column table _ _ Hwf Hdates) as Hlen.
  pose proof (DataFrame_wf_column table _ _ Hwf Hvalues) as Hlen'.
  exists fig. rewrite Hmarks. unfold Series_len in *. split_and!; [done..| | |].
  - rewrite length_zip_with. lia.
  - apply fst_zip. lia.
  - apply snd_zip. lia.
Qed.

End line_chart.

Section empty_tables.
Context `{Platform}.
Implicit Types (w : world) (df : loc) (table : DataFrame).

Lemma empty_columns table x y :
  DataFrame_wf table →
  DataFrame_len table = 0 →
  has_columns table [x; y] →
  ∃ xs ys, DataFrame_column table x = Some xs ∧ DataFrame_column table y = Some ys ∧
           Series_values xs = [] ∧ Series_values ys = [].
Proof.
  intros Hwf Hlen Hcols.
  apply Forall_cons in Hcols as [[xs Hx] Hcols].
  apply Forall_cons in Hcols as [[ys Hy] _].
  exists xs, ys. split_and!; [done..| |]; apply nil_length_inv.
  - by rewrite <- Hlen, <- (DataFrame_wf_column table x xs).
  - by rewrite <- Hlen, <- (DataFrame_wf_column table y ys).
Qed.

Lemma bar_error table x y o t ls cs e :
  bar table x y o t ls cs = inl e → ∃ msg, e = ValueError msg.
Proof.
  unfold bar, px_column.
  destruct (DataFrame_column table x), (DataFrame_column table y); simpl;
    intros [= <-]; by eexists.
Qed.

(** On a data frame no chart builder indexes past the rows. *)
Lemma chart_builders_no_IndexError w df table :
  heap w !! df = Some table →
  DataFrame_wf table →
  (create_word_count_chart df w).1 ≠ inl IndexError ∧
  (create_user_engagement_chart df w).1 ≠ inl IndexError ∧
  (create_sentiment_line_chart df w).1 ≠ inl IndexError.
Proof.
  intros Hdf Hwf.
  assert (∀ n key lab o t ls cs,
            ((top ← head df n; top ← sort_values top key true;
              px_bar top key lab o t ls cs) w).1 ≠ inl IndexError) as Hbar.
  { intros n key lab o t ls cs.
    rewrite (head_sort_bar_run _ _ _ _ _ _ _ _ _ table Hdf). simpl.
    destruct (DataFrame_column (DataFrame_head table n) key) as [keys|] eqn:Hkey.
    - rewrite (DataFrame_sort_values_wf _ _ keys) by (by try apply DataFrame_wf_head).
      simpl. intros (msg & [=])%bar_error.
    - unfold DataFrame_sort_values. by rewrite Hkey. }
  split_and!; [apply Hbar..|].
  rewrite (create_sentiment_line_chart_run _ _ table Hdf). simpl.
  unfold line, px_column.
  by destruct (DataFrame_column table "date"), (DataFrame_column table "avg_sentiment").
Qed.

(** C6, as the code has it.  On a table without rows (the columns being
    there) each chart builder returns a chart, and the chart is empty: no
    builder indexes into the rows, [head] and [sort_values] accept the
    empty table. *)
Theorem empty_tables_empty_charts w df table :
  heap w !! df = Some table →
  DataFrame_wf table →
  DataFrame_len table = 0 →
  (has_columns table ["total_count"; "word"] →
   ∃ fig w', create_word_count_chart df w = (inr fig, w') ∧ marks fig = []) ∧
  (has_columns table ["total_engagement"; "user"] →
   ∃ fig w', create_user_engagement_chart df w = (inr fig, w') ∧ marks fig = []) ∧
  (has_columns table ["date"; "avg_sentiment"] →
   ∃ fig w', create_sentiment_line_chart df w = (inr fig, w') ∧ marks fig = []).
Proof.
  intros Hdf Hwf Hlen. split_and!.
  - intros (xs & ys & Hx & Hy & Hxs & Hys)%empty_columns; [|done..].
    destruct (head_sort_bar_marks 20 "total_count" "word" "h"
                "Top 20 Most Frequent Words (MapReduce 1)"
                [("word", "Word"); ("total_count", "Total Count")] Teal_r
                df w table xs ys Hdf Hwf Hx Hy)
      as (fig & w' & Hrun & _ & _ & Hperm & _).
    exists fig, w'. split; [done|].
    rewrite Hxs in Hperm. by apply Permutation_nil_r in Hperm.
  - intros (xs & ys & Hx & Hy & Hxs & Hys)%empty_columns; [|done..].
    destruct (head_sort_bar_marks 10 "total_engagement" "user" "h"
                "Top 10 Most Engaged Users (MapReduce 3)"
                [("user", "User ID");
                 ("total_engagement", "Total Engagement (Likes + Retweets)")] Plasma_r
                df w table xs ys Hdf Hwf Hx Hy)
      as (fig & w' & Hrun & _ & _ & Hperm & _).
    exists fig, w'. split; [done|].
    rewrite Hxs in Hperm. by apply Permutation_nil_r in Hperm.
  - intros (xs & ys & Hx & Hy & Hxs & Hys)%empty_columns; [|done..].
    destruct (line_chart_marks df w table xs ys Hdf Hx Hy)
      as (fig & Hrun & _ & Hmarks).
    exists fig, w. split; [done|]. by rewrite Hmarks, Hxs.
Qed.

End empty_tables.

Section summary_card.
Context `{Platform}.
Implicit Types (w : world) (table : DataFrame).

(** C3.  With at least one cleaned tweet, the summary card shows the
    number of rows of the cleaned-tweets table, the number of rows of the
    user-stats table, and [round(sum / total_tweets, 2)], where [sum] is
    the sum of [total_likes] over all rows of the user-stats table (the
    sum being in the [int64] range). *)
Theorem summary_card_statistics w tweets users total_likes likes :
  frame_of w "cleaned_tweets_df" = Some tweets →
  frame_of w "user_stats_df" = Some users →
  0 < DataFrame_len tweets →
  DataFrame_column users "total_likes" = Some total_likes →
  integers total_likes = Some likes →
  (- 2 ^ 63 ≤ foldr Z.add 0 likes < 2 ^ 63)%Z →
  ∃ card sum quotient avg_likes,
    create_summary_card w = (inr card, w) ∧
    int_value sum = Some (foldr Z.add 0 likes)%Z ∧
    truediv sum (Z.of_nat (DataFrame_len tweets)) = inr quotient ∧
    round quotient 2 = inr avg_likes ∧
    headings card =
      [Lit (format_thousands (DataFrame_len tweets));
       Lit (format_thousands (DataFrame_len users));
       format avg_likes].
Proof.
  intros Htweets Husers Hn Hcol Hint Hrange.
  pose proof (create_summary_card_run w tweets users Htweets Husers) as Hrun.
  unfold DataFrame_getitem in Hrun. rewrite Hcol in Hrun.
  set (n := Z.of_nat (DataFrame_len tweets)) in *.
  destruct total_likes as [l| |[|]|]; simplify_eq/=.
  - destruct Hrun as (card & Hcard & Hshown).
    set (sum := wrap64 (foldr Z.add 0%Z likes)) in *.
    exists card, (NpInt64 sum), (NpFloat64 (f64_div (f64_of_int sum) (f64_of_int n))),
      (NpFloat64 (np_round (f64_div (f64_of_int sum) (f64_of_int n)) 2)).
    split_and!; [done| |done..]. simpl. subst sum. by rewrite wrap64_small.
  - destruct (decide (n = 0%Z)) as [|Hne] eqn:Hdec; [lia|].
    destruct Hrun as (card & Hcard & Hshown).
    exists card, (PyInt 0), (PyFloat (f64_div (f64_of_int 0) (f64_of_int n))),
      (PyFloat (py_round (f64_div (f64_of_int 0) (f64_of_int n)) 2)).
    split_and!; [done|done| |done..]. simpl. by rewrite Hdec.
Qed.

(** C7, as the code has it.  With no cleaned tweet the division is not
    guarded.  When the user-stats table has no row either, the sum is the
    Python integer [0] and the division raises [ZeroDivisionError], which
    the builder lets through.  When [total_likes] is an [int64] column the
    sum is a numpy scalar: the division raises nothing, its result is the
    IEEE quotient by zero (an infinity or a NaN) and the card shows it. *)
Theorem summary_card_no_tweets w tweets users total_likes :
  frame_of w "cleaned_tweets_df" = Some tweets →
  frame_of w "user_stats_df" = Some users →
  DataFrame_len tweets = 0 →
  DataFrame_column users "total_likes" = Some total_likes →
  (total_likes = Object [] →
   create_summary_card w = (inl ZeroDivisionError, w) ∧
   (layout w).1 = inl ZeroDivisionError) ∧
  (∀ likes, total_likes = Int64 likes →
   ∃ card,
     create_summary_card w = (inr card, w) ∧
     headings card =
       [Lit "0";
        Lit (format_thousands (DataFrame_len users));
        FloatStr (np_round (f64_div (f64_of_int (wrap64 (foldr Z.add 0%Z likes)))
                                    (f64_of_int 0)) 2)]).
Proof.
  intros Htweets Husers Hn Hcol.
  pose proof (create_summary_card_run w tweets users Htweets Husers) as Hrun.
  unfold DataFrame_getitem in Hrun. rewrite Hcol, Hn in Hrun.
  split.
  - intros ->. split; [exact Hrun|].
    unfold layout, mbind, M_bind, bind. simpl in Hrun. by rewrite Hrun.
  - intros likes ->. exact Hrun.
Qed.

End summary_card.

Section frame.
Context `{Platform}.
Implicit Types (w : world) (df : loc).

(** C8.  Building any of the three charts, the summary card or the whole
    layout leaves the names, the output and every object of the heap as
    they were (new objects are added behind them): the table behind each
    of the five names is the one it was. *)
Theorem loaded_tables_not_mutated w df w' :
  w' ∈ [ (create_word_count_chart df w).2;
         (create_sentiment_line_chart df w).2;
         (create_user_engagement_chart df w).2;
         (create_summary_card w).2;
         (layout w).2 ] →
  extends w w' ∧
  ∀ name table,
    name ∈ ["word_count_df"; "daily_sentiment_df"; "user_stats_df";
            "cleaned_tweets_df"; "emotions_sample_df"] →
    frame_of w name = Some table → frame_of w' name = Some table.
Proof.
  intros Hin.
  assert (extends w w') as Hext.
  { repeat (apply elem_of_cons in Hin as [->|Hin]).
    - apply harmless_create_word_count_chart.
    - apply harmless_create_sentiment_line_chart.
    - apply harmless_create_user_engagement_chart.
    - apply harmless_create_summary_card.
    - apply harmless_layout.
    - by apply elem_of_nil in Hin. }
  split; [done|]. intros name table _. by apply frame_of_extends.
Qed.

End frame.

(** ** The whole script *)

Section whole_script.
Context `{Platform}.
Implicit Types (w : world) (fs : filesystem).

(** *** The loading block *)

Ltac run_names :=
  repeat first [rewrite lookup_insert_eq | rewrite lookup_insert_ne by done].

(** From the empty world the loading block ends as [loaded] says, prints
    nothing, and leaves six objects behind five names. *)
Lemma load_data_run fs out :
  ∃ w, load_data fs (World ∅ [] out)
         = (match loaded fs with inl e => inl e | inr _ => inr () end, w) ∧
       stdout w = out ∧
       match loaded fs with
       | inl _ => True
       | inr (wc, ds, us, ct) =>
           globals w = names5 ∧
           heap w = [wc; ds; us; ct; ct; DataFrame_head ct 1000]
       end.
Proof.
  unfold loaded, load_data, read_csv, head, getitem, setitem, update, assign,
    var, deref, new, lift, read.
  unfold mbind, M_bind, result_bind, bind.
  destruct (fs "mapreduce_word_count.csv") as [[wc| |]|]; cbn; [|by eexists..].
  destruct (fs "mapreduce_daily_sentiment.csv") as [[ds| |]|]; cbn; [|by eexists..].
  destruct (fs "mapreduce_user_stats.csv") as [[us| |]|]; cbn; [|by eexists..].
  destruct (fs "tweets_cleaned.csv") as [[ct| |]|]; cbn; [|by eexists..].
  run_names. cbn.
  destruct (DataFrame_getitem ds "date") as [e|date]; cbn; [by eexists|].
  destruct (to_datetime date) as [e|parsed]; cbn; [by eexists|].
  run_names. cbn. by eexists.
Qed.

(** Without the prefix it ends in the same way, with four objects behind
    four names. *)
Lemma load_data_without_prefix_run fs out :
  ∃ w, load_data_without_prefix fs (World ∅ [] out)
         = (match loaded fs with inl e => inl e | inr _ => inr () end, w) ∧
       stdout w = out ∧
       match loaded fs with
       | inl _ => True
       | inr (wc, ds, us, ct) =>
           globals w = names4 ∧ heap w = [wc; ds; us; ct]
       end.
Proof.
  unfold loaded, load_data_without_prefix, read_csv, head, getitem, setitem, update,
    assign, var, deref, new, lift, read.
  unfold mbind, M_bind, result_bind, bind.
  destruct (fs "mapreduce_word_count.csv") as [[wc| |]|]; cbn; [|by eexists..].
  destruct (fs "mapreduce_daily_sentiment.csv") as [[ds| |]|]; cbn; [|by eexists..].
  destruct (fs "mapreduce_user_stats.csv") as [[us| |]|]; cbn; [|by eexists..].
  destruct (fs "tweets_cleaned.csv") as [[ct| |]|]; cbn; [|by eexists..].
  run_names. cbn.
  destruct (DataFrame_getitem ds "date") as [e|date]; cbn; [by eexists|].
  destruct (to_datetime date) as [e|parsed]; cbn; [by eexists|].
  run_names. cbn. by eexists.
Qed.

Lemma to_datetime_error s e : to_datetime s = inl e → ∃ msg, e = ValueError msg.
Proof.
  destruct s as [l|l|l|l]; simpl; try done.
  - destruct (float_dates l); [done|]. intros [= <-]. by eexists.
  - destruct (parse_dates l); [done|]. intros [= <-]. by eexists.
Qed.

(** The loading block looks for a file only when it reads it, and a file
    it does not find is one of the four that is not there. *)
Lemma loaded_FileNotFoundError fs f :
  loaded fs = inl (FileNotFoundError f) → f ∈ required_files ∧ fs f = None.
Proof.
  unfold loaded, read, required_files, mbind, result_bind.
  destruct (fs "mapreduce_word_count.csv") as [[wc| |]|] eqn:E1; try done;
    [|intros [= <-]; split; [repeat constructor|done]].
  destruct (fs "mapreduce_daily_sentiment.csv") as [[ds| |]|] eqn:E2; try done;
    [|intros [= <-]; split; [repeat constructor|done]].
  destruct (fs "mapreduce_user_stats.csv") as [[us| |]|] eqn:E3; try done;
    [|intros [= <-]; split; [repeat constructor|done]].
  destruct (fs "tweets_cleaned.csv") as [[ct| |]|] eqn:E4; try done;
    [|intros [= <-]; split; [repeat constructor|done]].
  unfold DataFrame_getitem. destruct (DataFrame_column ds "date") as [date|]; [|done].
  destruct (to_datetime date) as [e|parsed] eqn:E; [|done].
  apply to_datetime_error in E as [msg ->]. done.
Qed.

Lemma loaded_not_SystemExit fs : loaded fs ≠ inl SystemExit.
Proof.
  unfold loaded, read, mbind, result_bind.
  destruct (fs "mapreduce_word_count.csv") as [[wc| |]|]; try done.
  destruct (fs "mapreduce_daily_sentiment.csv") as [[ds| |]|]; try done.
  destruct (fs "mapreduce_user_stats.csv") as [[us| |]|]; try done.
  destruct (fs "tweets_cleaned.csv") as [[ct| |]|]; try done.
  unfold DataFrame_getitem. destruct (DataFrame_column ds "date") as [date|]; [|done].
  destruct (to_datetime date) as [e|parsed] eqn:E; [|done].
  apply to_datetime_error in E as [msg ->]. done.
Qed.

Lemma load_result_not_SystemExit fs :
  match loaded fs with inl e => inl e | inr _ => inr () end
  ≠ (inl SystemExit : exn + ()).
Proof.
  pose proof (loaded_not_SystemExit fs) as Hexit.
  destruct (loaded fs) as [e|frames]; [|done]. by intros [= ->].
Qed.

(** The first of the four files that is not there, the files before it
    being readable, is the one the loading block fails on. *)
Lemma loaded_missing fs f :
  f ∈ required_files →
  fs f = None →
  (∀ g, g ∈ read_before f required_files → ∃ table, fs g = Some (Csv table)) →
  loaded fs = inl (FileNotFoundError f).
Proof.
  intros Hf Hmissing Hbefore.
  unfold loaded, read, mbind, result_bind.
  unfold required_files in *.
  repeat (apply elem_of_cons in Hf as [->|Hf]); try (by apply elem_of_nil in Hf).
  - by rewrite Hmissing.
  - destruct (Hbefore "mapreduce_word_count.csv") as [wc ->]; [repeat constructor|].
    by rewrite Hmissing.
  - destruct (Hbefore "mapreduce_word_count.csv") as [wc ->]; [repeat constructor|].
    destruct (Hbefore "mapreduce_daily_sentiment.csv") as [ds ->]; [repeat constructor|].
    by rewrite Hmissing.
  - destruct (Hbefore "mapreduce_word_count.csv") as [wc ->]; [repeat constructor|].
    destruct (Hbefore "mapreduce_daily_sentiment.csv") as [ds ->]; [repeat constructor|].
    destruct (Hbefore "mapreduce_user_stats.csv") as [us ->]; [repeat constructor|].
    by rewrite Hmissing.
Qed.

(** *** The layout depends on the four tables only *)

Lemma agree_extends w w' w1 w1' :
  agree w w' → extends w w1 → extends w' w1' → agree w1 w1'.
Proof.
  intros Hag Hext Hext' name Hname.
  destruct (Hag name Hname) as (table & Hw & Hw').
  exists table. eauto using frame_of_extends.
Qed.

Lemma frames_only_ret {A} (a : A) : frames_only (mret a).
Proof. by intros w w' Hag. Qed.

Lemma frames_only_bind {A B} (m : M A) (k : A → M B) :
  frames_only m → (∀ a, frames_only (k a)) → frames_only (m ≫= k).
Proof.
  intros Hm Hk w w' Hag. unfold mbind, M_bind, bind.
  destruct (Hm w w' Hag) as [Hr Hag'].
  destruct (m w) as [[e|a] w1], (m w') as [[e'|a'] w1']; simplify_eq/=; [done|].
  by apply Hk.
Qed.

(** A builder called on the table behind a name. *)
Lemma frames_only_call {A B} name (builder : loc → M A) (k : A → M B) :
  name ∈ used_names →
  (∀ l, harmless (builder l)) →
  (∀ l l' w w' table,
     heap w !! l = Some table → heap w' !! l' = Some table →
     (builder l w).1 = (builder l' w').1) →
  (∀ a, frames_only (k a)) →
  frames_only (l ← var name; a ← builder l; k a).
Proof.
  intros Hname Hharmless Htable Hk w w' Hag.
  destruct (Hag name Hname)
    as (table & (l & Hl & Hh)%frame_of_Some & (l' & Hl' & Hh')%frame_of_Some).
  unfold mbind, M_bind, bind, var. rewrite Hl, Hl'.
  pose proof (Htable l l' w w' table Hh Hh') as Hr.
  pose proof (agree_extends w w' _ _ Hag (proj1 (Hharmless l w)) (proj1 (Hharmless l' w')))
    as Hag'.
  destruct (builder l w) as [[e|a] w1], (builder l' w') as [[e'|a'] w1']; simplify_eq/=;
    [done|].
  by apply Hk.
Qed.

Lemma head_sort_bar_table n key lab o t ls cs l l' w w' table :
  heap w !! l = Some table → heap w' !! l' = Some table →
  ((top ← head l n; top ← sort_values top key true; px_bar top key lab o t ls cs) w).1 =
  ((top ← head l' n; top ← sort_values top key true; px_bar top key lab o t ls cs) w').1.
Proof.
  intros Hl Hl'.
  rewrite (head_sort_bar_run _ _ _ _ _ _ _ _ _ table Hl),
    (head_sort_bar_run _ _ _ _ _ _ _ _ _ table Hl').
  simpl. by destruct (DataFrame_sort_values _ _ _).
Qed.

Lemma create_sentiment_line_chart_table l l' w w' table :
  heap w !! l = Some table → heap w' !! l' = Some table →
  (create_sentiment_line_chart l w).1 = (create_sentiment_line_chart l' w').1.
Proof.
  intros Hl Hl'.
  by rewrite (create_sentiment_line_chart_run _ _ table Hl),
    (create_sentiment_line_chart_run _ _ table Hl').
Qed.

Lemma frames_only_create_summary_card : frames_only create_summary_card.
Proof.
  intros w w' Hag. split.
  - destruct (Hag "cleaned_tweets_df") as (tweets & Ht & Ht'); [repeat constructor|].
    destruct (Hag "user_stats_df") as (users & Hu & Hu'); [repeat constructor|].
    apply frame_of_Some in Ht as (l1 & Hg1 & Hh1), Ht' as (l1' & Hg1' & Hh1').
    apply frame_of_Some in Hu as (l2 & Hg2 & Hh2), Hu' as (l2' & Hg2' & Hh2').
    unfold create_summary_card, getitem, var, deref, lift, mbind, M_bind, bind.
    repeat (first [rewrite Hg1 | rewrite Hh1 | rewrite Hg2 | rewrite Hh2
                  | rewrite Hg1' | rewrite Hh1' | rewrite Hg2' | rewrite Hh2']; cbn).
    destruct (DataFrame_getitem users "total_likes") as [e|total_likes]; [done|].
    destruct (Series_sum total_likes) as [e|sum]; [done|].
    destruct (truediv sum _) as [e|quotient]; [done|].
    by destruct (round quotient 2) as [e|avg_likes].
  - eapply agree_extends; [done|apply harmless_create_summary_card..].
Qed.

Lemma frames_only_layout : frames_only layout.
Proof.
  unfold layout. apply frames_only_bind; [apply frames_only_create_summary_card|].
  intros summary. apply frames_only_call.
  { repeat constructor. }
  { apply harmless_create_word_count_chart. }
  { intros. by eapply head_sort_bar_table. }
  intros words. apply frames_only_call.
  { repeat constructor. }
  { apply harmless_create_user_engagement_chart. }
  { intros. by eapply head_sort_bar_table. }
  intros users. apply frames_only_call.
  { repeat constructor. }
  { apply harmless_create_sentiment_line_chart. }
  { intros. by eapply create_sentiment_line_chart_table. }
  intros sentiment. apply frames_only_ret.
Qed.

(** *** From the first statement to [app.run] *)

(** How the script ends, from how its loading block ends: a missing file
    is reported and the process exits; any other exception of the block or
    of the layout ends the process with a traceback; otherwise the server
    starts. *)
Lemma outcome_program body r w :
  body (World ∅ [] ["Loading data from R analysis outputs..."]) = (r, w) →
  stdout w = ["Loading data from R analysis outputs..."] →
  r ≠ inl SystemExit →
  outcome_of (program body initial) =
  match r with
  | inl (FileNotFoundError f) => Exited (missing_file_report f)
  | inl e => Crashed ["Loading data from R analysis outputs..."] e
  | inr _ =>
      match (layout w).1 with
      | inl e => Crashed ["Loading data from R analysis outputs..."] e
      | inr page =>
          Serving ["Loading data from R analysis outputs...";
                   newline +:+ "ðŸš€ Starting Dash app. Open http://127.0.0.1:8050/ in your browser."
                     +:+ newline] page
      end
  end.
Proof.
  intros Hbody Hout Hexit.
  unfold program, initial, print, try_except, mbind, M_bind, bind. cbn.
  rewrite Hbody. destruct r as [e|[]].
  - destruct e; cbn; rewrite ?Hout; try done.
    unfold mbind, M_bind, bind, print, raise. cbn. by rewrite Hout.
  - destruct (harmless_layout w) as [(_ & Hout' & _) Hbenign].
    destruct (layout w) as [[e|page] w']; cbn in *; rewrite Hout', Hout.
    + by destruct e.
    + done.
Qed.

(** Whatever world holds the four loaded tables behind their names, the
    script ends as the layout in that world does. *)
Lemma run_loaded fs wc ds us ct w :
  loaded fs = inr (wc, ds, us, ct) →
  frame_of w "word_count_df" = Some wc →
  frame_of w "daily_sentiment_df" = Some ds →
  frame_of w "user_stats_df" = Some us →
  frame_of w "cleaned_tweets_df" = Some ct →
  run fs =
  match (layout w).1 with
  | inl e => Crashed ["Loading data from R analysis outputs..."] e
  | inr page =>
      Serving ["Loading data from R analysis outputs...";
               newline +:+ "ðŸš€ Starting Dash app. Open http://127.0.0.1:8050/ in your browser."
                 +:+ newline] page
  end.
Proof.
  intros Hloaded Hwc Hds Hus Hct. unfold run, script.
  destruct (load_data_run fs ["Loading data from R analysis outputs..."])
    as (w5 & Hrun & Hout & Hw5).
  rewrite (outcome_program _ _ _ Hrun Hout) by apply load_result_not_SystemExit.
  rewrite Hloaded in *. destruct Hw5 as [Hg5 Hh5].
  assert (agree w5 w) as Hag.
  { intros name Hname. unfold frame_of at 1. rewrite Hg5, Hh5.
    unfold names5, names4, used_names in *.
    repeat (apply elem_of_cons in Hname as [->|Hname]);
      try (by apply elem_of_nil in Hname); run_names; by eexists. }
  by destruct (frames_only_layout w5 w Hag) as [-> _].
Qed.

(** C9.  The 1000-row prefix is dead code: for every content of the
    working directory the script ends as the script without the re-read
    and the prefix does, with the same output and, when the server
    starts, the same page (summary card, three charts and layout tree). *)
Theorem prefix_is_dead_code fs : run fs = run_without_prefix fs.
Proof.
  unfold run, run_without_prefix.
  unfold script, script_without_prefix.
  destruct (load_data_run fs ["Loading data from R analysis outputs..."])
    as (w5 & Hrun5 & Hout5 & Hw5).
  destruct (load_data_without_prefix_run fs ["Loading data from R analysis outputs..."])
    as (w4 & Hrun4 & Hout4 & Hw4).
  rewrite (outcome_program _ _ _ Hrun5 Hout5), (outcome_program _ _ _ Hrun4 Hout4)
    by apply load_result_not_SystemExit.
  destruct (loaded fs) as [e|[[[wc ds] us] ct]]; [done|].
  destruct Hw5 as [Hg5 Hh5], Hw4 as [Hg4 Hh4].
  assert (agree w5 w4) as Hag.
  { intros name Hname. unfold frame_of. rewrite Hg5, Hh5, Hg4, Hh4.
    unfold names5, names4, used_names in *.
    repeat (apply elem_of_cons in Hname as [->|Hname]);
      try (by apply elem_of_nil in Hname); run_names; by eexists. }
  by destruct (frames_only_layout w5 w4 Hag) as [-> _].
Qed.

(** C4.  When one of the four required files is missing, the files read
    before it being readable, the script prints the diagnostic that names
    the file and exits: no server is started.  And the handler is the only
    way to this exit: whenever the script exits so, a required file is
    missing and it is the one the diagnostic names; every other exception
    goes uncaught. *)
Theorem missing_file_is_reported fs :
  (∀ f, f ∈ required_files →
        fs f = None →
        (∀ g, g ∈ read_before f required_files → ∃ table, fs g = Some (Csv table)) →
        run fs = Exited (missing_file_report f)) ∧
  (∀ out, run fs = Exited out →
          ∃ f, f ∈ required_files ∧ fs f = None ∧ out = missing_file_report f).
Proof.
  unfold run, script.
  destruct (load_data_run fs ["Loading data from R analysis outputs..."])
    as (w & Hrun & Hout & Hw).
  rewrite (outcome_program _ _ _ Hrun Hout) by apply load_result_not_SystemExit.
  split.
  - intros f Hf Hmissing Hbefore. by rewrite (loaded_missing fs f).
  - intros out. destruct (loaded fs) as [e|frames] eqn:Hloaded.
    + destruct e; try done. intros [= <-].
      apply loaded_FileNotFoundError in Hloaded as [Hf Hmissing]. by eexists.
    + by destruct (layout w).1.
Qed.

End whole_script.

(** * Further properties

    What the code shows besides: the formatting of the counts, the
    loading block and the date parse, the builders on tables that lack a
    column, the composition of the layout and the ways the script can
    end. *)

(** ** The format of the counts *)

Section formatting.

Lemma string_of_list_ascii_app (l k : list ascii) :
  String.string_of_list_ascii (l ++ k)
  = String.string_of_list_ascii l +:+ String.string_of_list_ascii k.
Proof.
  induction l as [|a l IH]; [done|].
  change (String a (String.string_of_list_ascii (l ++ k))
          = String a (String.string_of_list_ascii l +:+ String.string_of_list_ascii k)).
  by rewrite IH.
Qed.

Lemma list_ascii_of_string_app (s t : string) :
  String.list_ascii_of_string (s +:+ t)
  = String.list_ascii_of_string s ++ String.list_ascii_of_string t.
Proof.
  induction s as [|a s IH]; [done|].
  change (a :: String.list_ascii_of_string (s +:+ t)
          = a :: (String.list_ascii_of_string s ++ String.list_ascii_of_string t)).
  by rewrite IH.
Qed.

Lemma pretty_N_go_app (x : N) (s : string) :
  pretty_N_go x s = pretty_N_go x EmptyString +:+ s.
Proof.
  revert s. induction (N.lt_wf_0 x) as [x _ IH]; intros s.
  destruct (decide (x = 0)%N) as [->|Hx]; [done|].
  rewrite !(pretty_N_go_step x) by lia.
  rewrite (IH (x `div` 10)%N) by (apply N.div_lt; lia).
  rewrite (IH (x `div` 10)%N ltac:(apply N.div_lt; lia) (String _ EmptyString)).
  generalize (pretty_N_go (x `div` 10) EmptyString). intros p.
  induction p as [|a p IHp]; [done|].
  change (String a (p +:+ String (pretty_N_char (x `mod` 10)) s)
          = String a ((p +:+ String (pretty_N_char (x `mod` 10)) EmptyString) +:+ s)).
  by rewrite IHp.
Qed.

(** The decimal digits of a number, the last one first. *)
Lemma rev_digits (x : N) :
  rev (String.list_ascii_of_string (pretty x))
  = pretty_N_char (x `mod` 10)
    :: (if decide (x < 10)%N then []
        else rev (String.list_ascii_of_string (pretty (x `div` 10)%N))).
Proof.
  unfold pretty, pretty_N.
  destruct (decide (x = 0)%N) as [->|Hx]; [done|].
  rewrite pretty_N_go_step, pretty_N_go_app by lia.
  rewrite list_ascii_of_string_app, rev_app_distr. simpl. f_equal.
  destruct (decide (x < 10)%N) as [Hlt|Hge].
  - by rewrite N.div_small.
  - rewrite decide_False; [done|]. intros Hz. apply N.div_small_iff in Hz; lia.
Qed.

Lemma rev_digits_thousands (x : N) :
  (1000 ≤ x)%N →
  ∃ d l,
    rev (String.list_ascii_of_string (pretty (x `div` 1000)%N)) = d :: l ∧
    rev (String.list_ascii_of_string (pretty x))
    = pretty_N_char (x `mod` 10) :: pretty_N_char ((x `div` 10) `mod` 10)
      :: pretty_N_char ((x `div` 100) `mod` 10) :: d :: l.
Proof.
  intros Hx.
  assert ((x `div` 10) `div` 10 = x `div` 100)%N as H100
    by (by rewrite N.Div0.div_div).
  assert ((x `div` 100) `div` 10 = x `div` 1000)%N as H1000
    by (by rewrite N.Div0.div_div).
  assert (10 ≤ x `div` 100)%N by (apply N.div_le_lower_bound; lia).
  assert (10 ≤ x `div` 10)%N by (apply N.div_le_lower_bound; lia).
  eexists _, _. split; [apply rev_digits|].
  rewrite (rev_digits x), decide_False by lia.
  rewrite (rev_digits (x `div` 10)), decide_False by lia.
  rewrite H100, (rev_digits (x `div` 100)), decide_False by lia.
  rewrite H1000. do 3 f_equal. apply rev_digits.
Qed.

Lemma group_thousands_short (l : list ascii) :
  length l ≤ 3 → group_thousands l = l.
Proof. destruct l as [|a [|b [|c [|d l]]]]; simpl; [done..|lia]. Qed.

Lemma group_thousands_long (a b c d : ascii) (l : list ascii) :
  group_thousands (a :: b :: c :: d :: l)
  = a :: b :: c :: ","%char :: group_thousands (d :: l).
Proof. done. Qed.

Lemma digits_mod_1000 (n : nat) :
  (n `mod` 1000) `mod` 10 = n `mod` 10 ∧
  ((n `mod` 1000) / 10) `mod` 10 = (n / 10) `mod` 10 ∧
  ((n `mod` 1000) / 100) `mod` 10 = (n / 100) `mod` 10.
Proof.
  pose proof (Nat.div_mod_eq n 1000) as E.
  set (q := n / 1000) in *. set (r := n `mod` 1000) in *.
  clearbody q r. subst n. split_and!.
  - replace (1000 * q + r) with (r + (q * 100) * 10) by lia.
    by rewrite Nat.Div0.mod_add.
  - replace (1000 * q + r) with (r + (q * 100) * 10) by lia.
    rewrite Nat.div_add by done. replace (q * 100) with ((q * 10) * 10) by lia.
    by rewrite Nat.Div0.mod_add.
  - replace (1000 * q + r) with (r + (q * 10) * 100) by lia.
    rewrite Nat.div_add by done. by rewrite Nat.Div0.mod_add.
Qed.

(** X17.  [format_thousands] groups the digits in threes from the right: a
    number below 1000 is shown as it is, a larger one as its thousands,
    formatted in the same way, a comma and its last three digits. *)
Theorem format_thousands_groups (n : nat) :
  format_thousands n
  = if decide (n < 1000) then pretty n
    else format_thousands (n / 1000) +:+ ("," +:+ three_digits (n `mod` 1000)).
Proof.
  unfold format_thousands, pretty at 1 3, pretty_nat.
  destruct (decide (n < 1000)) as [Hlt|Hge].
  - rewrite group_thousands_short.
    { by rewrite rev_involutive, String.string_of_list_ascii_of_string. }
    rewrite rev_digits. destruct (decide _); [simpl; lia|].
    rewrite rev_digits. destruct (decide _); [simpl; lia|].
    rewrite rev_digits. destruct (decide _) as [|Hn]; [simpl; lia|].
    exfalso. apply Hn. apply N.Div0.div_lt_upper_bound, N.Div0.div_lt_upper_bound. lia.
  - destruct (rev_digits_thousands (N.of_nat n)) as (d & l & Hhigh & Hall); [lia|].
    rewrite Hall, group_thousands_long.
    rewrite Nat2N.inj_div. change (N.of_nat 1000) with 1000%N. rewrite Hhigh.
    cbn [rev]. rewrite <- !(assoc_L (++)). rewrite string_of_list_ascii_app.
    f_equal. cbn [app String.string_of_list_ascii].
    unfold three_digits, digit_char.
    destruct (digits_mod_1000 n) as (-> & -> & ->).
    rewrite !Nat2N.inj_mod, !Nat2N.inj_div. done.
Qed.

Lemma digit_not_comma (x : N) : pretty_N_char x ≠ ","%char.
Proof. unfold pretty_N_char. by repeat case_match. Qed.

Lemma digits_not_commas (x : N) :
  Forall (λ c, c ≠ ","%char) (rev (String.list_ascii_of_string (pretty x))).
Proof.
  induction (N.lt_wf_0 x) as [x _ IH]. rewrite rev_digits.
  constructor; [apply digit_not_comma|].
  destruct (decide (x < 10)%N); [done|]. apply IH, N.div_lt; lia.
Qed.

Lemma filter_group_thousands (l : list ascii) :
  Forall (λ c, c ≠ ","%char) l →
  filter (λ c, c ≠ ","%char) (group_thousands l) = l.
Proof.
  assert (∀ k : list ascii, Forall (λ c, c ≠ ","%char) k →
            filter (λ c, c ≠ ","%char) k = k) as Hid.
  { induction 1 as [|c k Hc _ IH]; [done|]. by rewrite filter_cons_True, IH. }
  intros Hl. remember (length l) as n eqn:Hn. revert l Hl Hn.
  induction (lt_wf n) as [n _ IH]. intros l Hl ->.
  destruct l as [|a [|b [|c [|d l]]]]; [by apply Hid..|].
  rewrite group_thousands_long.
  apply Forall_cons in Hl as [Ha Hl]. apply Forall_cons in Hl as [Hb Hl].
  apply Forall_cons in Hl as [Hc Hl].
  rewrite !filter_cons_True by done. rewrite filter_cons_False by (by intros []).
  do 3 f_equal. eapply IH; [|done|done]. simpl. lia.
Qed.

Lemma filter_rev {A} (P : A → Prop) `{!∀ x, Decision (P x)} (l : list A) :
  filter P (rev l) = rev (filter P l).
Proof.
  induction l as [|a l IH]; [done|]. simpl. rewrite filter_app, IH.
  destruct (decide (P a)).
  - by rewrite filter_cons_True, (filter_cons_True _ a l).
  - rewrite filter_cons_False, (filter_cons_False _ a l) by done.
    by rewrite filter_nil, app_nil_r.
Qed.

Lemma strip_commas_format_thousands (n : nat) :
  strip_commas (format_thousands n) = pretty n.
Proof.
  unfold strip_commas, format_thousands.
  rewrite String.list_ascii_of_string_of_list_ascii, filter_rev.
  rewrite filter_group_thousands by apply digits_not_commas.
  by rewrite rev_involutive, String.string_of_list_ascii_of_string.
Qed.

End formatting.

(** ** Columns set in place, columns of a sorted frame *)

Section frames_in_place.
Context `{Platform}.
Implicit Types (s : Series) (df table : DataFrame).

Lemma DataFrame_column_setitem df c s :
  DataFrame_column (DataFrame_setitem df c s) c = Some s.
Proof.
  induction df as [|[c' s'] df IH]; simpl.
  - by rewrite decide_True.
  - destruct (decide (c' = c)) as [->|Hne]; simpl.
    + by rewrite decide_True.
    + by rewrite decide_False.
Qed.

Lemma DataFrame_column_setitem_ne df c c' s :
  c ≠ c' →
  DataFrame_column (DataFrame_setitem df c s) c' = DataFrame_column df c'.
Proof.
  intros Hne. induction df as [|[c'' s'] df IH]; simpl.
  - by rewrite decide_False.
  - destruct (decide (c'' = c)) as [->|Hne']; simpl.
    + by rewrite !decide_False.
    + by rewrite IH.
Qed.

Lemma DataFrame_setitem_names df c s :
  is_Some (DataFrame_column df c) → (DataFrame_setitem df c s).*1 = df.*1.
Proof.
  induction df as [|[c' s'] df IH]; [by intros [? [=]]|].
  cbn [DataFrame_column DataFrame_setitem].
  destruct (decide (c' = c)) as [->|Hne]; [done|].
  intros Hc. rewrite !fmap_cons. f_equal. by apply IH.
Qed.

Lemma DataFrame_setitem_len df c s :
  DataFrame_wf df →
  is_Some (DataFrame_column df c) →
  Series_len s = DataFrame_len df →
  DataFrame_len (DataFrame_setitem df c s) = DataFrame_len df.
Proof.
  destruct df as [|[c' s'] df]; simpl; [by intros _ [? [=]]|].
  by destruct (decide (c' = c)).
Qed.

Lemma DataFrame_setitem_wf df c s :
  DataFrame_wf df →
  is_Some (DataFrame_column df c) →
  Series_len s = DataFrame_len df →
  DataFrame_wf (DataFrame_setitem df c s).
Proof.
  intros Hwf Hc Hs. unfold DataFrame_wf.
  rewrite (DataFrame_setitem_len df c s Hwf Hc Hs).
  unfold DataFrame_wf in Hwf. clear Hc.
  generalize dependent (DataFrame_len df). intros n Hwf Hs.
  induction Hwf as [|[c' s'] df Hs' Hwf IH]; simpl.
  - by repeat constructor.
  - destruct (decide (c' = c)) as [->|Hne]; constructor; done.
Qed.

(** [to_datetime] returns a [datetime64] column of the same length. *)
Lemma to_datetime_Datetime64 s s' :
  to_datetime s = inr s' →
  ∃ timestamps, s' = Datetime64 timestamps ∧ length timestamps = Series_len s.
Proof.
  unfold Series_len.
  destruct s as [l|l|l|l]; simpl; rewrite length_fmap.
  - intros [= <-]. by eexists.
  - destruct (float_dates l) as [r|] eqn:E; [|done]. intros [= <-].
    exists r. split; [done|]. by apply float_dates_length.
  - destruct (parse_dates l) as [r|] eqn:E; [|done]. intros [= <-].
    exists r. split; [done|]. by apply parse_dates_length.
  - intros [= <-]. by eexists.
Qed.

Lemma DataFrame_take_column idx df df' c :
  DataFrame_take idx df = inr df' →
  DataFrame_column df' c = Series_reindex idx <$> DataFrame_column df c.
Proof.
  revert df'. induction df as [|[c' s] df IH]; intros df'; simpl.
  - by intros [= <-].
  - unfold Series_take. destruct (decide _); [|done]. simpl.
    destruct (DataFrame_take idx df) as [e|df''] eqn:E; simpl; [done|].
    intros [= <-]. simpl. destruct (decide (c' = c)); [done|]. by apply IH.
Qed.

(** A frame that [sort_values] returns has the columns of the frame it
    sorts, the key among them. *)
Lemma DataFrame_sort_values_columns df key ascending df' :
  DataFrame_sort_values df key ascending = inr df' →
  is_Some (DataFrame_column df key) ∧
  ∀ c, is_Some (DataFrame_column df' c) ↔ is_Some (DataFrame_column df c).
Proof.
  unfold DataFrame_sort_values.
  destruct (DataFrame_column df key) as [keys|] eqn:Hkey; [|done].
  intros Htake. split; [done|]. intros c.
  rewrite (DataFrame_take_column _ _ _ c Htake). apply fmap_is_Some.
Qed.

Lemma DataFrame_column_head_is_Some df n c :
  is_Some (DataFrame_column (DataFrame_head df n) c) ↔ is_Some (DataFrame_column df c).
Proof. rewrite DataFrame_column_head. apply fmap_is_Some. Qed.

Lemma bar_columns table x y o t ls cs fig :
  bar table x y o t ls cs = inr fig → has_columns table [x; y].
Proof.
  unfold bar, px_column.
  destruct (DataFrame_column table x) eqn:Hx, (DataFrame_column table y) eqn:Hy;
    simpl; try done.
  intros _. repeat constructor; by rewrite ?Hx, ?Hy.
Qed.

Lemma line_columns table x y t ls shape fig :
  line table x y t ls shape = inr fig → has_columns table [x; y].
Proof.
  unfold line, px_column.
  destruct (DataFrame_column table x) eqn:Hx, (DataFrame_column table y) eqn:Hy;
    simpl; try done.
  intros _. repeat constructor; by rewrite ?Hx, ?Hy.
Qed.

Lemma wrap64_range z : (- 2 ^ 63 ≤ wrap64 z < 2 ^ 63)%Z.
Proof.
  unfold wrap64. pose proof (Z.mod_pos_bound (z + 2 ^ 63) (2 ^ 64)) as Hb. lia.
Qed.

Lemma wrap64_mod z : (wrap64 z `mod` 2 ^ 64 = z `mod` 2 ^ 64)%Z.
Proof.
  unfold wrap64. rewrite Zminus_mod_idemp_l. f_equal. lia.
Qed.

End frames_in_place.

(** ** Statements, one after the other *)

Section statements.
Context `{Platform}.
Implicit Types (w : world) (l : loc) (table : DataFrame).

Lemma bind_run {A B} (m : M A) (k : A → M B) w :
  (m ≫= k) w =
  match m w with
  | (inr a, w') => k a w'
  | (inl e, w') => (inl e, w')
  end.
Proof. reflexivity. Qed.

Lemma reads_only_ret {A} (a : A) : reads_only (mret a).
Proof. by intros w. Qed.

Lemma reads_only_bind {A B} (m : M A) (k : A → M B) :
  reads_only m → (∀ a, reads_only (k a)) → reads_only (m ≫= k).
Proof.
  intros Hm Hk w. rewrite bind_run. specialize (Hm w).
  destruct (m w) as [[e|a] w']; simpl in *; subst w'; [done|]. apply Hk.
Qed.

Lemma reads_only_lift {A} (r : exn + A) : reads_only (lift r).
Proof. by intros w. Qed.

Lemma reads_only_var name : reads_only (var name).
Proof. intros w. unfold var. by destruct (globals w !! name). Qed.

Lemma reads_only_deref l : reads_only (deref l).
Proof. intros w. unfold deref. by destruct (heap w !! l). Qed.

Lemma reads_only_getitem l c : reads_only (getitem l c).
Proof.
  unfold getitem. apply reads_only_bind; [apply reads_only_deref|].
  intros d. apply reads_only_lift.
Qed.

Lemma reads_only_create_summary_card : reads_only create_summary_card.
Proof.
  unfold create_summary_card.
  repeat first
    [ progress (intros; cbv zeta)
    | apply reads_only_bind
    | apply reads_only_var | apply reads_only_deref | apply reads_only_getitem
    | apply reads_only_lift | apply reads_only_ret ].
Qed.

Lemma bind_returns {A B} (P : B → Prop) (m : M A) (k : A → M B) w b w' :
  (∀ a w1, k a w1 = (inr b, w') → P b) → (m ≫= k) w = (inr b, w') → P b.
Proof.
  intros Hk. rewrite bind_run. destruct (m w) as [[e|a] w1]; [done|]. apply Hk.
Qed.

(** The summary card holds no chart. *)
Lemma create_summary_card_graphs w card w' :
  create_summary_card w = (inr card, w') → graphs card = [].
Proof.
  unfold create_summary_card.
  repeat (apply (bind_returns (λ c, graphs c = [])); intros ? ?; cbv zeta).
  unfold mret, M_ret, ret. by intros [= <- _].
Qed.

(** A bar chart that is returned was built from a table with both
    columns. *)
Lemma head_sort_bar_columns n key lab o t ls cs l w table fig :
  heap w !! l = Some table →
  ((top ← head l n; top ← sort_values top key true; px_bar top key lab o t ls cs) w).1
    = inr fig →
  has_columns table [key; lab].
Proof.
  intros Hl. rewrite (head_sort_bar_run _ _ _ _ _ _ _ _ _ table Hl). simpl.
  destruct (DataFrame_sort_values _ _ _) as [e|top] eqn:Hsort; simpl; [done|].
  intros Hbar%bar_columns.
  apply DataFrame_sort_values_columns in Hsort as [_ Hcols].
  eapply Forall_impl; [exact Hbar|]. intros c Hc. simpl in Hc.
  by apply (proj1 (DataFrame_column_head_is_Some table n c)), (proj1 (Hcols c)).
Qed.

(** A builder that returns was given a reference to an object. *)
Lemma head_sort_bar_deref n key lab o t ls cs l w fig :
  ((top ← head l n; top ← sort_values top key true; px_bar top key lab o t ls cs) w).1
    = inr fig →
  is_Some (heap w !! l).
Proof.
  rewrite bind_run. unfold head at 1. rewrite bind_run. unfold deref at 1.
  by destruct (heap w !! l).
Qed.

Lemma create_sentiment_line_chart_deref l w fig :
  (create_sentiment_line_chart l w).1 = inr fig → is_Some (heap w !! l).
Proof.
  unfold create_sentiment_line_chart. rewrite bind_run.
  unfold px_line at 1. rewrite bind_run. unfold deref at 1.
  by destruct (heap w !! l).
Qed.

Lemma var_run w name l : globals w !! name = Some l → var name w = (inr l, w).
Proof. intros Hl. unfold var. by rewrite Hl. Qed.

(** The layout builds the card and the three charts one after the other
    and fails where the first of them fails; each chart is the one its
    builder returns in the world the layout starts from. *)
Lemma layout_run w l1 l2 l3 wc us ds :
  globals w !! "word_count_df" = Some l1 → heap w !! l1 = Some wc →
  globals w !! "user_stats_df" = Some l2 → heap w !! l2 = Some us →
  globals w !! "daily_sentiment_df" = Some l3 → heap w !! l3 = Some ds →
  match (create_summary_card w).1 with
  | inl e => (layout w).1 = inl e
  | inr card =>
    match (create_word_count_chart l1 w).1 with
    | inl e => (layout w).1 = inl e
    | inr words =>
      match (create_user_engagement_chart l2 w).1 with
      | inl e => (layout w).1 = inl e
      | inr users =>
        match (create_sentiment_line_chart l3 w).1 with
        | inl e => (layout w).1 = inl e
        | inr sentiment =>
            ∃ page,
              (layout w).1 = inr page ∧
              graphs page = graphs card ++ [words; users; sentiment] ∧
              headings page =
                headings card ++
                [Lit "Text Analysis"; Lit "User Performance"; Lit "Time-Series Analysis"]
        end
      end
    end
  end.
Proof.
  intros Hg1 Hh1 Hg2 Hh2 Hg3 Hh3. unfold layout.
  rewrite bind_run. pose proof (reads_only_create_summary_card w) as Hw.
  destruct (create_summary_card w) as [[e|card] w0]; simpl in Hw; subst w0; [done|].
  cbn [fst].
  rewrite bind_run, (var_run _ _ _ Hg1), bind_run.
  destruct (harmless_create_word_count_chart l1 w) as [Hext1 _].
  destruct (create_word_count_chart l1 w) as [[e|words] w1]; [done|].
  cbn [fst snd] in *.
  assert (globals w1 !! "user_stats_df" = Some l2) as Hg2'
    by (by rewrite (proj1 Hext1)).
  assert (heap w1 !! l2 = Some us) as Hh2'
    by (eapply prefix_lookup_Some; [done|apply Hext1]).
  rewrite bind_run, (var_run _ _ _ Hg2'), bind_run.
  assert ((create_user_engagement_chart l2 w1).1 = (create_user_engagement_chart l2 w).1)
    as Husers by (by eapply head_sort_bar_table).
  destruct (harmless_create_user_engagement_chart l2 w1) as [Hext2 _].
  destruct (create_user_engagement_chart l2 w1) as [[e|users] w2];
    cbn [fst snd] in *; rewrite <- Husers; [done|].
  assert (globals w2 !! "daily_sentiment_df" = Some l3) as Hg3'
    by (by rewrite (proj1 Hext2), (proj1 Hext1)).
  assert (heap w2 !! l3 = Some ds) as Hh3'.
  { eapply prefix_lookup_Some; [|apply Hext2].
    eapply prefix_lookup_Some; [done|apply Hext1]. }
  rewrite bind_run, (var_run _ _ _ Hg3'), bind_run.
  rewrite (create_sentiment_line_chart_table l3 l3 w w2 ds Hh3 Hh3').
  destruct (create_sentiment_line_chart l3 w2) as [[e|sentiment] w3];
    cbn [fst snd] in *; [done|].
  eexists. split; [reflexivity|]. split.
  - cbn. by rewrite ?app_nil_r.
  - cbn. by rewrite ?app_nil_r.
Qed.

End statements.

(** ** More on the chart builders *)

Section chart_builders.
Context `{Platform}.
Implicit Types (w : world) (df : loc) (table : DataFrame).

(** The number of bars of a bar chart. *)
Lemma head_sort_bar_length n key lab o t ls cs df w table :
  heap w !! df = Some table →
  DataFrame_wf table →
  has_columns table [key; lab] →
  ∃ fig w',
    (top ← head df n; top ← sort_values top key true; px_bar top key lab o t ls cs) w
      = (inr fig, w') ∧
    length (marks fig) = n `min` DataFrame_len table.
Proof.
  intros Hdf Hwf Hcols.
  apply Forall_cons in Hcols as [[keys Hkey] Hcols].
  apply Forall_cons in Hcols as [[ys Hlab] _].
  destruct (head_sort_bar_marks n key lab o t ls cs df w table keys ys Hdf Hwf Hkey Hlab)
    as (fig & w' & Hrun & _ & _ & Hperm & _).
  exists fig, w'. split; [done|].
  rewrite Hperm, length_take, length_zip_with.
  fold (Series_len keys) (Series_len ys).
  rewrite (DataFrame_wf_column table key _ Hwf Hkey),
    (DataFrame_wf_column table lab _ Hwf Hlab). lia.
Qed.

(** The number of points of the line chart. *)
Lemma sentiment_chart_length df w table dates values :
  heap w !! df = Some table →
  DataFrame_wf table →
  DataFrame_column table "date" = Some dates →
  DataFrame_column table "avg_sentiment" = Some values →
  ∃ fig,
    create_sentiment_line_chart df w = (inr fig, w) ∧
    length (marks fig) = DataFrame_len table.
Proof.
  intros Hdf Hwf Hdates Hvalues.
  destruct (line_chart_marks df w table dates values Hdf Hdates Hvalues)
    as (fig & Hrun & _ & Hmarks).
  exists fig. split; [done|].
  rewrite Hmarks, length_zip_with. fold (Series_len dates) (Series_len values).
  rewrite (DataFrame_wf_column table "date" _ Hwf Hdates),
    (DataFrame_wf_column table "avg_sentiment" _ Hwf Hvalues). lia.
Qed.

(** The last element of a sorted list is the largest. *)
Lemma Sorted_le_last (zs : list Z) z :
  Sorted Z.le zs → z ∈ zs → ∃ top, last zs = Some top ∧ (z ≤ top)%Z.
Proof.
  intros Hsorted Hz.
  apply Sorted_StronglySorted in Hsorted; [|intros ???; lia].
  destruct (last zs) as [top|] eqn:Hlast.
  - exists top. split; [done|].
    apply last_Some in Hlast as [zs' ->].
    apply elem_of_app in Hz as [Hz|Hz%list_elem_of_singleton]; [|lia].
    apply (StronglySorted_app_1_elem_of Z.le zs' [top] z top Hsorted Hz).
    apply list_elem_of_here.
  - apply last_None in Hlast as ->. by apply elem_of_nil in Hz.
Qed.

(** The bar that is drawn last carries the largest key of the first [n]
    rows. *)
Lemma head_sort_bar_last n key lab o t ls cs df w table keys ys :
  heap w !! df = Some table →
  DataFrame_wf table →
  DataFrame_column table key = Some (Int64 keys) →
  DataFrame_column table lab = Some ys →
  0 < n →
  0 < DataFrame_len table →
  ∃ fig w' top y,
    (top ← head df n; top ← sort_values top key true; px_bar top key lab o t ls cs) w
      = (inr fig, w') ∧
    last (marks fig) = Some (CInt top, y) ∧
    (CInt top, y) ∈ take n (zip (CInt <$> keys) (Series_values ys)) ∧
    ∀ z, z ∈ take n keys → (z ≤ top)%Z.
Proof.
  intros Hdf Hwf Hkey Hlab Hn Hrows.
  destruct (head_sort_bar_marks n key lab o t ls cs df w table (Int64 keys) ys
              Hdf Hwf Hkey Hlab)
    as (fig & w' & Hrun & _ & _ & Hperm & Hsorted).
  destruct (Hsorted keys eq_refl) as (zs & Hzs & Hasc).
  pose proof (DataFrame_wf_column table key _ Hwf Hkey) as Hlen.
  pose proof (DataFrame_wf_column table lab _ Hwf Hlab) as Hlen'.
  unfold Series_len in Hlen, Hlen'. simpl in Hlen, Hperm.
  assert (∀ z, z ∈ take n keys → z ∈ zs) as Hzs'.
  { intros z Hz. apply (list_elem_of_fmap_2 CInt) in Hz.
    rewrite fmap_take in Hz.
    rewrite <- (fst_zip (take n (CInt <$> keys)) (take n (Series_values ys))) in Hz
      by (rewrite !length_take; lia).
    rewrite <- zip_with_take, <- Hperm, Hzs in Hz.
    apply list_elem_of_fmap in Hz as (z' & [= ->] & Hz). done. }
  destruct keys as [|k keys]; [simpl in Hlen; lia|].
  destruct (Sorted_le_last zs k Hasc) as (top & Hlast & _).
  { apply Hzs'. destruct n; [lia|]. apply list_elem_of_here. }
  assert (∃ m, last (marks fig) = Some m ∧ m.1 = CInt top) as ([x y] & Hm & Hx).
  { pose proof (f_equal last Hzs) as Hl. rewrite !fmap_last, Hlast in Hl.
    destruct (last (marks fig)) as [m|]; [|done]. exists m. split; [done|].
    by injection Hl. }
  simpl in Hx. subst x. exists fig, w', top, y. split_and!; [done..| |].
  - rewrite <- Hperm. eapply list_elem_of_lookup_2. rewrite <- last_lookup. exact Hm.
  - intros z Hz%Hzs'.
    destruct (Sorted_le_last zs z Hasc Hz) as (top' & Hlast' & Hle).
    rewrite Hlast in Hlast'. by injection Hlast' as <-.
Qed.

(** A bar chart builder on a table that lacks a column. *)
Lemma head_sort_bar_missing n key lab o t ls cs df w table :
  heap w !! df = Some table →
  (DataFrame_column table key = None →
   ((top ← head df n; top ← sort_values top key true; px_bar top key lab o t ls cs) w).1
     = inl (KeyError key)) ∧
  (DataFrame_wf table →
   is_Some (DataFrame_column table key) →
   DataFrame_column table lab = None →
   ∃ msg,
     ((top ← head df n; top ← sort_values top key true; px_bar top key lab o t ls cs) w).1
       = inl (ValueError msg)).
Proof.
  intros Hdf. rewrite (head_sort_bar_run _ _ _ _ _ _ _ _ _ table Hdf). simpl. split.
  - intros Hkey. unfold DataFrame_sort_values.
    by rewrite DataFrame_column_head, Hkey.
  - intros Hwf [keys Hkey] Hlab.
    rewrite (DataFrame_sort_values_wf _ key (Series_head n keys))
      by (by rewrite ?DataFrame_column_head, ?Hkey; try apply DataFrame_wf_head).
    simpl. unfold bar, px_column.
    rewrite !DataFrame_column_fmap, !DataFrame_column_head, Hkey, Hlab. simpl.
    by eexists.
Qed.

(** X10.  A bar chart builder on a table that lacks a column.  Without
    the column it sorts by, [sort_values] raises [KeyError] with the name
    of the column; with that column but without the column of the labels,
    [px.bar] raises a [ValueError]. *)
Theorem bar_charts_missing_column w df table :
  heap w !! df = Some table →
  (DataFrame_column table "total_count" = None →
   (create_word_count_chart df w).1 = inl (KeyError "total_count")) ∧
  (DataFrame_wf table →
   is_Some (DataFrame_column table "total_count") →
   DataFrame_column table "word" = None →
   ∃ msg, (create_word_count_chart df w).1 = inl (ValueError msg)) ∧
  (DataFrame_column table "total_engagement" = None →
   (create_user_engagement_chart df w).1 = inl (KeyError "total_engagement")) ∧
  (DataFrame_wf table →
   is_Some (DataFrame_column table "total_engagement") →
   DataFrame_column table "user" = None →
   ∃ msg, (create_user_engagement_chart df w).1 = inl (ValueError msg)).
Proof.
  intros Hdf.
  destruct (head_sort_bar_missing 20 "total_count" "word" "h"
              "Top 20 Most Frequent Words (MapReduce 1)"
              [("word", "Word"); ("total_count", "Total Count")] Teal_r
              df w table Hdf) as [Hkey Hlab].
  destruct (head_sort_bar_missing 10 "total_engagement" "user" "h"
              "Top 10 Most Engaged Users (MapReduce 3)"
              [("user", "User ID");
               ("total_engagement", "Total Engagement (Likes + Retweets)")] Plasma_r
              df w table Hdf) as [Hkey' Hlab'].
  by split_and!.
Qed.

(** X11.  The line chart builder returns a chart exactly when the table
    has the columns [date] and [avg_sentiment]; otherwise it fails with a
    [ValueError] of plotly.  In either case it leaves the world as it
    is. *)
Theorem line_chart_fails_on_a_missing_column_only w df table :
  heap w !! df = Some table →
  (create_sentiment_line_chart df w).2 = w ∧
  ((∃ fig, (create_sentiment_line_chart df w).1 = inr fig)
   ↔ has_columns table ["date"; "avg_sentiment"]) ∧
  (∀ e, (create_sentiment_line_chart df w).1 = inl e → ∃ msg, e = ValueError msg).
Proof.
  intros Hdf. rewrite (create_sentiment_line_chart_run _ _ table Hdf). simpl.
  split; [done|]. split.
  - split.
    + intros [fig Hfig].
      destruct (line table _ _ _ _ _) as [e|fig'] eqn:Hline; [done|].
      by apply line_columns in Hline.
    + intros Hcols. apply Forall_cons in Hcols as [[dates Hdates] Hcols].
      apply Forall_cons in Hcols as [[values Hvalues] _].
      unfold line, px_column. rewrite Hdates, Hvalues. simpl. by eexists.
  - intros e. unfold line, px_column.
    destruct (DataFrame_column table "date"), (DataFrame_column table "avg_sentiment");
      simpl; intros [= <-]; by eexists.
Qed.

(** X12.  The bar charts read the first rows only: two tables with the
    same first 20 (or 10) rows give the same word-count (or engagement)
    chart, or the same exception. *)
Theorem bar_charts_read_the_first_rows_only w df table w' df' table' :
  heap w !! df = Some table →
  heap w' !! df' = Some table' →
  (DataFrame_head table 20 = DataFrame_head table' 20 →
   (create_word_count_chart df w).1 = (create_word_count_chart df' w').1) ∧
  (DataFrame_head table 10 = DataFrame_head table' 10 →
   (create_user_engagement_chart df w).1 = (create_user_engagement_chart df' w').1).
Proof.
  intros Hdf Hdf'. unfold create_word_count_chart, create_user_engagement_chart.
  rewrite !(head_sort_bar_run _ _ _ _ _ _ _ _ w table Hdf),
    !(head_sort_bar_run _ _ _ _ _ _ _ _ w' table' Hdf').
  simpl. split; intros ->; by destruct (DataFrame_sort_values _ _ _).
Qed.

(** X13.  The bar that is drawn last, at the top of a horizontal bar
    chart, is one of the first 20 (or 10) rows of the table and carries the
    largest count (or engagement) among them. *)
Theorem top_bar_is_the_largest w df table words counts df' table' users engagement :
  heap w !! df = Some table →
  DataFrame_wf table →
  DataFrame_column table "word" = Some words →
  DataFrame_column table "total_count" = Some (Int64 counts) →
  0 < DataFrame_len table →
  heap w !! df' = Some table' →
  DataFrame_wf table' →
  DataFrame_column table' "user" = Some users →
  DataFrame_column table' "total_engagement" = Some (Int64 engagement) →
  0 < DataFrame_len table' →
  (∃ fig w' top word,
     create_word_count_chart df w = (inr fig, w') ∧
     last (marks fig) = Some (CInt top, word) ∧
     (CInt top, word) ∈ take 20 (zip (CInt <$> counts) (Series_values words)) ∧
     ∀ z, z ∈ take 20 counts → (z ≤ top)%Z) ∧
  (∃ fig w' top user,
     create_user_engagement_chart df' w = (inr fig, w') ∧
     last (marks fig) = Some (CInt top, user) ∧
     (CInt top, user) ∈ take 10 (zip (CInt <$> engagement) (Series_values users)) ∧
     ∀ z, z ∈ take 10 engagement → (z ≤ top)%Z).
Proof.
  intros Hdf Hwf Hwords Hcounts Hrows Hdf' Hwf' Husers Heng Hrows'. split.
  - apply (head_sort_bar_last 20 "total_count" "word" "h"
             "Top 20 Most Frequent Words (MapReduce 1)"
             [("word", "Word"); ("total_count", "Total Count")] Teal_r
             df w table counts words); [done..|lia|done].
  - apply (head_sort_bar_last 10 "total_engagement" "user" "h"
             "Top 10 Most Engaged Users (MapReduce 3)"
             [("user", "User ID");
              ("total_engagement", "Total Engagement (Likes + Retweets)")] Plasma_r
             df' w table' engagement users); [done..|lia|done].
Qed.

(** The keys of the bars are the keys of the first [n] rows, sorted. *)
Lemma head_sort_bar_keys n key lab o t ls cs df w table keys ys :
  heap w !! df = Some table →
  DataFrame_wf table →
  DataFrame_column table key = Some (Int64 keys) →
  DataFrame_column table lab = Some ys →
  ∃ fig w' xs,
    (top ← head df n; top ← sort_values top key true; px_bar top key lab o t ls cs) w
      = (inr fig, w') ∧
    (marks fig).*1 = CInt <$> xs ∧
    Sorted Z.le xs ∧
    xs ≡ₚ take n keys.
Proof.
  intros Hdf Hwf Hkey Hlab.
  destruct (head_sort_bar_marks n key lab o t ls cs df w table (Int64 keys) ys
              Hdf Hwf Hkey Hlab)
    as (fig & w' & Hrun & _ & _ & Hperm & Hsorted).
  destruct (Hsorted keys eq_refl) as (xs & Hxs & Hasc).
  exists fig, w', xs. split_and!; [done..|].
  pose proof (DataFrame_wf_column table key _ Hwf Hkey) as Hlen.
  pose proof (DataFrame_wf_column table lab _ Hwf Hlab) as Hlen'.
  unfold Series_len in Hlen, Hlen'. simpl in Hlen, Hperm.
  apply (fmap_Permutation fst) in Hperm. rewrite Hxs in Hperm.
  rewrite zip_with_take, fst_zip, <- fmap_take in Hperm
    by (rewrite !length_take; lia).
  apply Permutation_map_inv in Hperm as (xs' & Hxs' & Hperm).
  assert (Inj (=) (=) CInt) by (by intros z z' [=]).
  change (map CInt xs') with (CInt <$> xs') in Hxs'.
  by apply (inj (fmap CInt)) in Hxs' as ->.
Qed.

(** X23.  Whatever the number of rows of the table, the counts (or the
    engagements) of the bars are those of the first 20 (or 10) rows in
    ascending order. *)
Theorem bar_charts_are_ascending w df table words counts df' table' users engagement :
  heap w !! df = Some table →
  DataFrame_wf table →
  DataFrame_column table "word" = Some words →
  DataFrame_column table "total_count" = Some (Int64 counts) →
  heap w !! df' = Some table' →
  DataFrame_wf table' →
  DataFrame_column table' "user" = Some users →
  DataFrame_column table' "total_engagement" = Some (Int64 engagement) →
  (∃ fig w' xs,
     create_word_count_chart df w = (inr fig, w') ∧
     (marks fig).*1 = CInt <$> xs ∧ Sorted Z.le xs ∧ xs ≡ₚ take 20 counts) ∧
  (∃ fig w' xs,
     create_user_engagement_chart df' w = (inr fig, w') ∧
     (marks fig).*1 = CInt <$> xs ∧ Sorted Z.le xs ∧ xs ≡ₚ take 10 engagement).
Proof.
  intros Hdf Hwf Hwords Hcounts Hdf' Hwf' Husers Heng. split.
  - by apply (head_sort_bar_keys 20 "total_count" "word" "h"
                "Top 20 Most Frequent Words (MapReduce 1)"
                [("word", "Word"); ("total_count", "Total Count")] Teal_r
                df w table counts words).
  - by apply (head_sort_bar_keys 10 "total_engagement" "user" "h"
                "Top 10 Most Engaged Users (MapReduce 3)"
                [("user", "User ID");
                 ("total_engagement", "Total Engagement (Likes + Retweets)")] Plasma_r
                df' w table' engagement users).
Qed.

End chart_builders.

(** ** More on the summary card *)

Section summary_card_errors.
Context `{Platform}.
Implicit Types (w : world) (table : DataFrame).


(** X16.  For an [int64] column of likes the card is always returned, and
    the sum it averages is the sum of the column reduced to the [int64]
    range: numpy wraps around and reports no overflow. *)
Theorem summary_card_int64_sum w tweets users likes :
  frame_of w "cleaned_tweets_df" = Some tweets →
  frame_of w "user_stats_df" = Some users →
  DataFrame_column users "total_likes" = Some (Int64 likes) →
  ∃ card sum,
    create_summary_card w = (inr card, w) ∧
    (- 2 ^ 63 ≤ sum < 2 ^ 63)%Z ∧
    (sum `mod` 2 ^ 64 = foldr Z.add 0 likes `mod` 2 ^ 64)%Z ∧
    headings card =
      [Lit (format_thousands (DataFrame_len tweets));
       Lit (format_thousands (DataFrame_len users));
       FloatStr (np_round (f64_div (f64_of_int sum)
                                   (f64_of_int (Z.of_nat (DataFrame_len tweets)))) 2)].
Proof.
  intros Htweets Husers Hcol.
  pose proof (create_summary_card_run w tweets users Htweets Husers) as Hrun.
  unfold DataFrame_getitem in Hrun. rewrite Hcol in Hrun. simpl in Hrun.
  destruct Hrun as (card & Hcard & Hshown).
  exists card, (wrap64 (foldr Z.add 0%Z likes)).
  split_and!; [done|apply wrap64_range..|apply wrap64_mod|done].
Qed.

(** The card is returned only when its two names are bound to tables. *)
Lemma create_summary_card_frames w card w' :
  create_summary_card w = (inr card, w') →
  ∃ tweets users,
    frame_of w "cleaned_tweets_df" = Some tweets ∧
    frame_of w "user_stats_df" = Some users.
Proof.
  unfold create_summary_card.
  rewrite bind_run. unfold var at 1.
  destruct (globals w !! "cleaned_tweets_df") as [l1|] eqn:Hg1; [|done].
  rewrite bind_run. unfold deref at 1.
  destruct (heap w !! l1) as [tweets|] eqn:Hh1; [|done].
  rewrite bind_run. unfold var at 1.
  destruct (globals w !! "user_stats_df") as [l2|] eqn:Hg2; [|done].
  rewrite bind_run. unfold deref at 1.
  destruct (heap w !! l2) as [users|] eqn:Hh2; [|done].
  intros _. exists tweets, users. split; apply frame_of_Some; by eexists.
Qed.

(** X18.  The two counts of a summary card read back: without the
    separators, its first two headings are the decimal numerals of the
    numbers of rows of the cleaned tweets and of the user statistics. *)
Theorem summary_card_counts_read_back w card w' :
  create_summary_card w = (inr card, w') →
  ∃ tweets users shown_tweets shown_users shown_average,
    frame_of w "cleaned_tweets_df" = Some tweets ∧
    frame_of w "user_stats_df" = Some users ∧
    headings card = [Lit shown_tweets; Lit shown_users; shown_average] ∧
    strip_commas shown_tweets = pretty (DataFrame_len tweets) ∧
    strip_commas shown_users = pretty (DataFrame_len users).
Proof.
  intros Hcard.
  destruct (create_summary_card_frames w card w' Hcard)
    as (tweets & users & Htweets & Husers).
  pose proof (create_summary_card_run w tweets users Htweets Husers) as Hrun.
  rewrite Hcard in Hrun.
  destruct (DataFrame_getitem users "total_likes") as [e|total_likes]; [done|].
  destruct (Series_sum total_likes) as [e|sum]; [done|].
  destruct (truediv sum _) as [e|quotient]; [done|].
  destruct (round quotient 2) as [e|avg_likes]; [done|].
  destruct Hrun as (card' & [= <- _] & Hshown).
  eexists tweets, users, _, _, _. split_and!; [done..| |];
    apply strip_commas_format_thousands.
Qed.

End summary_card_errors.

(** ** The page *)

Section page.
Context `{Platform}.
Implicit Types (w : world) (table : DataFrame).

(** X19.  When the card and the three charts can be built, the layout is
    returned.  The page holds exactly the three charts, in the order word
    count, user engagement, daily sentiment, each as its builder returns it
    in the world the layout starts from; its headings are those of the
    card followed by those of the three sections. *)
Theorem layout_page w l1 l2 l3 card words users sentiment :
  globals w !! "word_count_df" = Some l1 →
  globals w !! "user_stats_df" = Some l2 →
  globals w !! "daily_sentiment_df" = Some l3 →
  (create_summary_card w).1 = inr card →
  (create_word_count_chart l1 w).1 = inr words →
  (create_user_engagement_chart l2 w).1 = inr users →
  (create_sentiment_line_chart l3 w).1 = inr sentiment →
  ∃ page,
    (layout w).1 = inr page ∧
    graphs page = [words; users; sentiment] ∧
    headings page =
      headings card ++
      [Lit "Text Analysis"; Lit "User Performance"; Lit "Time-Series Analysis"].
Proof.
  intros Hg1 Hg2 Hg3 Hcard Hwords Husers Hsentiment.
  destruct (head_sort_bar_deref _ _ _ _ _ _ _ _ _ _ Hwords) as [wc Hh1].
  destruct (head_sort_bar_deref _ _ _ _ _ _ _ _ _ _ Husers) as [us Hh2].
  destruct (create_sentiment_line_chart_deref _ _ _ Hsentiment) as [ds Hh3].
  pose proof (layout_run w l1 l2 l3 wc us ds Hg1 Hh1 Hg2 Hh2 Hg3 Hh3) as Hrun.
  rewrite Hcard, Hwords, Husers, Hsentiment in Hrun.
  destruct Hrun as (page & Hpage & Hgraphs & Hheadings).
  exists page. split_and!; [done| |done].
  rewrite Hgraphs. destruct (create_summary_card w) as [r w0] eqn:Hrun.
  simpl in Hcard. subst r. by rewrite (create_summary_card_graphs w card w0).
Qed.

(** X20.  The layout fails with the exception of the first builder that
    fails, in the order of the source: summary card, word-count chart,
    engagement chart, sentiment chart. *)
Theorem layout_fails_with_the_first_failure w l1 l2 l3 wc us ds e :
  globals w !! "word_count_df" = Some l1 → heap w !! l1 = Some wc →
  globals w !! "user_stats_df" = Some l2 → heap w !! l2 = Some us →
  globals w !! "daily_sentiment_df" = Some l3 → heap w !! l3 = Some ds →
  ((create_summary_card w).1 = inl e → (layout w).1 = inl e) ∧
  (∀ card,
     (create_summary_card w).1 = inr card →
     (create_word_count_chart l1 w).1 = inl e →
     (layout w).1 = inl e) ∧
  (∀ card words,
     (create_summary_card w).1 = inr card →
     (create_word_count_chart l1 w).1 = inr words →
     (create_user_engagement_chart l2 w).1 = inl e →
     (layout w).1 = inl e) ∧
  (∀ card words users,
     (create_summary_card w).1 = inr card →
     (create_word_count_chart l1 w).1 = inr words →
     (create_user_engagement_chart l2 w).1 = inr users →
     (create_sentiment_line_chart l3 w).1 = inl e →
     (layout w).1 = inl e).
Proof.
  intros Hg1 Hh1 Hg2 Hh2 Hg3 Hh3.
  pose proof (layout_run w l1 l2 l3 wc us ds Hg1 Hh1 Hg2 Hh2 Hg3 Hh3) as Hrun.
  split_and!.
  - intros Hcard. by rewrite Hcard in Hrun.
  - intros card Hcard Hwords. by rewrite Hcard, Hwords in Hrun.
  - intros card words Hcard Hwords Husers. by rewrite Hcard, Hwords, Husers in Hrun.
  - intros card words users Hcard Hwords Husers Hsentiment.
    by rewrite Hcard, Hwords, Husers, Hsentiment in Hrun.
Qed.

End page.

(** ** What the layout allocates, what it depends on *)

Section allocation.
Context `{Platform}.
Implicit Types (w : world) (l : loc) (table : DataFrame).









(** X22.  The layout depends on the four tables behind the names it uses
    and on nothing else: in two worlds that hold the same four tables
    behind these names, wherever on the heap, it returns the same page or
    raises the same exception. *)
Theorem layout_depends_on_the_four_tables w w' :
  (∀ name, name ∈ used_names →
     ∃ table, frame_of w name = Some table ∧ frame_of w' name = Some table) →
  (layout w).1 = (layout w').1.
Proof. intros Hagree. by destruct (frames_only_layout w w' Hagree). Qed.

End allocation.

(** ** The ways the script ends *)

Section endings.
Context `{Platform}.
Implicit Types (w : world) (fs : filesystem).

(** The loading block on four tables whose dates parse. *)
Lemma loaded_Csv fs wc ds us ct date parsed :
  fs "mapreduce_word_count.csv" = Some (Csv wc) →
  fs "mapreduce_daily_sentiment.csv" = Some (Csv ds) →
  fs "mapreduce_user_stats.csv" = Some (Csv us) →
  fs "tweets_cleaned.csv" = Some (Csv ct) →
  DataFrame_column ds "date" = Some date →
  to_datetime date = inr parsed →
  loaded fs = inr (wc, DataFrame_setitem ds "date" parsed, us, ct).
Proof.
  intros Hwc Hds Hus Hct Hdate Hparsed.
  unfold loaded, read, DataFrame_getitem, mbind, result_bind.
  by rewrite Hwc, Hds, Hus, Hct, Hdate, Hparsed.
Qed.

(** The loading block ends normally on nothing else. *)
Lemma loaded_inr fs wc ds' us ct :
  loaded fs = inr (wc, ds', us, ct) →
  ∃ ds date parsed,
    fs "mapreduce_word_count.csv" = Some (Csv wc) ∧
    fs "mapreduce_daily_sentiment.csv" = Some (Csv ds) ∧
    fs "mapreduce_user_stats.csv" = Some (Csv us) ∧
    fs "tweets_cleaned.csv" = Some (Csv ct) ∧
    DataFrame_column ds "date" = Some date ∧
    to_datetime date = inr parsed ∧
    ds' = DataFrame_setitem ds "date" parsed.
Proof.
  unfold loaded, read, DataFrame_getitem, mbind, result_bind.
  destruct (fs "mapreduce_word_count.csv") as [[wc0| |]|]; try done.
  destruct (fs "mapreduce_daily_sentiment.csv") as [[ds| |]|]; try done.
  destruct (fs "mapreduce_user_stats.csv") as [[us0| |]|]; try done.
  destruct (fs "tweets_cleaned.csv") as [[ct0| |]|]; try done.
  destruct (DataFrame_column ds "date") as [date|] eqn:Hdate; [|done].
  destruct (to_datetime date) as [e|parsed] eqn:Hparsed; [done|].
  intros [= <- <- <- <-]. by exists ds, date, parsed.
Qed.

(** The loading block fails on the first file it cannot read. *)
Lemma loaded_first_failure fs f e :
  f ∈ required_files →
  read fs f = inl e →
  (∀ g, g ∈ read_before f required_files → ∃ table, fs g = Some (Csv table)) →
  loaded fs = inl e.
Proof.
  intros Hf Hfail Hbefore.
  unfold loaded, mbind, result_bind. unfold required_files in *.
  repeat (apply elem_of_cons in Hf as [->|Hf]); try (by apply elem_of_nil in Hf).
  - by rewrite Hfail.
  - destruct (Hbefore "mapreduce_word_count.csv") as [wc Hwc]; [repeat constructor|].
    unfold read at 1. by rewrite Hwc, Hfail.
  - destruct (Hbefore "mapreduce_word_count.csv") as [wc Hwc]; [repeat constructor|].
    destruct (Hbefore "mapreduce_daily_sentiment.csv") as [ds Hds]; [repeat constructor|].
    unfold read at 1. rewrite Hwc. unfold read at 1. by rewrite Hds, Hfail.
  - destruct (Hbefore "mapreduce_word_count.csv") as [wc Hwc]; [repeat constructor|].
    destruct (Hbefore "mapreduce_daily_sentiment.csv") as [ds Hds]; [repeat constructor|].
    destruct (Hbefore "mapreduce_user_stats.csv") as [us Hus]; [repeat constructor|].
    unfold read at 1. rewrite Hwc. unfold read at 1. rewrite Hds.
    unfold read at 1. by rewrite Hus, Hfail.
Qed.

(** When the loading block returns from the empty world, the names and
    the heap are these. *)
Lemma load_data_returns fs w :
  load_data fs initial = (inr (), w) →
  ∃ wc ds us ct,
    loaded fs = inr (wc, ds, us, ct) ∧
    globals w = names5 ∧
    heap w = [wc; ds; us; ct; ct; DataFrame_head ct 1000] ∧
    stdout w = [].
Proof.
  intros Hrun. destruct (load_data_run fs []) as (w' & Hrun' & Hout & Hw).
  unfold initial in Hrun. rewrite Hrun in Hrun'.
  destruct (loaded fs) as [e|[[[wc ds] us] ct]]; [done|].
  injection Hrun' as <-. destruct Hw as [Hg Hh]. by exists wc, ds, us, ct.
Qed.

(** How the script ends, from the files: by the loading block when it
    fails, else by the layout on the four tables. *)
Lemma run_outcome fs :
  run fs =
  match loaded fs with
  | inl (FileNotFoundError f) => Exited (missing_file_report f)
  | inl e => Crashed ["Loading data from R analysis outputs..."] e
  | inr (wc, ds, us, ct) =>
      match (layout (World names4 [wc; ds; us; ct] [])).1 with
      | inl e => Crashed ["Loading data from R analysis outputs..."] e
      | inr page => Serving startup_report page
      end
  end.
Proof.
  destruct (loaded fs) as [e|[[[wc ds] us] ct]] eqn:Hloaded.
  - unfold run, script.
    destruct (load_data_run fs ["Loading data from R analysis outputs..."])
      as (w & Hrun & Hout & _).
    rewrite (outcome_program _ _ _ Hrun Hout) by apply load_result_not_SystemExit.
    by rewrite Hloaded.
  - by rewrite (run_loaded fs wc ds us ct (World names4 [wc; ds; us; ct] []) Hloaded).
Qed.

(** The four tables in the world of [run_outcome]. *)
Lemma layout_loaded wc ds us ct :
  let w := World names4 [wc; ds; us; ct] [] in
  match (create_summary_card w).1 with
  | inl e => (layout w).1 = inl e
  | inr card =>
    match (create_word_count_chart 0 w).1 with
    | inl e => (layout w).1 = inl e
    | inr words =>
      match (create_user_engagement_chart 2 w).1 with
      | inl e => (layout w).1 = inl e
      | inr users =>
        match (create_sentiment_line_chart 1 w).1 with
        | inl e => (layout w).1 = inl e
        | inr sentiment =>
            ∃ page,
              (layout w).1 = inr page ∧
              graphs page = graphs card ++ [words; users; sentiment] ∧
              headings page =
                headings card ++
                [Lit "Text Analysis"; Lit "User Performance"; Lit "Time-Series Analysis"]
        end
      end
    end
  end.
Proof. intros w. by apply (layout_run w 0 2 1 wc us ds). Qed.

(** X1.  On four readable files whose dates parse the loading block ends
    normally and prints nothing.  It leaves the word counts, the user
    statistics and the cleaned tweets behind their names as they are in
    the files, the daily sentiment with its [date] column parsed, and the
    first 1000 cleaned tweets behind [emotions_sample_df]. *)
Theorem load_data_binds_the_tables fs wc ds us ct date parsed :
  fs "mapreduce_word_count.csv" = Some (Csv wc) →
  fs "mapreduce_daily_sentiment.csv" = Some (Csv ds) →
  fs "mapreduce_user_stats.csv" = Some (Csv us) →
  fs "tweets_cleaned.csv" = Some (Csv ct) →
  DataFrame_column ds "date" = Some date →
  to_datetime date = inr parsed →
  ∃ w,
    load_data fs initial = (inr (), w) ∧
    stdout w = [] ∧
    frame_of w "word_count_df" = Some wc ∧
    frame_of w "daily_sentiment_df" = Some (DataFrame_setitem ds "date" parsed) ∧
    frame_of w "user_stats_df" = Some us ∧
    frame_of w "cleaned_tweets_df" = Some ct ∧
    frame_of w "emotions_sample_df" = Some (DataFrame_head ct 1000).
Proof.
  intros Hwc Hds Hus Hct Hdate Hparsed.
  destruct (load_data_run fs []) as (w & Hrun & Hout & Hw).
  rewrite (loaded_Csv fs wc ds us ct date parsed) in Hrun, Hw by done.
  destruct Hw as [Hg Hh]. exists w. split; [done|]. split; [done|].
  unfold frame_of. rewrite Hg, Hh. by split_and!.
Qed.

(** X2.  The five names that the loading block binds refer to five
    different objects: no two of them are aliases, also not
    [cleaned_tweets_df] and [emotions_sample_df], which are read from the
    same file. *)
Theorem loaded_names_are_distinct_objects fs w name name' :
  load_data fs initial = (inr (), w) →
  name ∈ loaded_names →
  name' ∈ loaded_names →
  name ≠ name' →
  ∃ l l',
    globals w !! name = Some l ∧ globals w !! name' = Some l' ∧
    l ≠ l' ∧ is_Some (heap w !! l) ∧ is_Some (heap w !! l').
Proof.
  intros (wc & ds & us & ct & _ & Hg & Hh & _)%load_data_returns Hname Hname' Hne.
  rewrite Hg, Hh. unfold loaded_names in *.
  repeat (apply elem_of_cons in Hname as [->|Hname]);
    try (by apply elem_of_nil in Hname);
    repeat (apply elem_of_cons in Hname' as [->|Hname']);
    try (by apply elem_of_nil in Hname'); try done;
    eexists _, _; (split; [reflexivity|]); (split; [reflexivity|]);
    (split; [done|]); split; by eexists.
Qed.

(** X3.  The date parse changes the daily-sentiment table in its place,
    and nothing else of it: the columns keep their names and their order,
    [date] becomes a [datetime64] column, every other column is as in the
    file, and the table keeps its rows. *)
Theorem dates_are_parsed_in_place fs raw w :
  fs "mapreduce_daily_sentiment.csv" = Some (Csv raw) →
  load_data fs initial = (inr (), w) →
  ∃ ds timestamps,
    frame_of w "daily_sentiment_df" = Some ds ∧
    ds.*1 = raw.*1 ∧
    DataFrame_column ds "date" = Some (Datetime64 timestamps) ∧
    (∀ c, c ≠ "date" → DataFrame_column ds c = DataFrame_column raw c) ∧
    (DataFrame_wf raw →
     DataFrame_wf ds ∧ DataFrame_len ds = DataFrame_len raw ∧
     length timestamps = DataFrame_len raw).
Proof.
  intros Hraw (wc & ds & us & ct & Hloaded & Hg & Hh & _)%load_data_returns.
  apply loaded_inr in Hloaded
    as (raw' & date & parsed & _ & Hraw' & _ & _ & Hdate & Hparsed & ->).
  rewrite Hraw in Hraw'. injection Hraw' as <-.
  apply to_datetime_Datetime64 in Hparsed as (timestamps & -> & Hlen).
  eexists _, timestamps. split_and!.
  - unfold frame_of. by rewrite Hg, Hh.
  - by apply DataFrame_setitem_names.
  - apply DataFrame_column_setitem.
  - intros c Hc. by apply DataFrame_column_setitem_ne.
  - intros Hwf.
    assert (Series_len (Datetime64 timestamps) = DataFrame_len raw) as Hlen'.
    { unfold Series_len at 1. simpl. rewrite length_fmap, Hlen.
      by apply (DataFrame_wf_column raw "date"). }
    split_and!.
    + by apply DataFrame_setitem_wf.
    + by apply DataFrame_setitem_len.
    + rewrite Hlen. by apply (DataFrame_wf_column raw "date").
Qed.

(** X4.  A required file that is there but is no CSV (it has no header
    line, or cannot be tokenized) is not handled: the files read before it
    being readable, the script ends with the exception of the parser in a
    traceback, having printed its first line only. *)
Theorem unreadable_file_is_not_handled fs f :
  f ∈ required_files →
  (∀ g, g ∈ read_before f required_files → ∃ table, fs g = Some (Csv table)) →
  (fs f = Some EmptyFile →
   run fs = Crashed ["Loading data from R analysis outputs..."] EmptyDataError) ∧
  (fs f = Some Garbled →
   run fs = Crashed ["Loading data from R analysis outputs..."] ParserError).
Proof.
  intros Hf Hbefore. split; intros Hfile; rewrite run_outcome.
  - rewrite (loaded_first_failure fs f EmptyDataError); [done..| |done].
    unfold read. by rewrite Hfile.
  - rewrite (loaded_first_failure fs f ParserError); [done..| |done].
    unfold read. by rewrite Hfile.
Qed.

(** X5.  The errors of the date parse are not handled either: a
    daily-sentiment file without a [date] column ends the script with
    [KeyError], one whose dates do not parse with the [ValueError] of
    [to_datetime]. *)
Theorem date_errors_are_not_handled fs wc ds us ct :
  fs "mapreduce_word_count.csv" = Some (Csv wc) →
  fs "mapreduce_daily_sentiment.csv" = Some (Csv ds) →
  fs "mapreduce_user_stats.csv" = Some (Csv us) →
  fs "tweets_cleaned.csv" = Some (Csv ct) →
  (DataFrame_column ds "date" = None →
   run fs = Crashed ["Loading data from R analysis outputs..."] (KeyError "date")) ∧
  (∀ date e,
     DataFrame_column ds "date" = Some date →
     to_datetime date = inl e →
     (∃ msg, e = ValueError msg) ∧
     run fs = Crashed ["Loading data from R analysis outputs..."] e).
Proof.
  intros Hwc Hds Hus Hct.
  assert (loaded fs =
          (date ← DataFrame_getitem ds "date"; date ← to_datetime date;
           mret (wc, DataFrame_setitem ds "date" date, us, ct))) as Hloaded.
  { unfold loaded, read, mbind, result_bind. by rewrite Hwc, Hds, Hus, Hct. }
  split.
  - intros Hdate. rewrite run_outcome, Hloaded.
    unfold DataFrame_getitem. by rewrite Hdate.
  - intros date e Hdate Hparse.
    destruct (to_datetime_error _ _ Hparse) as [msg ->].
    split; [by eexists|]. rewrite run_outcome, Hloaded.
    unfold DataFrame_getitem. rewrite Hdate. simpl. by rewrite Hparse.
Qed.

(** X6.  What the script has printed, by how it ends: the diagnostic of a
    missing required file when it exits; its first line only when it ends
    with a traceback, which is never that of a [FileNotFoundError]; its
    first line and the announcement of the server when the server starts,
    and only then. *)
Theorem printed_lines fs :
  match run fs with
  | Exited out => ∃ f, f ∈ required_files ∧ out = missing_file_report f
  | Crashed out e =>
      out = ["Loading data from R analysis outputs..."] ∧
      ∀ f, e ≠ FileNotFoundError f
  | Serving out _ => out = startup_report
  end.
Proof.
  rewrite run_outcome.
  destruct (loaded fs) as [e|[[[wc ds] us] ct]] eqn:Hloaded.
  - destruct e; try done.
    apply loaded_FileNotFoundError in Hloaded as [Hf _]. by eexists.
  - destruct (harmless_layout (World names4 [wc; ds; us; ct] [])) as [_ Hbenign].
    destruct (layout _).1 as [e|page]; [|done].
    split; [done|]. intros f ->. done.
Qed.

(** X9.  The script reads the four required files and no other: on two
    working directories that agree on these four files it ends in the same
    way. *)
Theorem only_the_four_files_matter fs fs' :
  (∀ f, f ∈ required_files → fs f = fs' f) →
  run fs = run fs'.
Proof.
  intros Hsame. rewrite !run_outcome.
  assert (loaded fs = loaded fs') as ->; [|done].
  unfold loaded, read.
  rewrite !(Hsame "mapreduce_word_count.csv"), !(Hsame "mapreduce_daily_sentiment.csv"),
    !(Hsame "mapreduce_user_stats.csv"), !(Hsame "tweets_cleaned.csv");
    first [done | repeat constructor].
Qed.

(** X7.  On well-formed input the server starts: four readable files
    whose tables have the columns the builders use, dates that parse and
    likes that are numbers.  The page then shows three charts: one of
    min(20, rows) bars, one of min(10, rows) bars and one of a point for
    each day. *)
Theorem server_starts_on_well_formed_files fs wc ds us ct date parsed likes :
  fs "mapreduce_word_count.csv" = Some (Csv wc) →
  fs "mapreduce_daily_sentiment.csv" = Some (Csv ds) →
  fs "mapreduce_user_stats.csv" = Some (Csv us) →
  fs "tweets_cleaned.csv" = Some (Csv ct) →
  DataFrame_wf wc → DataFrame_wf ds → DataFrame_wf us →
  has_columns wc ["total_count"; "word"] →
  DataFrame_column ds "date" = Some date →
  to_datetime date = inr parsed →
  is_Some (DataFrame_column ds "avg_sentiment") →
  has_columns us ["total_engagement"; "user"] →
  DataFrame_column us "total_likes" = Some likes →
  numeric likes →
  ∃ page,
    run fs = Serving startup_report page ∧
    (length ∘ marks) <$> graphs page =
      [20 `min` DataFrame_len wc; 10 `min` DataFrame_len us; DataFrame_len ds].
Proof.
  intros Hwc Hds Hus Hct Hwfwc Hwfds Hwfus Hcolswc Hdate Hparsed [values Hvalues]
    Hcolsus Hlikes Hnumeric.
  rewrite run_outcome, (loaded_Csv fs wc ds us ct date parsed) by done.
  set (ds' := DataFrame_setitem ds "date" parsed).
  set (w := World names4 [wc; ds'; us; ct] []).
  pose proof (layout_loaded wc ds' us ct) as Hlayout. cbv zeta in Hlayout. fold w in Hlayout.
  (* the card *)
  pose proof (create_summary_card_run w ct us eq_refl eq_refl) as Hcard.
  unfold DataFrame_getitem in Hcard. rewrite Hlikes in Hcard.
  assert (∃ card, create_summary_card w = (inr card, w)) as [card Hcard'].
  { destruct likes as [l|l|l|l]; try done; simpl in Hcard;
      destruct Hcard as (card & Hcard & _); by exists card. }
  rewrite Hcard' in Hlayout. cbn [fst] in Hlayout.
  (* the bar charts *)
  destruct (head_sort_bar_length 20 "total_count" "word" "h"
              "Top 20 Most Frequent Words (MapReduce 1)"
              [("word", "Word"); ("total_count", "Total Count")] Teal_r
              0 w wc eq_refl Hwfwc Hcolswc) as (words & w1 & Hwords & Hlenw).
  fold (create_word_count_chart 0) in Hwords.
  rewrite Hwords in Hlayout. cbn [fst] in Hlayout.
  destruct (head_sort_bar_length 10 "total_engagement" "user" "h"
              "Top 10 Most Engaged Users (MapReduce 3)"
              [("user", "User ID");
               ("total_engagement", "Total Engagement (Likes + Retweets)")] Plasma_r
              2 w us eq_refl Hwfus Hcolsus) as (users & w2 & Husers & Hlenu).
  fold (create_user_engagement_chart 2) in Husers.
  rewrite Husers in Hlayout. cbn [fst] in Hlayout.
  (* the line chart *)
  apply to_datetime_Datetime64 in Hparsed as (timestamps & -> & Hlen).
  assert (Series_len (Datetime64 timestamps) = DataFrame_len ds) as Hlen'.
  { unfold Series_len at 1. simpl. rewrite length_fmap, Hlen.
    by apply (DataFrame_wf_column ds "date"). }
  destruct (sentiment_chart_length 1 w ds' (Datetime64 timestamps) values)
    as (sentiment & Hsentiment & Hlens).
  { done. }
  { by apply DataFrame_setitem_wf. }
  { apply DataFrame_column_setitem. }
  { subst ds'. by rewrite DataFrame_column_setitem_ne. }
  rewrite Hsentiment in Hlayout. cbn [fst] in Hlayout.
  destruct Hlayout as (page & -> & Hgraphs & _). exists page. split; [done|].
  rewrite Hgraphs, (create_summary_card_graphs w card w Hcard'). simpl.
  rewrite Hlenw, Hlenu, Hlens. subst ds'. by rewrite DataFrame_setitem_len.
Qed.

(** X8.  The server starts on nothing less: when it starts, the four
    files are readable tables, each with the columns the builders use, and
    the dates parse. *)
Theorem server_starts_only_with_the_columns fs out page :
  run fs = Serving out page →
  ∃ wc ds us ct date parsed,
    fs "mapreduce_word_count.csv" = Some (Csv wc) ∧
    fs "mapreduce_daily_sentiment.csv" = Some (Csv ds) ∧
    fs "mapreduce_user_stats.csv" = Some (Csv us) ∧
    fs "tweets_cleaned.csv" = Some (Csv ct) ∧
    has_columns wc ["total_count"; "word"] ∧
    has_columns ds ["date"; "avg_sentiment"] ∧
    has_columns us ["total_likes"; "total_engagement"; "user"] ∧
    DataFrame_column ds "date" = Some date ∧
    to_datetime date = inr parsed.
Proof.
  rewrite run_outcome.
  destruct (loaded fs) as [e|[[[wc ds'] us] ct]] eqn:Hloaded; [by destruct e|].
  apply loaded_inr in Hloaded
    as (ds & date & parsed & Hwc & Hds & Hus & Hct & Hdate & Hparsed & ->).
  set (ds' := DataFrame_setitem ds "date" parsed).
  set (w := World names4 [wc; ds'; us; ct] []).
  pose proof (layout_loaded wc ds' us ct) as Hlayout. cbv zeta in Hlayout. fold w in Hlayout.
  pose proof (create_summary_card_run w ct us eq_refl eq_refl) as Hcard.
  destruct (create_summary_card w).1 as [e|card] eqn:Hcard';
    [by rewrite Hlayout|].
  destruct (create_word_count_chart 0 w).1 as [e|words] eqn:Hwords;
    [by rewrite Hlayout|].
  destruct (create_user_engagement_chart 2 w).1 as [e|users] eqn:Husers;
    [by rewrite Hlayout|].
  destruct (create_sentiment_line_chart 1 w).1 as [e|sentiment] eqn:Hsentiment;
    [by rewrite Hlayout|].
  intros _. exists wc, ds, us, ct, date, parsed. split_and!; try done.
  - by apply (head_sort_bar_columns _ _ _ _ _ _ _ 0 w wc words eq_refl) in Hwords.
  - rewrite (create_sentiment_line_chart_run 1 w ds' eq_refl) in Hsentiment.
    simpl in Hsentiment.
    destruct (line ds' _ _ _ _ _) as [e|fig] eqn:Hline; [done|].
    apply line_columns in Hline. apply Forall_cons in Hline as [_ Hline].
    apply Forall_cons in Hline as [Havg _].
    subst ds'. rewrite DataFrame_column_setitem_ne in Havg by done.
    repeat constructor; by rewrite ?Hdate.
  - apply (head_sort_bar_columns _ _ _ _ _ _ _ 2 w us users eq_refl) in Husers.
    constructor; [|done].
    unfold DataFrame_getitem in Hcard.
    destruct (DataFrame_column us "total_likes"); [done|].
    destruct (create_summary_card w) as [r w0]. simpl in Hcard'. by simplify_eq.
Qed.

(** X15.  The summary card is built first, so that its error is the one
    the script ends with, whatever the other tables hold: [KeyError] when
    the user statistics lack [total_likes], a [TypeError] when the column
    holds text. *)
Theorem summary_card_error_comes_first fs wc ds us ct date parsed :
  fs "mapreduce_word_count.csv" = Some (Csv wc) →
  fs "mapreduce_daily_sentiment.csv" = Some (Csv ds) →
  fs "mapreduce_user_stats.csv" = Some (Csv us) →
  fs "tweets_cleaned.csv" = Some (Csv ct) →
  DataFrame_column ds "date" = Some date →
  to_datetime date = inr parsed →
  (DataFrame_column us "total_likes" = None →
   run fs = Crashed ["Loading data from R analysis outputs..."] (KeyError "total_likes")) ∧
  (∀ s texts,
     DataFrame_column us "total_likes" = Some (Object (s :: texts)) →
     ∃ msg, run fs = Crashed ["Loading data from R analysis outputs..."] (TypeError msg)).
Proof.
  intros Hwc Hds Hus Hct Hdate Hparsed.
  rewrite run_outcome, (loaded_Csv fs wc ds us ct date parsed) by done.
  set (w := World names4 [wc; DataFrame_setitem ds "date" parsed; us; ct] []).
  pose proof (create_summary_card_run w ct us eq_refl eq_refl) as Hcard.
  unfold DataFrame_getitem in Hcard.
  assert (∀ e, create_summary_card w = (inl e, w) → (layout w).1 = inl e) as Hlayout.
  { intros e He. unfold layout. by rewrite bind_run, He. }
  split.
  - intros Hlikes. rewrite Hlikes in Hcard. by rewrite (Hlayout _ Hcard).
  - intros s texts Hlikes. rewrite Hlikes in Hcard. simpl in Hcard.
    rewrite (Hlayout _ Hcard). by eexists.
Qed.

(** X24.  The exit status of the script.  A missing required file, the
    files read before it being readable, ends the process with status 0:
    [exit()] is called without a code.  Status 0 comes from nothing else;
    status 1 is that of a traceback, after the first line of output; and
    the process has no status exactly when the server has started. *)
Theorem exit_status_of_the_script fs :
  (∀ f, f ∈ required_files →
        fs f = None →
        (∀ g, g ∈ read_before f required_files → ∃ table, fs g = Some (Csv table)) →
        exit_status (run fs) = Some 0%Z) ∧
  (exit_status (run fs) = Some 0%Z → ∃ f, f ∈ required_files ∧ fs f = None) ∧
  (exit_status (run fs) = Some 1%Z ↔
   ∃ e, run fs = Crashed ["Loading data from R analysis outputs..."] e) ∧
  (exit_status (run fs) = None ↔ ∃ page, run fs = Serving startup_report page).
Proof.
  rewrite run_outcome. split_and!.
  - intros f Hf Hmissing Hbefore. by rewrite (loaded_missing fs f).
  - destruct (loaded fs) as [e|[[[wc ds] us] ct]] eqn:Hloaded.
    + destruct e; try done. intros _.
      apply loaded_FileNotFoundError in Hloaded as [Hf Hmissing]. by eexists.
    + by destruct (layout _).1.
  - destruct (loaded fs) as [e|[[[wc ds] us] ct]].
    + destruct e; (split; [|by intros [? ?]]); try done; intros _; by eexists.
    + destruct (layout _).1 as [e|page]; (split; [|by intros [? ?]]); [|done].
      intros _. by exists e.
  - destruct (loaded fs) as [e|[[[wc ds] us] ct]].
    + destruct e; (split; [done|by intros [? ?]]).
    + destruct (layout _).1 as [e|page]; (split; [|by intros [? ?]]); [done|].
      intros _. by exists page.
Qed.

End endings.

(** ** The builders on the example files *)

Section examples.
Import Binary64 Examples.

Lemma word_count_chart_first_20_witness :
  ∃ fig w' xs,
    create_word_count_chart 0 (objects [word_counts]) = (inr fig, w') ∧
    length (marks fig) = 20 ∧
    (marks fig).*1 = CInt <$> xs ∧
    Sorted Z.le xs ∧
    marks fig ≡ₚ take 20 (zip (CInt <$> counts) (Series_values (Object words))).
Proof.
  apply (word_count_chart_first_20 (objects [word_counts]) 0 word_counts
           (Object words) counts);
    [reflexivity | repeat constructor | reflexivity | reflexivity | cbn; lia].
Defined.

(** The chart of the 21 example rows: the 21st word, [it], is not drawn,
    although it counts more than [by], [or] and [an]. *)
Example word_count_chart_example :
  ∃ fig w',
    create_word_count_chart 0 (objects [word_counts]) = (inr fig, w') ∧
    marks fig =
      zip (CInt <$> [3; 5; 9; 20; 30; 40; 50; 60; 70; 80;
                     90; 100; 150; 200; 250; 300; 350; 400; 450; 500]%Z)
          (CStr <$> ["an"; "or"; "by"; "at"; "be"; "are"; "as"; "was"; "this"; "with";
                     "that"; "on"; "for"; "is"; "in"; "and"; "of"; "to"; "a"; "the"]).
Proof. eexists _, _. split; reflexivity. Qed.

Lemma user_engagement_chart_first_10_witness :
  ∃ fig w' xs,
    create_user_engagement_chart 0 (objects [user_stats]) = (inr fig, w') ∧
    tr_type <$> fig_data fig = [Bar] ∧
    tr_orientation <$> fig_data fig = ["h"] ∧
    length (marks fig) = 10 ∧
    (marks fig).*1 = CInt <$> xs ∧
    Sorted Z.le xs ∧
    marks fig ≡ₚ take 10 (zip (CInt <$> engagement) (Series_values (Object users))).
Proof.
  apply (user_engagement_chart_first_10 (objects [user_stats]) 0 user_stats
           (Object users) engagement);
    [reflexivity | repeat constructor | reflexivity | reflexivity | cbn; lia].
Defined.

Lemma short_tables_one_bar_per_row_witness :
  (∃ fig w',
     create_word_count_chart 0
       (objects [short_word_counts; header_only ["user"; "total_engagement"; "total_likes"]])
       = (inr fig, w') ∧
     length (marks fig) = 3 ∧
     marks fig ≡ₚ zip (CInt <$> [7; 9; 8]%Z) (CStr <$> ["the"; "a"; "to"])) ∧
  (∃ fig w',
     create_user_engagement_chart 1
       (objects [short_word_counts; header_only ["user"; "total_engagement"; "total_likes"]])
       = (inr fig, w') ∧
     length (marks fig) = 0 ∧
     marks fig ≡ₚ []).
Proof.
  apply (short_tables_one_bar_per_row
           (objects [short_word_counts; header_only ["user"; "total_engagement"; "total_likes"]])
           0 short_word_counts (Object ["the"; "a"; "to"]) (Int64 [7; 9; 8]%Z)
           1 (header_only ["user"; "total_engagement"; "total_likes"])
           (Object []) (Object []));
    first [reflexivity | by repeat constructor | cbn; lia].
Defined.

Lemma sentiment_line_chart_row_order_witness :
  ∃ fig,
    create_sentiment_line_chart 0 (objects [parsed_sentiment])
      = (inr fig, objects [parsed_sentiment]) ∧
    tr_type <$> fig_data fig = [Scatter] ∧
    length (marks fig) = 3 ∧
    (marks fig).*1 = CDate <$> dates ∧
    (marks fig).*2 = CFloat <$> sentiments.
Proof.
  apply (sentiment_line_chart_row_order (objects [parsed_sentiment]) 0 parsed_sentiment
           (Datetime64 dates) (Float64 sentiments));
    first [reflexivity | by repeat constructor].
Defined.

(** Against C2 as stated: three rows that are not in the order of the
    calendar give three points in the order of the rows, 2024-01-02 before
    2024-01-01. *)
Lemma sentiment_line_chart_not_ascending :
  ∃ fig,
    create_sentiment_line_chart 0 (objects [parsed_sentiment])
      = (inr fig, objects [parsed_sentiment]) ∧
    (marks fig).*1 =
      CDate <$> [1704153600000000000; 1704067200000000000; 1704240000000000000]%Z ∧
    ¬ Sorted Z.le [1704153600000000000; 1704067200000000000; 1704240000000000000]%Z.
Proof.
  eexists. split_and!; [reflexivity..|].
  intros Hsorted. apply Sorted_inv in Hsorted as [_ Hhd].
  apply HdRel_inv in Hhd. lia.
Qed.

Lemma empty_tables_empty_charts_witness :
  (∃ fig w', create_word_count_chart 0 (objects [no_rows]) = (inr fig, w') ∧ marks fig = []) ∧
  (∃ fig w', create_user_engagement_chart 0 (objects [no_rows]) = (inr fig, w') ∧ marks fig = []) ∧
  (∃ fig w', create_sentiment_line_chart 0 (objects [no_rows]) = (inr fig, w') ∧ marks fig = []).
Proof.
  destruct (empty_tables_empty_charts (objects [no_rows]) 0 no_rows eq_refl)
    as (Hwords & Husers & Hsentiment); [by repeat constructor | reflexivity |].
  split_and!; [apply Hwords | apply Husers | apply Hsentiment];
    by repeat constructor.
Defined.

(** Against C6 as stated: there is no data frame without rows on which a
    chart builder fails by indexing past the rows. *)
Lemma no_chart_builder_indexes_past_the_rows :
  ¬ ∃ (P : Platform) (w : world) df table w',
      heap w !! df = Some table ∧ DataFrame_wf table ∧ DataFrame_len table = 0 ∧
      (create_word_count_chart df w = (inl IndexError, w') ∨
       create_user_engagement_chart df w = (inl IndexError, w') ∨
       create_sentiment_line_chart df w = (inl IndexError, w')).
Proof.
  intros (P & w & df & table & w' & Hdf & Hwf & _ & Hfail).
  destruct (chart_builders_no_IndexError w df table Hdf Hwf)
    as (Hwords & Husers & Hsentiment).
  destruct Hfail as [E|[E|E]].
  - by rewrite E in Hwords.
  - by rewrite E in Husers.
  - by rewrite E in Hsentiment.
Qed.

Lemma summary_card_statistics_witness :
  ∃ card sum quotient avg_likes,
    create_summary_card tables = (inr card, tables) ∧
    int_value sum = Some (foldr Z.add 0 likes)%Z ∧
    truediv sum (Z.of_nat (DataFrame_len cleaned_tweets)) = inr quotient ∧
    round quotient 2 = inr avg_likes ∧
    headings card =
      [Lit (format_thousands (DataFrame_len cleaned_tweets));
       Lit (format_thousands (DataFrame_len user_stats));
       format avg_likes].
Proof.
  apply (summary_card_statistics tables cleaned_tweets user_stats (Int64 likes) likes);
    [reflexivity | reflexivity | cbn; lia | reflexivity | reflexivity | cbn; lia].
Defined.

(** The card of the example files: 4 tweets, 11 users, 257 likes, hence
    64.25 likes for a tweet. *)
Example summary_card_example :
  ∃ card,
    create_summary_card tables = (inr card, tables) ∧
    headings card =
      [Lit "4"; Lit "11"; FloatStr (PrimFloat.div (of_int 6425) (of_int 100))].
Proof. exact (create_summary_card_run tables cleaned_tweets user_stats eq_refl eq_refl). Qed.

Lemma summary_card_no_tweets_witness :
  (Int64 [10; 2]%Z = Object [] →
   create_summary_card no_tweets = (inl ZeroDivisionError, no_tweets) ∧
   (layout no_tweets).1 = inl ZeroDivisionError) ∧
  (∀ likes, Int64 [10; 2]%Z = Int64 likes →
   ∃ card,
     create_summary_card no_tweets = (inr card, no_tweets) ∧
     headings card =
       [Lit "0";
        Lit (format_thousands (DataFrame_len short_user_stats));
        FloatStr (np_round (f64_div (f64_of_int (wrap64 (foldr Z.add 0%Z likes)))
                                    (f64_of_int 0)) 2)]).
Proof.
  apply (summary_card_no_tweets no_tweets (header_only ["user"; "text"])
           short_user_stats (Int64 [10; 2]%Z));
    reflexivity.
Defined.

(** Against C7 as stated: no cleaned tweet and two users with 12 likes.
    The builder does not fail; the card shows [inf]. *)
Lemma summary_card_no_tweets_no_crash :
  frame_of no_tweets "cleaned_tweets_df" = Some (header_only ["user"; "text"]) ∧
  DataFrame_len (header_only ["user"; "text"]) = 0 ∧
  ∃ card,
    create_summary_card no_tweets = (inr card, no_tweets) ∧
    headings card = [Lit "0"; Lit "2"; FloatStr PrimFloat.infinity].
Proof.
  split_and!; [reflexivity..|].
  exact (create_summary_card_run no_tweets (header_only ["user"; "text"])
           short_user_stats eq_refl eq_refl).
Qed.

Lemma loaded_tables_not_mutated_witness :
  extends tables (layout tables).2 ∧
  ∀ name table,
    name ∈ ["word_count_df"; "daily_sentiment_df"; "user_stats_df";
            "cleaned_tweets_df"; "emotions_sample_df"] →
    frame_of tables name = Some table → frame_of (layout tables).2 name = Some table.
Proof.
  apply (loaded_tables_not_mutated tables 0).
  do 4 apply list_elem_of_further. apply list_elem_of_here.
Defined.

Lemma missing_file_is_reported_witness :
  run (with_file "mapreduce_user_stats.csv" None files)
  = Exited (missing_file_report "mapreduce_user_stats.csv").
Proof.
  apply (proj1 (missing_file_is_reported (with_file "mapreduce_user_stats.csv" None files))).
  - repeat constructor.
  - reflexivity.
  - intros g Hg.
    apply elem_of_cons in Hg as [->|Hg]; [by eexists|].
    apply list_elem_of_singleton in Hg as ->. by eexists.
Defined.

(** The loading block on the example files parses the three dates. *)
Example loaded_example :
  loaded files = inr (word_counts, parsed_sentiment, user_stats, cleaned_tweets).
Proof. reflexivity. Qed.

(** A file that is there but has no header line ends the script with a
    traceback, although a file read after it is missing. *)
Example empty_file_before_missing_file :
  run (with_file "mapreduce_word_count.csv" (Some EmptyFile)
         (with_file "mapreduce_user_stats.csv" None files))
  = Crashed ["Loading data from R analysis outputs..."] EmptyDataError.
Proof. reflexivity. Qed.

(** The example files: the server starts; the page shows the three
    statistics and the three charts. *)
Example run_example :
  ∃ out page,
    run files = Serving out page ∧
    headings page =
      [Lit "4"; Lit "11"; FloatStr (PrimFloat.div (of_int 6425) (of_int 100));
       Lit "Text Analysis"; Lit "User Performance"; Lit "Time-Series Analysis"].
Proof.
  rewrite (run_loaded files word_counts parsed_sentiment user_stats cleaned_tweets tables)
    by reflexivity.
  assert (match (layout tables).1 with
          | inr page =>
              headings page =
                [Lit "4"; Lit "11"; FloatStr (PrimFloat.div (of_int 6425) (of_int 100));
                 Lit "Text Analysis"; Lit "User Performance"; Lit "Time-Series Analysis"]
          | inl _ => False
          end) as Hpage by reflexivity.
  destruct (layout tables).1 as [e|page]; [done|]. by eexists _, _.
Qed.

(** With the cleaned tweets reduced to the header line the server starts
    as well: the card shows [inf] for the average. *)
Example no_tweets_example :
  ∃ out page,
    run (with_file "tweets_cleaned.csv" (Some (Csv (header_only ["user"; "text"]))) files)
    = Serving out page ∧
    headings page =
      [Lit "0"; Lit "11"; FloatStr PrimFloat.infinity;
       Lit "Text Analysis"; Lit "User Performance"; Lit "Time-Series Analysis"].
Proof.
  set (w := module [("word_count_df", word_counts);
                    ("daily_sentiment_df", parsed_sentiment);
                    ("user_stats_df", user_stats);
                    ("cleaned_tweets_df", header_only ["user"; "text"])]).
  rewrite (run_loaded _ word_counts parsed_sentiment user_stats
             (header_only ["user"; "text"]) w) by reflexivity.
  assert (match (layout w).1 with
          | inr page =>
              headings page =
                [Lit "0"; Lit "11"; FloatStr PrimFloat.infinity;
                 Lit "Text Analysis"; Lit "User Performance"; Lit "Time-Series Analysis"]
          | inl _ => False
          end) as Hpage by reflexivity.
  destruct (layout w).1 as [e|page]; [done|]. by eexists _, _.
Qed.

(** With the cleaned tweets and the user statistics reduced to the header
    line, the
    division raises and nothing catches it. *)
Example no_tweets_no_users_example :
  run (with_file "tweets_cleaned.csv" (Some (Csv (header_only ["user"; "text"])))
         (with_file "mapreduce_user_stats.csv"
            (Some (Csv (header_only ["user"; "total_engagement"; "total_likes"])))
            files))
  = Crashed ["Loading data from R analysis outputs..."] ZeroDivisionError.
Proof. reflexivity. Qed.

(** ** The further properties on the example files *)

Lemma load_data_binds_the_tables_witness :
  ∃ w,
    load_data files initial = (inr (), w) ∧
    stdout w = [] ∧
    frame_of w "word_count_df" = Some word_counts ∧
    frame_of w "daily_sentiment_df"
      = Some (DataFrame_setitem daily_sentiment "date" (Datetime64 dates)) ∧
    frame_of w "user_stats_df" = Some user_stats ∧
    frame_of w "cleaned_tweets_df" = Some cleaned_tweets ∧
    frame_of w "emotions_sample_df" = Some (DataFrame_head cleaned_tweets 1000).
Proof.
  apply (load_data_binds_the_tables files word_counts daily_sentiment user_stats
           cleaned_tweets (Object ["2024-01-02"; "2024-01-01"; "2024-01-03"])
           (Datetime64 dates));
    reflexivity.
Defined.

Lemma loaded_names_are_distinct_objects_witness :
  ∃ l l',
    globals loaded_world !! "cleaned_tweets_df" = Some l ∧
    globals loaded_world !! "emotions_sample_df" = Some l' ∧
    l ≠ l' ∧ is_Some (heap loaded_world !! l) ∧ is_Some (heap loaded_world !! l').
Proof.
  apply (loaded_names_are_distinct_objects files loaded_world
           "cleaned_tweets_df" "emotions_sample_df").
  - reflexivity.
  - do 3 apply list_elem_of_further. apply list_elem_of_here.
  - do 4 apply list_elem_of_further. apply list_elem_of_here.
  - discriminate.
Defined.

Lemma dates_are_parsed_in_place_witness :
  ∃ ds timestamps,
    frame_of loaded_world "daily_sentiment_df" = Some ds ∧
    ds.*1 = daily_sentiment.*1 ∧
    DataFrame_column ds "date" = Some (Datetime64 timestamps) ∧
    (∀ c, c ≠ "date" → DataFrame_column ds c = DataFrame_column daily_sentiment c) ∧
    (DataFrame_wf daily_sentiment →
     DataFrame_wf ds ∧ DataFrame_len ds = DataFrame_len daily_sentiment ∧
     length timestamps = DataFrame_len daily_sentiment).
Proof.
  apply (dates_are_parsed_in_place files daily_sentiment loaded_world); reflexivity.
Defined.

Lemma unreadable_file_is_not_handled_witness :
  run (with_file "mapreduce_daily_sentiment.csv" (Some Garbled) files)
  = Crashed ["Loading data from R analysis outputs..."] ParserError.
Proof.
  apply (proj2 (unreadable_file_is_not_handled
                  (with_file "mapreduce_daily_sentiment.csv" (Some Garbled) files)
                  "mapreduce_daily_sentiment.csv"
                  ltac:(apply list_elem_of_further, list_elem_of_here)
                  ltac:(intros g Hg; apply list_elem_of_singleton in Hg as ->;
                        by eexists))).
  reflexivity.
Defined.

Lemma date_errors_are_not_handled_witness :
  run (with_file "mapreduce_daily_sentiment.csv" (Some (Csv sentiment_without_dates)) files)
  = Crashed ["Loading data from R analysis outputs..."] (KeyError "date").
Proof.
  apply (proj1 (date_errors_are_not_handled
                  (with_file "mapreduce_daily_sentiment.csv"
                     (Some (Csv sentiment_without_dates)) files)
                  word_counts sentiment_without_dates user_stats cleaned_tweets
                  eq_refl eq_refl eq_refl eq_refl)).
  reflexivity.
Defined.

Lemma only_the_four_files_matter_witness :
  run files = run (with_file "notes.txt" (Some Garbled) files).
Proof.
  apply (only_the_four_files_matter files (with_file "notes.txt" (Some Garbled) files)).
  intros f Hf. unfold required_files in Hf.
  repeat (apply elem_of_cons in Hf as [->|Hf]); try reflexivity.
  by apply elem_of_nil in Hf.
Defined.

Lemma server_starts_on_well_formed_files_witness :
  ∃ page,
    run files = Serving startup_report page ∧
    (length ∘ marks) <$> graphs page = [20; 10; 3].
Proof.
  apply (server_starts_on_well_formed_files files word_counts daily_sentiment user_stats
           cleaned_tweets (Object ["2024-01-02"; "2024-01-01"; "2024-01-03"])
           (Datetime64 dates) (Int64 likes));
    first [reflexivity | by repeat constructor].
Defined.

Lemma server_starts_only_with_the_columns_witness :
  ∃ wc ds us ct date parsed,
    files "mapreduce_word_count.csv" = Some (Csv wc) ∧
    files "mapreduce_daily_sentiment.csv" = Some (Csv ds) ∧
    files "mapreduce_user_stats.csv" = Some (Csv us) ∧
    files "tweets_cleaned.csv" = Some (Csv ct) ∧
    has_columns wc ["total_count"; "word"] ∧
    has_columns ds ["date"; "avg_sentiment"] ∧
    has_columns us ["total_likes"; "total_engagement"; "user"] ∧
    DataFrame_column ds "date" = Some date ∧
    to_datetime date = inr parsed.
Proof.
  apply (server_starts_only_with_the_columns files startup_report example_page).
  reflexivity.
Defined.

Lemma summary_card_error_comes_first_witness :
  run (with_file "mapreduce_user_stats.csv" (Some (Csv user_stats_without_likes)) files)
  = Crashed ["Loading data from R analysis outputs..."] (KeyError "total_likes").
Proof.
  apply (proj1 (summary_card_error_comes_first
                  (with_file "mapreduce_user_stats.csv"
                     (Some (Csv user_stats_without_likes)) files)
                  word_counts daily_sentiment user_stats_without_likes cleaned_tweets
                  (Object ["2024-01-02"; "2024-01-01"; "2024-01-03"]) (Datetime64 dates)
                  eq_refl eq_refl eq_refl eq_refl eq_refl eq_refl)).
  reflexivity.
Defined.

Lemma bar_charts_missing_column_witness :
  (create_word_count_chart 0 (objects [cleaned_tweets])).1
    = inl (KeyError "total_count") ∧
  (create_user_engagement_chart 0 (objects [cleaned_tweets])).1
    = inl (KeyError "total_engagement").
Proof.
  destruct (bar_charts_missing_column (objects [cleaned_tweets]) 0 cleaned_tweets eq_refl)
    as (Hwords & _ & Husers & _).
  split; [apply Hwords | apply Husers]; reflexivity.
Defined.

Lemma line_chart_fails_on_a_missing_column_only_witness :
  (create_sentiment_line_chart 0 (objects [sentiment_without_dates])).2
    = objects [sentiment_without_dates] ∧
  ((∃ fig, (create_sentiment_line_chart 0 (objects [sentiment_without_dates])).1 = inr fig)
   ↔ has_columns sentiment_without_dates ["date"; "avg_sentiment"]) ∧
  (∀ e, (create_sentiment_line_chart 0 (objects [sentiment_without_dates])).1 = inl e →
        ∃ msg, e = ValueError msg).
Proof.
  apply (line_chart_fails_on_a_missing_column_only (objects [sentiment_without_dates]) 0
           sentiment_without_dates).
  reflexivity.
Defined.

Lemma bar_charts_read_the_first_rows_only_witness :
  (create_word_count_chart 0 (objects [word_counts])).1
  = (create_word_count_chart 0 (objects [DataFrame_head word_counts 20])).1.
Proof.
  apply (proj1 (bar_charts_read_the_first_rows_only
                  (objects [word_counts]) 0 word_counts
                  (objects [DataFrame_head word_counts 20]) 0
                  (DataFrame_head word_counts 20) eq_refl eq_refl)).
  reflexivity.
Defined.

Lemma top_bar_is_the_largest_witness :
  (∃ fig w' top word,
     create_word_count_chart 0 (objects [word_counts; user_stats]) = (inr fig, w') ∧
     last (marks fig) = Some (CInt top, word) ∧
     (CInt top, word) ∈ take 20 (zip (CInt <$> counts) (Series_values (Object words))) ∧
     ∀ z, z ∈ take 20 counts → (z ≤ top)%Z) ∧
  (∃ fig w' top user,
     create_user_engagement_chart 1 (objects [word_counts; user_stats]) = (inr fig, w') ∧
     last (marks fig) = Some (CInt top, user) ∧
     (CInt top, user) ∈ take 10 (zip (CInt <$> engagement) (Series_values (Object users))) ∧
     ∀ z, z ∈ take 10 engagement → (z ≤ top)%Z).
Proof.
  apply (top_bar_is_the_largest (objects [word_counts; user_stats])
           0 word_counts (Object words) counts 1 user_stats (Object users) engagement);
    first [reflexivity | by repeat constructor | cbn; lia].
Defined.


Lemma summary_card_int64_sum_witness :
  ∃ card sum,
    create_summary_card tables = (inr card, tables) ∧
    (- 2 ^ 63 ≤ sum < 2 ^ 63)%Z ∧
    (sum `mod` 2 ^ 64 = foldr Z.add 0 likes `mod` 2 ^ 64)%Z ∧
    headings card =
      [Lit (format_thousands (DataFrame_len cleaned_tweets));
       Lit (format_thousands (DataFrame_len user_stats));
       FloatStr (np_round (f64_div (f64_of_int sum)
                                   (f64_of_int (Z.of_nat (DataFrame_len cleaned_tweets)))) 2)].
Proof.
  apply (summary_card_int64_sum tables cleaned_tweets user_stats likes); reflexivity.
Defined.

Lemma summary_card_counts_read_back_witness :
  ∃ tweets users shown_tweets shown_users shown_average,
    frame_of tables "cleaned_tweets_df" = Some tweets ∧
    frame_of tables "user_stats_df" = Some users ∧
    headings example_card = [Lit shown_tweets; Lit shown_users; shown_average] ∧
    strip_commas shown_tweets = pretty (DataFrame_len tweets) ∧
    strip_commas shown_users = pretty (DataFrame_len users).
Proof.
  apply (summary_card_counts_read_back tables example_card tables). reflexivity.
Defined.

Lemma layout_page_witness :
  ∃ page,
    (layout tables).1 = inr page ∧
    graphs page = [words_chart; users_chart; sentiment_chart] ∧
    headings page =
      headings example_card ++
      [Lit "Text Analysis"; Lit "User Performance"; Lit "Time-Series Analysis"].
Proof.
  apply (layout_page tables 0 2 1 example_card words_chart users_chart sentiment_chart);
    reflexivity.
Defined.

Lemma layout_fails_with_the_first_failure_witness :
  (layout tables_without_likes).1 = inl (KeyError "total_likes").
Proof.
  apply (proj1 (layout_fails_with_the_first_failure tables_without_likes 0 2 1
                  word_counts user_stats_without_likes parsed_sentiment
                  (KeyError "total_likes")
                  eq_refl eq_refl eq_refl eq_refl eq_refl eq_refl)).
  reflexivity.
Defined.

Lemma layout_depends_on_the_four_tables_witness :
  (layout tables).1 = (layout loaded_world).1.
Proof.
  apply (layout_depends_on_the_four_tables tables loaded_world).
  intros name Hname. unfold used_names in Hname.
  repeat (apply elem_of_cons in Hname as [->|Hname]);
    try (by apply elem_of_nil in Hname);
    eexists; split; reflexivity.
Defined.

Lemma bar_charts_are_ascending_witness :
  (∃ fig w' xs,
     create_word_count_chart 0 (objects [short_word_counts; short_user_stats]) = (inr fig, w') ∧
     (marks fig).*1 = CInt <$> xs ∧ Sorted Z.le xs ∧ xs ≡ₚ take 20 [7; 9; 8]%Z) ∧
  (∃ fig w' xs,
     create_user_engagement_chart 1 (objects [short_word_counts; short_user_stats])
       = (inr fig, w') ∧
     (marks fig).*1 = CInt <$> xs ∧ Sorted Z.le xs ∧ xs ≡ₚ take 10 [12; 3]%Z).
Proof.
  apply (bar_charts_are_ascending (objects [short_word_counts; short_user_stats])
           0 short_word_counts (Object ["the"; "a"; "to"]) [7; 9; 8]%Z
           1 short_user_stats (Object ["ann"; "bob"]) [12; 3]%Z);
    first [reflexivity | by repeat constructor].
Defined.

(** A thousand and more: the separators of the card. *)
Example format_thousands_example :
  format_thousands 4321 = "4,321" ∧ format_thousands 1000 = "1,000" ∧
  format_thousands 999 = "999".
Proof. by split_and!. Qed.

End examples.
